(** * IT-OMC/Dashboard: ingestion, window filter and aggregation

    A shallow embedding of the data service ([fetchSheetData], [parseNumber]),
    of the dashboard component ([loadData], the timers, [filteredInquiries],
    [stats], [CategoryCard]) and of the login form ([handleSubmit]), followed
    by the properties the specification states about them.

    Sources.
    - [DataService]: the inquiry data service with the cache-busted fetch
      and the dynamic first column (source file part_001).
    - [LegacyDataService]: the inquiry data service that reads the identifier
      under fixed header names (source file part_003).
    - [App]: the inquiry dashboard, first component of src/App.tsx.
    - [ShipmentApp]: the shipment dashboard (source file part_000, and the
      last component of src/App.tsx).
    - [Login]: src/components/Login.tsx.

    Modelling conventions.
    - A JavaScript number is an IEEE-754 binary64 value, represented by
      [spec_float] with precision 53 and maximal exponent 1024.
    - A JavaScript string is the [string] of the bytes of its UTF-8
      encoding. The texts of the sheet come from [response.text()], a UTF-8
      decoding, so they are well-formed; searching and splitting by bytes
      then agree with searching and splitting by UTF-16 code units. White
      space is the white space of ECMAScript. [slice] counts UTF-16 code
      units ([utf16]).
    - [String.prototype.toUpperCase] and the month names of the locale are
      given by the engine: they are parameters of the window filter.
    - React discards the state updates of a component that is no longer
      mounted.
    - [undefined] and [null] are [None] in an [option].
    - A parsed row (a plain object keyed by header) is a [gmap string string];
      a header that is not a key of the row reads as [undefined]. *)

From Stdlib Require Import ZArith List String Ascii Bool Lia.
From Stdlib Require Import Floats.SpecFloat.
From Stdlib Require Import DecimalString.
From stdpp Require Import gmap strings.
Import ListNotations.

Local Open Scope Z_scope.
Local Open Scope string_scope.

(** ** JavaScript built-ins used by the sources *)

Module JS.

Definition number := spec_float.
Definition prec : Z := 53.
Definition emax : Z := 1024.

Definition NaN : number := S754_nan.
Definition zero : number := S754_zero false.
Definition of_Z (z : Z) : number := binary_normalize prec emax z 0 false.

Definition add : number -> number -> number := SFadd prec emax.
Definition sub : number -> number -> number := SFsub prec emax.
Definition mul : number -> number -> number := SFmul prec emax.
Definition div : number -> number -> number := SFdiv prec emax.

(** [x === y], [x > y] on numbers. *)
Definition strict_eq (x y : number) : bool := SFeqb x y.
Definition gt (x y : number) : bool := SFltb y x.

Definition isNaN (x : number) : bool :=
  match x with S754_nan => true | _ => false end.

Definition isFinite (x : number) : bool :=
  match x with S754_zero _ | S754_finite _ _ _ => true | _ => false end.

Definition is_zero (x : number) : bool :=
  match x with S754_zero _ => true | _ => false end.

(** ToBoolean on a number: [0], [-0] and [NaN] are falsy. *)
Definition truthy_num (x : number) : bool := negb (is_zero x || isNaN x).

(** ToBoolean on [string | undefined]: [undefined] and [''] are falsy. *)
Definition truthy (v : option string) : bool :=
  match v with
  | Some EmptyString => false
  | Some _ => true
  | None => false
  end.

(** [a || b] on [string | undefined]. *)
Definition or_else (a b : option string) : option string :=
  if truthy a then a else b.

(** [a || ''], whose result is always a string. *)
Definition or_empty (a : option string) : string :=
  match or_else a (Some EmptyString) with
  | Some s => s
  | None => EmptyString
  end.

(** [x || 0] on numbers. *)
Definition or_zero (x : number) : number :=
  if truthy_num x then x else zero.

(** *** Strings *)

Definition is_digit (c : ascii) : bool :=
  let n := N_of_ascii c in ((48 <=? n) && (n <=? 57))%N.

Definition digit_val (c : ascii) : Z := Z.of_N (N_of_ascii c) - 48.

(** The white space [String.prototype.trim] and the regular-expression
    class [\s] remove, by the bytes of its UTF-8 encoding:
    U+0009..U+000D and U+0020 (one byte), U+00A0 (two bytes), and U+1680,
    U+2000..U+200A, U+2028, U+2029, U+202F, U+205F, U+3000 and U+FEFF
    (three bytes). *)
Definition white_space1 (a : ascii) : bool :=
  let x := N_of_ascii a in
  ((9 <=? x) && (x <=? 13) || (x =? 32))%N.

Definition white_space2 (a b : ascii) : bool :=
  ((N_of_ascii a =? 194) && (N_of_ascii b =? 160))%N.

Definition white_space3 (a b c : ascii) : bool :=
  let x := N_of_ascii a in
  let y := N_of_ascii b in
  let z := N_of_ascii c in
  ((x =? 225) && (y =? 154) && (z =? 128)
   || (x =? 226) && (y =? 128)
      && ((128 <=? z) && (z <=? 138) || (z =? 168) || (z =? 169)
          || (z =? 175))
   || (x =? 226) && (y =? 129) && (z =? 159)
   || (x =? 227) && (y =? 128) && (z =? 128)
   || (x =? 239) && (y =? 187) && (z =? 191))%N.

(** The text after the white-space character [s] begins with, if it
    begins with one. *)
Definition skip_white_space (s : string) : option string :=
  match s with
  | String a t =>
      if white_space1 a then Some t
      else match t with
           | String b t' =>
               if white_space2 a b then Some t'
               else match t' with
                    | String c t'' =>
                        if white_space3 a b c then Some t'' else None
                    | EmptyString => None
                    end
           | EmptyString => None
           end
  | EmptyString => None
  end.

Fixpoint trimStart (s : string) : string :=
  match s with
  | String a t =>
      if white_space1 a then trimStart t
      else match t with
           | String b t' =>
               if white_space2 a b then trimStart t'
               else match t' with
                    | String c t'' =>
                        if white_space3 a b c then trimStart t'' else s
                    | EmptyString => s
                    end
           | EmptyString => s
           end
  | EmptyString => EmptyString
  end.

(** [trimEnd] removes the longest suffix that is white space only: a text
    that [trimStart] empties is white space only. *)
Fixpoint trimEnd (s : string) : string :=
  match s with
  | String c t =>
      match trimStart s with
      | EmptyString => EmptyString
      | String _ _ => String c (trimEnd t)
      end
  | EmptyString => EmptyString
  end.

Definition trim (s : string) : string := trimEnd (trimStart s).

(** The UTF-16 code units of a text: one unit for a character of one, two
    or three bytes, a surrogate pair for a character of four bytes. *)
Fixpoint utf16 (s : string) : list N :=
  match s with
  | String a t =>
      let x := N_of_ascii a in
      if (x <? 128)%N then x :: utf16 t
      else match t with
           | String b t1 =>
               let y := (N_of_ascii b mod 64)%N in
               if (x <? 224)%N then ((x mod 32) * 64 + y)%N :: utf16 t1
               else match t1 with
                    | String c t2 =>
                        let z := (N_of_ascii c mod 64)%N in
                        if (x <? 240)%N
                        then ((x mod 16) * 4096 + y * 64 + z)%N :: utf16 t2
                        else match t2 with
                             | String d t3 =>
                                 let w := (N_of_ascii d mod 64)%N in
                                 let v := ((x mod 8) * 262144 + y * 4096
                                           + z * 64 + w - 65536)%N in
                                 (55296 + v / 1024)%N
                                   :: (56320 + v mod 1024)%N :: utf16 t3
                             | EmptyString => [65533%N]
                             end
                    | EmptyString => [65533%N]
                    end
           | EmptyString => [65533%N]
           end
  | EmptyString => []
  end.

Fixpoint startsWith (s needle : string) : bool :=
  match needle, s with
  | EmptyString, _ => true
  | String a n', String b s' => Ascii.eqb a b && startsWith s' n'
  | String _ _, EmptyString => false
  end.

Fixpoint includes (s needle : string) : bool :=
  startsWith s needle ||
  match s with
  | String _ t => includes t needle
  | EmptyString => false
  end.

(** *** String to number

    [StringToNumber] is the conversion [Number(text)] performs, restricted
    to the alphabet the callers leave in the text (decimal digits, [.] and
    [-]): an optional minus sign followed by [digits], [digits.],
    [digits.digits] or [.digits] denotes the decimal value rounded to the
    nearest binary64 (ties to even, overflow to an infinity); the empty
    text is [+0]; every other text over that alphabet is [NaN]. *)

Fixpoint span_digits (s : string) : string * string :=
  match s with
  | String c t =>
      if is_digit c
      then let (d, r) := span_digits t in (String c d, r)
      else (EmptyString, s)
  | EmptyString => (EmptyString, EmptyString)
  end.

Fixpoint MV_digits (acc : Z) (s : string) : Z :=
  match s with
  | String c t => MV_digits (10 * acc + digit_val c) t
  | EmptyString => acc
  end.

Definition is_empty (s : string) : bool :=
  match s with EmptyString => true | _ => false end.

(** The mathematical value of an unsigned literal as [(n, k)], standing for
    [n / 10 ^ k]. *)
Definition StrUnsignedDecimalLiteral (s : string) : option (Z * Z) :=
  let (ip, r) := span_digits s in
  match r with
  | EmptyString =>
      if is_empty ip then None else Some (MV_digits 0 ip, 0)
  | String "."%char f =>
      let (fp, r') := span_digits f in
      match r' with
      | EmptyString =>
          if is_empty ip && is_empty fp then None
          else Some (MV_digits (MV_digits 0 ip) fp,
                     Z.of_nat (String.length fp))
      | String _ _ => None
      end
  | String _ _ => None
  end.

Definition RoundMV (neg : bool) (n k : Z) : number :=
  match n with
  | Zpos p =>
      div (S754_finite neg p 0) (S754_finite false (Z.to_pos (10 ^ k)) 0)
  | _ => S754_zero neg
  end.

Definition StringToNumber (s : string) : number :=
  match s with
  | EmptyString => zero
  | String "-"%char body =>
      match StrUnsignedDecimalLiteral body with
      | Some (n, k) => RoundMV true n k
      | None => NaN
      end
  | String _ _ =>
      match StrUnsignedDecimalLiteral s with
      | Some (n, k) => RoundMV false n k
      | None => NaN
      end
  end.

(** *** Math.round: the nearest integer, ties towards +infinity. *)
Definition Math_round (x : number) : number :=
  match x with
  | S754_finite s m e =>
      let v := if s then Z.neg m else Z.pos m in
      let r := match e with
               | Zneg k => Z.shiftr (2 * v + 2 ^ Z.pos k) (Z.pos k + 1)
               | _ => v * 2 ^ e
               end in
      binary_normalize prec emax r 0 s
  | _ => x
  end.

(** *** Dates

    A [Date] is read through its local-time fields only: the year, the
    month index (0 = January) and the day of the month. *)
Record Date := mkDate { getFullYear : Z; getMonth : Z; getDate : Z }.

Definition isLeapYear (y : Z) : bool :=
  ((y mod 4 =? 0) && negb (y mod 100 =? 0) || (y mod 400 =? 0))%Z.

Definition daysInMonth (y m : Z) : Z :=
  match m with
  | 1 => if isLeapYear y then 29 else 28
  | 3 | 5 | 8 | 10 => 30
  | _ => 31
  end.

(** [d.setDate(d.getDate() - 1)]: the previous calendar day; day 0 of a
    month is the last day of the month before it. *)
Definition setDate_prev (d : Date) : Date :=
  if (1 <? getDate d)%Z then mkDate (getFullYear d) (getMonth d) (getDate d - 1)
  else if (0 <? getMonth d)%Z
       then mkDate (getFullYear d) (getMonth d - 1)
                   (daysInMonth (getFullYear d) (getMonth d - 1))
       else mkDate (getFullYear d - 1) 11 31.

(** The day number of a date (days since 1 January 1970), as [MakeDay]
    computes it from a year, a month index in 0..11 and a day of the month. *)
Definition DayFromYear (y : Z) : Z :=
  365 * (y - 1970) + (y - 1969) / 4 - (y - 1901) / 100 + (y - 1601) / 400.

Definition leapDays (y : Z) : Z := if isLeapYear y then 1 else 0.

Definition dayWithinYear (y m : Z) : Z :=
  match m with
  | 0 => 0
  | 1 => 31
  | 2 => 59 + leapDays y
  | 3 => 90 + leapDays y
  | 4 => 120 + leapDays y
  | 5 => 151 + leapDays y
  | 6 => 181 + leapDays y
  | 7 => 212 + leapDays y
  | 8 => 243 + leapDays y
  | 9 => 273 + leapDays y
  | 10 => 304 + leapDays y
  | _ => 334 + leapDays y
  end.

Definition MakeDay (year month date : Z) : Z :=
  DayFromYear year + dayWithinYear year month + date - 1.

(** [toLocaleString(locale, { month: 'long' })] in an English locale. *)
Definition monthLong_en (m : Z) : string :=
  match m with
  | 0 => "January" | 1 => "February" | 2 => "March" | 3 => "April"
  | 4 => "May" | 5 => "June" | 6 => "July" | 7 => "August"
  | 8 => "September" | 9 => "October" | 10 => "November"
  | _ => "December"
  end.

End JS.

Import JS.

(** ** The inquiry data service ([fetchSheetData], dynamic first column) *)

Module DataService.

Record Inquiry := mkInquiry {
  rowNum : number;
  year : number;
  month : string;
  date : number;
  folderNumber : string;
  week : string;
  vesselName : string;
  eta : string;
  port : string;
  principal : string;
  country : string;
  service : string;
  category : string;
  qtnValue : number;
  qtnCost : number;
  qtnProfit : number;
  qtnMargin : number;
  marginPercent : number;
  discountPercent : string;
  qtnStatus : string;
  update : string;
  contactPerson : string;
  contactNumber : string;
  contactEmail : string;
  pic : string;
  clientStatus : string;
  remarks : string;
  rfqNumber : string
}.

(** The character class [0-9.\-] of the cleaning pattern. *)
Definition numeric_char (c : ascii) : bool :=
  is_digit c || Ascii.eqb c "."%char || Ascii.eqb c "-"%char.

(** [text.replace(/[^0-9.\-]+/g, '')]: every run of characters outside the
    class is removed. *)
Fixpoint replace_non_numeric (s : string) : string :=
  match s with
  | String c t =>
      if numeric_char c then String c (replace_non_numeric t)
      else replace_non_numeric t
  | EmptyString => EmptyString
  end.

Definition parseNumber (val : option string) : number :=
  if negb (truthy val) then zero
  else
    let cleaned := replace_non_numeric (or_empty val) in
    let num := StringToNumber cleaned in
    if isNaN num then zero else num.

(** What the CSV parser hands to [complete]: the header list
    [results.meta.fields] (optional in its type) and the rows. *)
Record ParseResult := mkParseResult {
  meta_fields : option (list string);
  data : list (gmap string string)
}.

(** [results.meta.fields ? results.meta.fields[0] : 'FOLDER NUMBER'];
    [None] is [undefined], the value of [fields[0]] on an empty list. *)
Definition firstHeader (results : ParseResult) : option string :=
  match meta_fields results with
  | Some fields => head fields
  | None => Some "FOLDER NUMBER"
  end.

(** [row[key]] for a computed key: [undefined] is the property name
    ['undefined']. *)
Definition get (row : gmap string string) (key : option string)
  : option string :=
  match key with
  | Some k => row !! k
  | None => row !! "undefined"
  end.

Definition mapRow (firstHeader : option string) (row : gmap string string)
  : Inquiry :=
  {| rowNum := or_zero (parseNumber (get row firstHeader));
     year := parseNumber (row !! "YEAR");
     month := or_empty (row !! "MONTH");
     date := parseNumber (row !! "DATE");
     folderNumber := or_empty (get row firstHeader);
     week := or_empty (or_else (row !! "WEEK ") (row !! "WEEK"));
     vesselName := trim (or_empty (row !! "VESSEL NAME"));
     eta := or_empty (row !! "ETA");
     port := or_empty (row !! "PORT");
     principal := or_empty (row !! "PRINCIPAL");
     country := or_empty (row !! "COUNTRY");
     service := or_empty (row !! "SERVICE");
     category := or_empty (row !! "CATEGORY");
     qtnValue := parseNumber (row !! "PDA / QTN VALUE");
     qtnCost := parseNumber (or_else (row !! "PDA / QTN  COST")
                                     (row !! "PDA / QTN COST"));
     qtnProfit := parseNumber (row !! "PDA / QTN PROFIT");
     qtnMargin := parseNumber (row !! "PDA / QTN MARGIN");
     marginPercent := parseNumber (row !! "MARGIN %");
     discountPercent := or_empty (row !! "DISCOUNT %");
     qtnStatus := trim (or_empty (row !! "QTN STATUS"));
     update := trim (or_empty (row !! "UPDATE"));
     contactPerson := trim (or_empty (or_else (row !! "CONTACT PERSON ")
                                              (row !! "CONTACT PERSON")));
     contactNumber := or_empty (row !! "CONTACT NUMBER");
     contactEmail := or_empty (row !! "CONTACT PERSON'S EMAIL");
     pic := or_empty (row !! "PIC");
     clientStatus := or_empty (row !! "CLIENT STATUS");
     remarks := or_empty (row !! "REMARKS");
     rfqNumber := or_empty (row !! "RFQ NUMBERS / ITEM DESCRIPTION") |}.

Definition parsedData (results : ParseResult) : list Inquiry :=
  List.map (mapRow (firstHeader results)) (data results).

(** [item.vesselName || item.qtnValue > 0 || item.rowNum > 0] as the
    filter reads it. *)
Definition keep (item : Inquiry) : bool :=
  truthy (Some (vesselName item))
  || gt (qtnValue item) zero
  || gt (rowNum item) zero.

Definition validData (results : ParseResult) : list Inquiry :=
  List.filter keep (parsedData results).

(** One fetch cycle as the environment decides it: [fetch] (or
    [response.text()]) rejects, or a response arrives whose body the CSV
    parser either completes on or reports an error for. *)
Inductive PapaOutcome :=
| Complete (results : ParseResult)
| ParseError (message : string).

Inductive Cycle :=
| NetworkError (message : string)
| Response (ok : bool) (statusText : string) (papa : PapaOutcome).

Inductive Promise (A : Type) :=
| Fulfilled (value : A)
| Rejected (reason : string).
Arguments Fulfilled {A} value.
Arguments Rejected {A} reason.

Inductive Completion (A : Type) :=
| Normal (value : A)
| Throw (error : string).
Arguments Normal {A} value.
Arguments Throw {A} error.

(** The body of the [try]: the awaited calls throw into the [catch]; the
    promise around the parser is returned without being awaited, so its
    rejection is not an exception of the block. *)
Definition try_block (c : Cycle) : Completion (Promise (list Inquiry)) :=
  match c with
  | NetworkError message => Throw message
  | Response ok statusText papa =>
      if negb ok then Throw ("Failed to fetch data: " +:+ statusText)
      else Normal match papa with
                  | Complete results => Fulfilled (validData results)
                  | ParseError message => Rejected message
                  end
  end.

(** [catch (error) { console.error(...); return []; }] *)
Definition fetchSheetData (c : Cycle) : Promise (list Inquiry) :=
  match try_block c with
  | Normal p => p
  | Throw _ => Fulfilled []
  end.

End DataService.

(** ** The earlier inquiry data service (fixed header names) *)

Module LegacyDataService.
Import DataService.

Definition mapRow (row : gmap string string) : Inquiry :=
  {| rowNum := or_zero (parseNumber (row !! ""));
     year := parseNumber (row !! "YEAR");
     month := or_empty (row !! "MONTH");
     date := parseNumber (row !! "DATE");
     folderNumber := or_empty (row !! "FOLDER NUMBER");
     week := or_empty (or_else (row !! "WEEK ") (row !! "WEEK"));
     vesselName := trim (or_empty (row !! "VESSEL NAME"));
     eta := or_empty (row !! "ETA");
     port := or_empty (row !! "PORT");
     principal := or_empty (row !! "PRINCIPAL");
     country := or_empty (row !! "COUNTRY");
     service := or_empty (row !! "SERVICE");
     category := or_empty (row !! "CATEGORY");
     qtnValue := parseNumber (row !! "PDA / QTN VALUE");
     qtnCost := parseNumber (or_else (row !! "PDA / QTN  COST")
                                     (row !! "PDA / QTN COST"));
     qtnProfit := parseNumber (row !! "PDA / QTN PROFIT");
     qtnMargin := parseNumber (row !! "PDA / QTN MARGIN");
     marginPercent := parseNumber (row !! "MARGIN %");
     discountPercent := or_empty (row !! "DISCOUNT %");
     qtnStatus := trim (or_empty (row !! "QTN STATUS"));
     update := trim (or_empty (row !! "UPDATE"));
     contactPerson := trim (or_empty (or_else (row !! "CONTACT PERSON ")
                                              (row !! "CONTACT PERSON")));
     contactNumber := or_empty (row !! "CONTACT NUMBER");
     contactEmail := or_empty (row !! "CONTACT PERSON'S EMAIL");
     pic := or_empty (row !! "PIC");
     clientStatus := or_empty (row !! "CLIENT STATUS");
     remarks := or_empty (row !! "REMARKS");
     rfqNumber := or_empty (row !! "RFQ NUMBERS / ITEM DESCRIPTION") |}.

Definition parsedData (results : ParseResult) : list Inquiry :=
  List.map mapRow (data results).

End LegacyDataService.

Import DataService.

(** ** The dashboard component (inquiry variant) *)

Module App.

(** The hook state of the component (the cells that [setInquiries],
    [setLoading] and [setCurrentTime] write), the two timers of the effect,
    the number of [loadData] calls still awaiting their fetch, and whether
    the component is mounted. *)
Record State := mkState {
  inquiries : list Inquiry;
  loading : bool;
  currentTime : Z;
  interval : bool;
  clock : bool;
  inflight : nat;
  mounted : bool
}.

Definition setInquiries (data : list Inquiry) (s : State) : State :=
  mkState data (loading s) (currentTime s) (interval s) (clock s)
          (inflight s) (mounted s).

Definition setLoading (b : bool) (s : State) : State :=
  mkState (inquiries s) b (currentTime s) (interval s) (clock s)
          (inflight s) (mounted s).

Definition setCurrentTime (now : Z) (s : State) : State :=
  mkState (inquiries s) (loading s) now (interval s) (clock s)
          (inflight s) (mounted s).

(** [useState([])], [useState(true)], [useState(new Date())]; the effect
    has not run yet. *)
Definition initial (now : Z) : State :=
  mkState [] true now false false 0 false.

(** [loadData] from the point where the awaited promise settles:
    [setInquiries(data)] on fulfilment, [console.error] on rejection, and
    [setLoading(false)] in the [finally]. *)
Definition loadData_settled (p : Promise (list Inquiry)) (s : State)
  : State :=
  let s' := match p with
            | Fulfilled data => setInquiries data s
            | Rejected _ => s
            end in
  setLoading false s'.

(** One whole fetch cycle. *)
Definition loadData (c : Cycle) (s : State) : State :=
  loadData_settled (fetchSheetData c) s.

(** The events that reach the component. The effect body runs on [Mount]
    and its cleanup on [Unmount]. A timer callback runs only while its
    timer is set; a fetch settles only if one is in flight. *)
Inductive Event :=
| Mount
| RefreshTick
| ClockTick (now : Z)
| Settle (c : Cycle)
| Unmount.

Definition call_loadData (s : State) : State :=
  mkState (inquiries s) (loading s) (currentTime s) (interval s) (clock s)
          (S (inflight s)) (mounted s).

(** The continuation of [loadData] calls the setters whenever its fetch
    settles; React applies the updates only while the component is
    mounted. *)
Definition step (e : Event) (s : State) : option State :=
  match e with
  | Mount =>
      let s' := call_loadData s in
      Some (mkState (inquiries s') (loading s') (currentTime s')
                    true true (inflight s') true)
  | RefreshTick =>
      if interval s then Some (call_loadData s) else None
  | ClockTick now =>
      if clock s then Some (setCurrentTime now s) else None
  | Settle c =>
      match inflight s with
      | S n =>
          let s' := if mounted s then loadData c s else s in
          Some (mkState (inquiries s') (loading s') (currentTime s')
                        (interval s') (clock s') n (mounted s'))
      | O => None
      end
  | Unmount =>
      Some (mkState (inquiries s) (loading s) (currentTime s)
                    false false (inflight s) false)
  end.

(** Events that are not enabled are not delivered. *)
Fixpoint run (es : list Event) (s : State) : State :=
  match es with
  | e :: es' =>
      match step e s with
      | Some s' => run es' s'
      | None => run es' s
      end
  | [] => s
  end.

(** What a consumer observes. *)
Definition observable (s : State) : list Inquiry * bool :=
  (inquiries s, loading s).

(** *** Window filter

    [toUpperCase] is the engine's [String.prototype.toUpperCase] and
    [monthLong m] the text of
    [toLocaleString('default', { month: 'long' })] for a date in the month
    of index [m]; [today] is [new Date()]. *)

Definition filteredInquiries (toUpperCase : string -> string)
    (monthLong : Z -> string) (today : Date)
    (inquiries : list Inquiry) : list Inquiry :=
  let yesterday := setDate_prev today in
  let currentYear := getFullYear today in
  let currentDate := getDate today in
  let currentMonthName := toUpperCase (monthLong (getMonth today)) in
  let prevYear := getFullYear yesterday in
  let prevDate := getDate yesterday in
  let prevMonthName := toUpperCase (monthLong (getMonth yesterday)) in
  List.filter
    (fun item =>
       let itemMonth := toUpperCase (or_empty (Some (month item))) in
       let isToday :=
         strict_eq (year item) (of_Z currentYear)
         && strict_eq (date item) (of_Z currentDate)
         && includes itemMonth currentMonthName in
       let isYesterday :=
         strict_eq (year item) (of_Z prevYear)
         && strict_eq (date item) (of_Z prevDate)
         && includes itemMonth prevMonthName in
       isToday || isYesterday)
    inquiries.

(** *** Aggregates *)

Record Stats := mkStats {
  totalQtnValue : number;
  totalCost : number;
  totalProfit : number;
  totalQtnMargin : number;
  totalInquiries : nat;
  confirmedOrders : nat
}.

(** [array.reduce(f, init)] *)
Definition reduce {A B : Type} (f : B -> A -> B) (init : B) (l : list A)
  : B := fold_left f l init.

Definition count_update (status : string) (l : list Inquiry) : nat :=
  length (List.filter (fun s => String.eqb (update s) status) l).

Definition stats (filteredInquiries : list Inquiry) : Stats :=
  {| totalQtnValue :=
       reduce (fun acc s => add acc (qtnValue s)) zero filteredInquiries;
     totalCost :=
       reduce (fun acc s => add acc (or_zero (qtnCost s))) zero
              filteredInquiries;
     totalProfit :=
       reduce (fun acc s => add acc (qtnProfit s)) zero filteredInquiries;
     totalQtnMargin :=
       reduce (fun acc s => add acc (or_zero (qtnMargin s))) zero
              filteredInquiries;
     totalInquiries := length filteredInquiries;
     confirmedOrders := count_update "CONFIRMED" filteredInquiries |}.

(** [CategoryCard], for its [count] and [total] props:
    [total > 0 ? Math.round((count / total) * 100) : 0] *)
Definition percentage (count total : number) : number :=
  if gt total zero
  then Math_round (mul (div count total) (of_Z 100))
  else zero.

(** [array.length] as a number. *)
Definition length_number {A : Type} (l : list A) : number :=
  of_Z (Z.of_nat (length l)).

(** The three category cards of the dashboard: [count] is the number of
    records of the category, [total] is [stats.totalInquiries]. *)
Definition category_percentages (filteredInquiries : list Inquiry)
  : list number :=
  List.map
    (fun cat =>
       percentage
         (length_number
            (List.filter (fun i => String.eqb (category i) cat)
                         filteredInquiries))
         (of_Z (Z.of_nat (totalInquiries (stats filteredInquiries)))))
    ["PRO"; "DEC"; "ENG"].

(** *** Admission ([handleLogin]) *)

Record Admission := mkAdmission {
  isAuthenticated : bool;
  localStorage : gmap string string
}.

Definition handleLogin (a : Admission) : Admission :=
  {| isAuthenticated := true;
     localStorage := <["dashboard_auth" := "true"]> (localStorage a) |}.

End App.

(** ** The dashboard component (shipment variant) *)

Module ShipmentApp.

Record Shipment := mkShipment {
  id : string;
  date : string;
  vesselName : string;
  origin : string;
  destination : string;
  payloadTeu : number;
  revenue : number;
  cost : number;
  profit : number;
  fuelEfficiency : number
}.

(** [avgEfficiency] is either the text [(sum / length).toFixed(2)], kept
    here as the number that is formatted, or the literal [0]. *)
Inductive Efficiency :=
| toFixed2 (x : number)
| literal0.

Record Stats := mkStats {
  totalRevenue : number;
  totalCost : number;
  totalProfit : number;
  avgEfficiency : Efficiency;
  totalPayload : number
}.

Definition stats (shipments : list Shipment) : Stats :=
  let totalRevenue :=
    App.reduce (fun acc s => add acc (revenue s)) zero shipments in
  let totalCost :=
    App.reduce (fun acc s => add acc (cost s)) zero shipments in
  {| totalRevenue := totalRevenue;
     totalCost := totalCost;
     totalProfit := sub totalRevenue totalCost;
     avgEfficiency :=
       if (0 <? length shipments)%nat
       then toFixed2
              (div (App.reduce (fun acc s => add acc (fuelEfficiency s))
                               zero shipments)
                   (of_Z (Z.of_nat (length shipments))))
       else literal0;
     totalPayload :=
       App.reduce (fun acc s => add acc (payloadTeu s)) zero shipments |}.

End ShipmentApp.

(** ** The login form *)

Module Login.

Record State := mkState {
  code : string;
  error : bool;
  isLoading : bool
}.

(** [import.meta.env.VITE_DASHBOARD_PASSCODE || '1234'] *)
Definition ACCESS_CODE (env : option string) : string :=
  or_empty (or_else env (Some "1234")).

(** The synchronous part of [handleSubmit]; the callback handed to
    [setTimeout] closes over the [code] of this render. *)
Definition handleSubmit (s : State) : State * string :=
  ({| code := code s; error := false; isLoading := true |}, code s).

(** The timeout callback, for the captured [code]: either [onLogin()] runs,
    or the error flag is raised. The boolean tells whether [onLogin] was
    called. *)
Definition on_timeout (env : option string) (captured : string)
    (s : State) (a : App.Admission) : State * App.Admission * bool :=
  if String.eqb captured (ACCESS_CODE env)
  then (s, App.handleLogin a, true)
  else ({| code := code s; error := true; isLoading := false |}, a, false).

(** A submission followed by its timeout. *)
Definition submit (env : option string) (s : State) (a : App.Admission)
  : State * App.Admission * bool :=
  let (s', captured) := handleSubmit s in
  on_timeout env captured s' a.

End Login.

(** ** The session: what is rendered, and the login form's events *)

Module Session.

Inductive Screen :=
| LoginForm
| Spinner
| DashboardView.

(** The initialiser of [isAuthenticated]:
    [localStorage.getItem('dashboard_auth') === 'true']. *)
Definition initial_isAuthenticated (storage : gmap string string) : bool :=
  match storage !! "dashboard_auth" with
  | Some v => String.eqb v "true"
  | None => false
  end.

Definition initial_admission (storage : gmap string string)
  : App.Admission :=
  App.mkAdmission (initial_isAuthenticated storage) storage.

(** The two early returns of the component:
    [if (!isAuthenticated && !loading) return <Login/>],
    [if (loading) return] the spinner, otherwise the dashboard. *)
Definition render (a : App.Admission) (s : App.State) : Screen :=
  if negb (App.isAuthenticated a) && negb (App.loading s) then LoginForm
  else if App.loading s then Spinner
  else DashboardView.

(** The [onChange] of the code input:
    [setCode(e.target.value); if (error) setError(false);] *)
Definition handleChange (value : string) (s : Login.State) : Login.State :=
  let s' := Login.mkState value (Login.error s) (Login.isLoading s) in
  if Login.error s
  then Login.mkState (Login.code s') false (Login.isLoading s')
  else s'.

(** [useState(''), useState(false), useState(false)] of the form. *)
Definition initial_form : Login.State := Login.mkState "" false false.

(** The component, the admission state, the form, and the codes captured
    by the timeouts that have not fired yet (oldest first). *)
Record State := mkState {
  app : App.State;
  admission : App.Admission;
  form : Login.State;
  timeouts : list string
}.

Definition initial (storage : gmap string string) (now : Z) : State :=
  mkState (App.initial now) (initial_admission storage) initial_form [].

(** The form's events reach it only while it is rendered; a timeout fires
    whenever one is pending. *)
Inductive Event :=
| Component (e : App.Event)
| Change (value : string)
| Submit
| Timeout.

Definition step (env : option string) (e : Event) (s : State)
  : option State :=
  match e with
  | Component e' =>
      match App.step e' (app s) with
      | Some a' => Some (mkState a' (admission s) (form s) (timeouts s))
      | None => None
      end
  | Change value =>
      match render (admission s) (app s) with
      | LoginForm =>
          Some (mkState (app s) (admission s) (handleChange value (form s))
                        (timeouts s))
      | _ => None
      end
  | Submit =>
      match render (admission s) (app s) with
      | LoginForm =>
          let (f', captured) := Login.handleSubmit (form s) in
          Some (mkState (app s) (admission s) f' (timeouts s ++ [captured]))
      | _ => None
      end
  | Timeout =>
      match timeouts s with
      | captured :: rest =>
          let '(f', a', _) :=
            Login.on_timeout env captured (form s) (admission s) in
          Some (mkState (app s) a' f' rest)
      | [] => None
      end
  end.

Fixpoint run (env : option string) (es : list Event) (s : State) : State :=
  match es with
  | e :: es' =>
      match step env e s with
      | Some s' => run env es' s'
      | None => run env es' s
      end
  | [] => s
  end.

(** The texts typed into the code input during a run. *)
Fixpoint typed (es : list Event) : list string :=
  match es with
  | Change value :: es' => value :: typed es'
  | _ :: es' => typed es'
  | [] => []
  end.

End Session.

(** ** The shipment data service (source file part_002) *)

Module ShipmentDataService.
Import ShipmentApp.

(** The arrow U+2794 of the route column. It is one code unit in the
    source and its three UTF-8 bytes here; [includes] and [split] only ever
    compare it as a whole. *)
Definition arrow : string := "➔".

(** [text.split(separator)] for a non-empty separator. [skip] counts the
    characters of a separator occurrence still to be passed over, [cur] is
    the piece being collected. *)
Fixpoint split_from (separator : string) (skip : nat) (cur : string)
    (s : string) : list string :=
  match s with
  | String c t =>
      match skip with
      | S k => split_from separator k cur t
      | O =>
          if startsWith s separator
          then cur :: split_from separator
                                 (String.length separator - 1) EmptyString t
          else split_from separator 0 (cur +:+ String c EmptyString) t
      end
  | EmptyString => [cur]
  end.

Definition split (separator s : string) : list string :=
  split_from separator 0 EmptyString s.

(** [parts.join(separator)] *)
Fixpoint join (separator : string) (parts : list string) : string :=
  match parts with
  | [] => EmptyString
  | [p] => p
  | p :: rest => p +:+ separator +:+ join separator rest
  end.

(** [const [origin, destination] = routeStr.includes('➔')
      ? routeStr.split('➔').map(s => s.trim()) : ['Unknown', 'Unknown']].
    A text that includes the arrow splits in at least two pieces
    ([route_two_pieces]); the last branch is never taken. *)
Definition parseRoute (routeStr : string) : string * string :=
  if includes routeStr arrow
  then match List.map trim (split arrow routeStr) with
       | origin :: destination :: _ => (origin, destination)
       | _ => (EmptyString, EmptyString)
       end
  else ("Unknown", "Unknown").

(** [Number(String(cell || 0).replace(/[^0-9.-]+/g, ""))]: the text of the
    number 0 is ["0"]. There is no NaN guard. *)
Definition numberOf (cell : option string) : number :=
  let text := if truthy cell then or_empty cell else "0" in
  StringToNumber (replace_non_numeric text).

(** The decimal text of a non-negative integer. *)
Definition decimal (n : N) : string :=
  NilEmpty.string_of_uint (N.to_uint n).

(** What a row takes from its environment: the value of
    [Math.floor(Math.random() * 10000)] and the text of
    [new Date().toISOString().split('T')[0]]. *)
Record Draw := mkDraw { random : N; today : string }.

Definition mapRow (env : Draw) (row : gmap string string) : Shipment :=
  let routeStr := or_empty (row !! "Route (Origin-Dest)") in
  let (origin, destination) := parseRoute routeStr in
  {| id := or_empty (or_else (row !! "Shipment ID")
                             (Some ("SHP-" +:+ decimal (random env))));
     date := or_empty (or_else (row !! "Date (Dep.)") (Some (today env)));
     vesselName := or_empty (or_else (row !! "Vessel Name")
                                     (Some "Unknown Vessel"));
     origin := origin;
     destination := destination;
     payloadTeu := numberOf (row !! "Payload (TEUs)");
     revenue := numberOf (row !! "Revenue ($)");
     cost := numberOf (row !! "Op. Costs ($)");
     profit := numberOf (row !! "Profit/Loss ($)");
     fuelEfficiency := numberOf (row !! "Fuel Efficiency (MT/nm)") |}.

(** [item.vesselName !== 'Unknown Vessel' || item.revenue !== 0] *)
Definition keep (item : Shipment) : bool :=
  negb (String.eqb (vesselName item) "Unknown Vessel")
  || negb (strict_eq (revenue item) zero).

(** The rows come with the draws their mapping makes, one per row. *)
Definition validData (rows : list (Draw * gmap string string))
  : list Shipment :=
  List.filter keep (List.map (fun er => mapRow (fst er) (snd er)) rows).

(** The table cell of the departure date:
    [s.date.split('-').slice(1).join('-')]. *)
Definition dateCell (date : string) : string :=
  join "-" (List.tl (split "-" date)).

End ShipmentDataService.

(** ** The table cell of the month (earlier inquiry dashboard) *)

Module MonthCell.

(** [text.replace(/^\d+\.\s*/, '')]: leading digits, a dot and the white
    space after it are removed when the text starts that way. *)
Definition strip_ordinal (text : string) : string :=
  let (digits, rest) := span_digits text in
  match digits, rest with
  | String _ _, String "."%char rest' => trimStart rest'
  | _, _ => text
  end.

(** [text.slice(0, 3)]: the first three UTF-16 code units. *)
Definition slice3 (text : string) : list N := firstn 3 (utf16 text).

(** [s.month?.replace(/^\d+\.\s*/, '')?.slice(0, 3)], as code units. *)
Definition monthCell (month : string) : list N :=
  slice3 (strip_ordinal month).

End MonthCell.

(** ** Vocabulary of the properties *)

Module Spec.

(** The number [m * 2 ^ e]. *)
Definition dyadic (m e : Z) : number := binary_normalize prec emax m e false.

Fixpoint all_chars (p : ascii -> bool) (s : string) : bool :=
  match s with
  | String c t => p c && all_chars p t
  | EmptyString => true
  end.

Fixpoint zeros (n : nat) : string :=
  match n with
  | S n' => String "0"%char (zeros n')
  | O => EmptyString
  end.

(** The UTF-8 encoding of a code point below U+10000. *)
Definition encode (cp : N) : string :=
  (if cp <? 128 then String (ascii_of_N cp) ""
   else if cp <? 2048
        then String (ascii_of_N (192 + cp / 64))
                    (String (ascii_of_N (128 + cp mod 64)) "")
        else String (ascii_of_N (224 + cp / 4096))
                    (String (ascii_of_N (128 + (cp / 64) mod 64))
                            (String (ascii_of_N (128 + cp mod 64)) "")))%N.

(** The white-space code points of ECMAScript (WhiteSpace and
    LineTerminator). *)
Definition WhiteSpace : list N :=
  [0x9; 0xA; 0xB; 0xC; 0xD; 0x20; 0xA0; 0x1680; 0x2000; 0x2001; 0x2002;
   0x2003; 0x2004; 0x2005; 0x2006; 0x2007; 0x2008; 0x2009; 0x200A; 0x2028;
   0x2029; 0x202F; 0x205F; 0x3000; 0xFEFF]%N.

Definition white_space_character (w : string) : Prop :=
  In w (List.map encode WhiteSpace).

(** A text of white-space characters only. *)
Inductive white : string -> Prop :=
| white_nil : white ""
| white_cons (w s : string) :
    white_space_character w -> white s -> white (w +:+ s).

(** No white space at either end: the only prefix and the only suffix of
    white space is the empty one. *)
Definition trimmed (s : string) : Prop :=
  forall pre post, s = pre +:+ post ->
                   (white pre -> pre = "") /\ (white post -> post = "").

(** Upper-casing of ASCII text, on which every engine agrees. *)
Definition is_ascii (c : ascii) : bool := (N_of_ascii c <? 128)%N.

Definition ascii_upper (c : ascii) : ascii :=
  let n := N_of_ascii c in
  if ((97 <=? n) && (n <=? 122))%N then ascii_of_N (n - 32) else c.

Fixpoint ascii_toUpperCase (s : string) : string :=
  match s with
  | String c t => String (ascii_upper c) (ascii_toUpperCase t)
  | EmptyString => EmptyString
  end.

(** What is assumed of [String.prototype.toUpperCase] where a concrete
    result is computed: on ASCII text it maps [a-z] to [A-Z] and leaves the
    other characters. *)
Definition upper_cases_ascii (toUpperCase : string -> string) : Prop :=
  forall s, all_chars is_ascii s = true ->
            toUpperCase s = ascii_toUpperCase s.

(** [needle] occurs in [s]. *)
Definition contains (s needle : string) : Prop :=
  exists pre post, s = pre +:+ needle +:+ post.

(** The cell text is absent or empty, or cleaning leaves nothing of it, or
    what cleaning leaves is not a numeric literal. *)
Definition non_numeric (cell : option string) : Prop :=
  truthy cell = false \/
  replace_non_numeric (or_empty cell) = "" \/
  isNaN (StringToNumber (replace_non_numeric (or_empty cell))) = true.

(** At most 307 characters are left of the cell text after cleaning. *)
Definition short_number (cell : option string) : Prop :=
  (String.length (replace_non_numeric (or_empty cell)) <= 307)%nat.

(** The numeric fields of a record, and the cells they are read from. *)
Definition numeric_fields (r : Inquiry) : list number :=
  [rowNum r; year r; date r; qtnValue r; qtnCost r; qtnProfit r;
   qtnMargin r; marginPercent r].

Definition numeric_cells (fh : option string) (row : gmap string string)
  : list (option string) :=
  [get row fh; row !! "YEAR"; row !! "DATE"; row !! "PDA / QTN VALUE";
   or_else (row !! "PDA / QTN  COST") (row !! "PDA / QTN COST");
   row !! "PDA / QTN PROFIT"; row !! "PDA / QTN MARGIN"; row !! "MARGIN %"].

(** The string fields the mapper trims, the ones it copies as they are,
    and the cells they are read from. *)
Definition trimmed_fields (r : Inquiry) : list string :=
  [vesselName r; qtnStatus r; update r; contactPerson r].

Definition trimmed_cells (row : gmap string string) : list (option string) :=
  [row !! "VESSEL NAME"; row !! "QTN STATUS"; row !! "UPDATE";
   or_else (row !! "CONTACT PERSON ") (row !! "CONTACT PERSON")].

Definition copied_fields (r : Inquiry) : list string :=
  [month r; folderNumber r; week r; eta r; port r; principal r; country r;
   service r; category r; discountPercent r; contactNumber r;
   contactEmail r; pic r; clientStatus r; remarks r; rfqNumber r].

Definition copied_cells (fh : option string) (row : gmap string string)
  : list (option string) :=
  [row !! "MONTH"; get row fh; or_else (row !! "WEEK ") (row !! "WEEK");
   row !! "ETA"; row !! "PORT"; row !! "PRINCIPAL"; row !! "COUNTRY";
   row !! "SERVICE"; row !! "CATEGORY"; row !! "DISCOUNT %";
   row !! "CONTACT NUMBER"; row !! "CONTACT PERSON'S EMAIL"; row !! "PIC";
   row !! "CLIENT STATUS"; row !! "REMARKS";
   row !! "RFQ NUMBERS / ITEM DESCRIPTION"].

(** Every cell of the row is white space only. *)
Definition blank (row : gmap string string) : Prop :=
  forall k v, row !! k = Some v -> white v.

(** A record of the reporting window: its year and day are those of the
    day [d], and its upper-cased month text contains the upper-cased full
    name of the month of [d]. *)
Definition on_day (toUpperCase : string -> string)
    (monthLong : Z -> string) (r : Inquiry) (d : Date) : Prop :=
  strict_eq (year r) (of_Z (getFullYear d)) = true /\
  strict_eq (DataService.date r) (of_Z (getDate d)) = true /\
  contains (toUpperCase (month r)) (toUpperCase (monthLong (getMonth d))).

(** A calendar date, and its day number. *)
Definition valid_date (d : Date) : Prop :=
  0 <= getMonth d <= 11 /\
  1 <= getDate d <= daysInMonth (getFullYear d) (getMonth d).

Definition day_number (d : Date) : Z :=
  MakeDay (getFullYear d) (getMonth d) (getDate d).

(** Two numbers are the same value: equal, or both a zero. *)
Definition same_value (x y : number) : Prop :=
  x = y \/ (is_zero x = true /\ is_zero y = true).

(** The sum of the numbers of a list, taken in list order from 0. *)
Fixpoint sum_from (acc : number) (xs : list number) : number :=
  match xs with
  | x :: xs' => sum_from (add acc x) xs'
  | [] => acc
  end.

Definition sum (xs : list number) : number := sum_from zero xs.

(** A record that carries only the fields the window filter reads. *)
Definition dated (y d : Z) (m : string) : Inquiry :=
  mkInquiry zero (of_Z y) m (of_Z d) "" "" "" "" "" "" "" "" "" zero zero
            zero zero zero "" "" "" "" "" "" "" "" "" "".

(** A record that carries only a name, a category and money fields. *)
Definition priced (name cat : string) (value cost profit : number)
  : Inquiry :=
  mkInquiry zero zero "" zero "" "" name "" "" "" "" "" cat value cost
            profit zero zero "" "" "" "" "" "" "" "" "" "".

End Spec.

Import Spec.

(** ** Vocabulary of the further properties *)

Module Props.

(** Fetch cycles run one after the other, each settled before the next. *)
Definition cycles (cs : list Cycle) (s : App.State) : App.State :=
  fold_left (fun s' c => App.loadData c s') cs s.

Definition rejected (c : Cycle) : Prop :=
  exists reason, fetchSheetData c = Rejected reason.

(** The headers the record mapper reads by name. *)
Definition recognized_headers : list string :=
  ["YEAR"; "MONTH"; "DATE"; "WEEK "; "WEEK"; "VESSEL NAME"; "ETA"; "PORT";
   "PRINCIPAL"; "COUNTRY"; "SERVICE"; "CATEGORY"; "PDA / QTN VALUE";
   "PDA / QTN  COST"; "PDA / QTN COST"; "PDA / QTN PROFIT";
   "PDA / QTN MARGIN"; "MARGIN %"; "DISCOUNT %"; "QTN STATUS"; "UPDATE";
   "CONTACT PERSON "; "CONTACT PERSON"; "CONTACT NUMBER";
   "CONTACT PERSON'S EMAIL"; "PIC"; "CLIENT STATUS"; "REMARKS";
   "RFQ NUMBERS / ITEM DESCRIPTION"].

(** The property name under which the identifier is read. *)
Definition first_key (fh : option string) : string :=
  match fh with
  | Some h => h
  | None => "undefined"
  end.

(** Nobody is authenticated, and neither the form nor a pending timeout
    holds the access code. *)
Definition locked (env : option string) (s : Session.State) : Prop :=
  App.isAuthenticated (Session.admission s) = false /\
  Login.code (Session.form s) <> Login.ACCESS_CODE env /\
  Forall (fun c => c <> Login.ACCESS_CODE env) (Session.timeouts s).

(** The mantissa of a positive integer below 2^53, shifted to 53 bits. *)
Definition aligned (p : positive) : positive :=
  match (53 - Z.pos (digits2_pos p))%Z with
  | Z.pos k => Pos.iter xO p k
  | _ => p
  end.

(** What cleaning leaves of the text is a non-empty run of digits with the
    value [n], below 2^53. *)
Definition spells (text : string) (n : Z) : Prop :=
  let ip := replace_non_numeric text in
  ip <> "" /\ all_chars is_digit ip = true /\ MV_digits 0 ip = n /\
  n < 2 ^ 53.

(** The integer sum of the amounts of a list. *)
Definition whole_sum {A : Type} (amount : A -> Z) (l : list A) : Z :=
  fold_right Z.add 0 (List.map amount l).

End Props.

Import Props.

(** ** Strings *)

Section Strings.

Lemma or_empty_Some (s : string) : or_empty (Some s) = s.
Proof. destruct s; reflexivity. Qed.

Lemma or_empty_falsy (c : option string) :
  truthy c = false -> or_empty c = "".
Proof.
  destruct c as [[|a t]|]; simpl; intros H; try discriminate; reflexivity.
Qed.

Lemma truthy_Some (s : string) : truthy (Some s) = true <-> s <> "".
Proof. destruct s; simpl; split; intros H; congruence. Qed.

Lemma replace_non_numeric_class (s : string) :
  all_chars numeric_char (replace_non_numeric s) = true.
Proof.
  induction s as [|c t IH]; simpl; [reflexivity|].
  destruct (numeric_char c) eqn:E; simpl; [rewrite E|]; exact IH.
Qed.

Lemma replace_non_numeric_id (s : string) :
  all_chars numeric_char s = true -> replace_non_numeric s = s.
Proof.
  induction s as [|c t IH]; simpl; [reflexivity|].
  intros H. apply andb_prop in H as [Hc Ht].
  rewrite Hc, (IH Ht). reflexivity.
Qed.

Lemma replace_non_numeric_idem (s : string) :
  replace_non_numeric (replace_non_numeric s) = replace_non_numeric s.
Proof. apply replace_non_numeric_id, replace_non_numeric_class. Qed.

Lemma ascii_of_code (a : ascii) (n : N) : N_of_ascii a = n -> a = ascii_of_N n.
Proof. intros <-. symmetry. apply ascii_N_embedding. Qed.

Lemma skip_white_space_character (w r : string) :
  white_space_character w -> skip_white_space (w +:+ r) = Some r.
Proof.
  unfold white_space_character. cbn [List.map WhiteSpace].
  intros H. repeat (destruct H as [<- | H]; [reflexivity|]). destruct H.
Qed.

Lemma skip_white_space_inv (s r : string) :
  skip_white_space s = Some r ->
  exists w, white_space_character w /\ s = w +:+ r.
Proof.
  unfold skip_white_space, white_space_character.
  destruct s as [|a t]; [discriminate|].
  destruct (white_space1 a) eqn:E1.
  { intros [= ->]. unfold white_space1 in E1. cbv zeta in E1.
    exists (String a ""). split; [|reflexivity].
    assert (H : (N_of_ascii a = 9 \/ N_of_ascii a = 10 \/ N_of_ascii a = 11 \/
                 N_of_ascii a = 12 \/ N_of_ascii a = 13 \/
                 N_of_ascii a = 32)%N).
    { apply orb_prop in E1 as [E1 | E1].
      - apply andb_prop in E1 as [H1 H2].
        apply N.leb_le in H1, H2. lia.
      - apply N.eqb_eq in E1. lia. }
    repeat (destruct H as [H | H];
            [apply ascii_of_code in H; subst a; vm_compute; tauto|]).
    apply ascii_of_code in H; subst a; vm_compute; tauto. }
  destruct t as [|b t']; [discriminate|].
  destruct (white_space2 a b) eqn:E2.
  { intros [= ->]. unfold white_space2 in E2.
    apply andb_prop in E2 as [H1 H2]. apply N.eqb_eq in H1, H2.
    apply ascii_of_code in H1, H2. subst a b.
    exists (String (ascii_of_N 194) (String (ascii_of_N 160) "")).
    split; [vm_compute; tauto | reflexivity]. }
  destruct t' as [|c t'']; [discriminate|].
  destruct (white_space3 a b c) eqn:E3; [|discriminate].
  intros [= ->]. exists (String a (String b (String c ""))).
  split; [|reflexivity].
  unfold white_space3 in E3. cbv zeta in E3.
  repeat match type of E3 with
         | (_ || _)%bool = true => apply orb_prop in E3 as [E3 | E3]
         end;
    repeat match goal with
           | H : (_ && _)%bool = true |- _ =>
               let H1 := fresh in let H2 := fresh in
               apply andb_prop in H as [H1 H2]
           | H : (_ || _)%bool = true |- _ => apply orb_prop in H as [H | H]
           | H : (_ =? _)%N = true |- _ => apply N.eqb_eq in H
           | H : (_ <=? _)%N = true |- _ => apply N.leb_le in H
           end.
  all: try (repeat match goal with
                   | H : N_of_ascii _ = _ |- _ =>
                       apply ascii_of_code in H; subst
                   end; vm_compute; tauto).
  assert (Hz : (N_of_ascii c = 128 \/ N_of_ascii c = 129 \/
                N_of_ascii c = 130 \/ N_of_ascii c = 131 \/
                N_of_ascii c = 132 \/ N_of_ascii c = 133 \/
                N_of_ascii c = 134 \/ N_of_ascii c = 135 \/
                N_of_ascii c = 136 \/ N_of_ascii c = 137 \/
                N_of_ascii c = 138)%N) by lia.
  repeat match goal with
         | H : N_of_ascii a = _ |- _ => apply ascii_of_code in H; subst a
         | H : N_of_ascii b = _ |- _ => apply ascii_of_code in H; subst b
         end.
  repeat (destruct Hz as [Hz | Hz];
          [apply ascii_of_code in Hz; subst c; vm_compute; tauto|]).
  apply ascii_of_code in Hz; subst c; vm_compute; tauto.
Qed.

Lemma append_empty_r (s : string) : s +:+ "" = s.
Proof.
  induction s as [|c s IH]; [reflexivity|].
  change (String c s +:+ "") with (String c (s +:+ "")).
  rewrite IH. reflexivity.
Qed.

Lemma append_assoc (a b c : string) : (a +:+ b) +:+ c = a +:+ (b +:+ c).
Proof.
  induction a as [|x a IH]; [reflexivity|].
  change (String x a +:+ b) with (String x (a +:+ b)).
  change (String x (a +:+ b) +:+ c) with (String x ((a +:+ b) +:+ c)).
  rewrite IH. reflexivity.
Qed.

Lemma length_append (a b : string) :
  String.length (a +:+ b) = (String.length a + String.length b)%nat.
Proof.
  induction a as [|x a IH]; [reflexivity|].
  change (String x a +:+ b) with (String x (a +:+ b)).
  cbn [String.length]. rewrite IH. reflexivity.
Qed.

Lemma trimStart_step (s : string) :
  trimStart s = match skip_white_space s with
                | Some r => trimStart r
                | None => s
                end.
Proof.
  destruct s as [|a [|b [|c t]]]; cbn [trimStart skip_white_space];
    try reflexivity.
  - destruct (white_space1 a); reflexivity.
  - destruct (white_space1 a); [reflexivity|].
    destruct (white_space2 a b); reflexivity.
  - destruct (white_space1 a); [reflexivity|].
    destruct (white_space2 a b); [reflexivity|].
    destruct (white_space3 a b c); reflexivity.
Qed.

Lemma skip_white_space_shorter (s r : string) :
  skip_white_space s = Some r -> (String.length r < String.length s)%nat.
Proof.
  destruct s as [|a [|b [|c t]]]; cbn [skip_white_space String.length].
  - discriminate.
  - destruct (white_space1 a); [intros [= <-]; cbn; lia | discriminate].
  - destruct (white_space1 a); [intros [= <-]; cbn; lia|].
    destruct (white_space2 a b); [intros [= <-]; cbn; lia | discriminate].
  - destruct (white_space1 a); [intros [= <-]; cbn; lia|].
    destruct (white_space2 a b); [intros [= <-]; cbn; lia|].
    destruct (white_space3 a b c); [intros [= <-]; cbn; lia | discriminate].
Qed.

Lemma trimStart_white_space_character (w r : string) :
  white_space_character w -> trimStart (w +:+ r) = trimStart r.
Proof.
  intros H. rewrite (trimStart_step (w +:+ r)).
  rewrite (skip_white_space_character w r H). reflexivity.
Qed.

Lemma trimStart_app_white (ws s : string) :
  white ws -> trimStart (ws +:+ s) = trimStart s.
Proof.
  induction 1 as [|w ws Hw _ IH]; [reflexivity|].
  rewrite append_assoc, (trimStart_white_space_character w _ Hw). exact IH.
Qed.

Lemma trimStart_white (s : string) : white s -> trimStart s = "".
Proof.
  intros H. rewrite <- (append_empty_r s). apply (trimStart_app_white s "" H).
Qed.

Lemma white_app (a b : string) : white a -> white b -> white (a +:+ b).
Proof.
  induction 1 as [|w a Hw _ IH]; intros Hb; [exact Hb|].
  rewrite append_assoc. apply white_cons; [exact Hw | exact (IH Hb)].
Qed.

Lemma trimStart_by_length (n : nat) :
  forall s, (String.length s <= n)%nat ->
  skip_white_space (trimStart s) = None /\
  (trimStart s = "" -> white s) /\
  exists ws, white ws /\ s = ws +:+ trimStart s.
Proof.
  induction n as [|n IH]; intros s Hn.
  - destruct s; [|cbn in Hn; lia]. repeat split.
    + intros _. constructor.
    + exists "". split; [constructor | reflexivity].
  - rewrite (trimStart_step s).
    destruct (skip_white_space s) as [r|] eqn:E.
    + pose proof (skip_white_space_shorter s r E) as Hr.
      destruct (skip_white_space_inv s r E) as (w & Hw & ->).
      destruct (IH r ltac:(lia)) as (H1 & H2 & ws & Hws & H3).
      repeat split.
      * exact H1.
      * intros H. apply white_cons; [exact Hw | exact (H2 H)].
      * exists (w +:+ ws). split; [apply white_cons; assumption|].
        rewrite append_assoc, <- H3. reflexivity.
    + repeat split.
      * exact E.
      * intros ->. constructor.
      * exists "". split; [constructor | reflexivity].
Qed.

Lemma trimStart_head (s : string) : skip_white_space (trimStart s) = None.
Proof. apply (trimStart_by_length (String.length s) s). lia. Qed.

Lemma trimStart_empty_white (s : string) : trimStart s = "" -> white s.
Proof. apply (trimStart_by_length (String.length s) s). lia. Qed.

Lemma trimStart_split (s : string) :
  exists ws, white ws /\ s = ws +:+ trimStart s.
Proof. apply (trimStart_by_length (String.length s) s). lia. Qed.

Lemma trimEnd_split (s : string) :
  exists ws, white ws /\ s = trimEnd s +:+ ws.
Proof.
  induction s as [|c t IH].
  - exists "". split; [constructor | reflexivity].
  - cbn [trimEnd]. destruct (trimStart (String c t)) eqn:E.
    + exists (String c t). split; [|reflexivity].
      apply trimStart_empty_white. exact E.
    + destruct IH as (ws & Hws & Ht). exists ws. split; [exact Hws|].
      change (String c (trimEnd t) +:+ ws) with (String c (trimEnd t +:+ ws)).
      rewrite <- Ht. reflexivity.
Qed.

(** A text that does not begin with a white-space character has no
    non-empty prefix of white space. *)
Lemma no_white_prefix (s pre post : string) :
  skip_white_space s = None -> s = pre +:+ post -> white pre -> pre = "".
Proof.
  intros Hs -> Hw. destruct Hw as [|w ws Hc _]; [reflexivity|].
  rewrite append_assoc, (skip_white_space_character w _ Hc) in Hs.
  discriminate Hs.
Qed.

Lemma trimEnd_no_white_suffix (s pre post : string) :
  trimEnd s = pre +:+ post -> white post -> post = "".
Proof.
  revert pre. induction s as [|c t IH]; intros pre H Hw.
  - destruct pre; [exact (eq_sym H) | discriminate H].
  - cbn [trimEnd] in H. destruct (trimStart (String c t)) eqn:E.
    + destruct pre; [exact (eq_sym H) | discriminate H].
    + destruct pre as [|c' pre].
      * exfalso. change ("" +:+ post) with post in H.
        destruct (trimEnd_split t) as (ws & Hws & Ht).
        assert (Hall : white (String c t)).
        { rewrite Ht.
          change (String c (trimEnd t +:+ ws))
            with (String c (trimEnd t) +:+ ws).
          rewrite H. apply white_app; assumption. }
        rewrite (trimStart_white _ Hall) in E. discriminate E.
      * change (String c' pre +:+ post) with (String c' (pre +:+ post)) in H.
        injection H as _ H. exact (IH pre H Hw).
Qed.

Lemma trim_trimmed (s : string) : trimmed (trim s).
Proof.
  unfold trim. intros pre post H. split; intros Hw.
  - destruct (trimEnd_split (trimStart s)) as (ws & _ & Hs).
    apply (no_white_prefix (trimStart s) pre (post +:+ ws));
      [apply trimStart_head | | exact Hw].
    rewrite Hs at 1. rewrite H. apply append_assoc.
  - exact (trimEnd_no_white_suffix _ pre post H Hw).
Qed.

Lemma trim_blank (s : string) : white s -> trim s = "".
Proof. intros H. unfold trim. rewrite (trimStart_white s H). reflexivity. Qed.

Lemma replace_non_numeric_app (a b : string) :
  replace_non_numeric (a +:+ b) =
  replace_non_numeric a +:+ replace_non_numeric b.
Proof.
  induction a as [|c a IH]; [reflexivity|].
  simpl. destruct (numeric_char c); simpl; rewrite IH; reflexivity.
Qed.

Lemma replace_non_numeric_white_space (w : string) :
  white_space_character w -> replace_non_numeric w = "".
Proof.
  unfold white_space_character. cbn [List.map WhiteSpace].
  intros H. repeat (destruct H as [<- | H]; [reflexivity|]). destruct H.
Qed.

Lemma replace_non_numeric_blank (s : string) :
  white s -> replace_non_numeric s = "".
Proof.
  induction 1 as [|w s Hw _ IH]; [reflexivity|].
  rewrite replace_non_numeric_app, (replace_non_numeric_white_space w Hw), IH.
  reflexivity.
Qed.

(** White space beyond ASCII is trimmed, letters that end in the bytes of
    a white-space character are not. *)
Example trim_no_break_space :
  trim (encode 0xA0 +:+ "MV A" +:+ encode 0x3000 +:+ encode 0xFEFF) = "MV A".
Proof. vm_compute. reflexivity. Qed.

Example trim_keeps_letters : trim " voilà " = "voilà".
Proof. vm_compute. reflexivity. Qed.

Lemma startsWith_spec (s needle : string) :
  startsWith s needle = true <-> exists post, s = needle +:+ post.
Proof.
  revert s. induction needle as [|a n IH]; intros s; simpl.
  - split; [intros _; exists s; reflexivity | destruct s; reflexivity].
  - destruct s as [|b t].
    + split; [discriminate | intros [post H]; discriminate H].
    + simpl. rewrite andb_true_iff, IH. split.
      * intros [Hab [post ->]]. apply Ascii.eqb_eq in Hab as ->.
        exists post. reflexivity.
      * intros [post H]. injection H as -> ->. split.
        -- apply Ascii.eqb_refl.
        -- exists post. reflexivity.
Qed.

Lemma includes_spec (s needle : string) :
  includes s needle = true <-> contains s needle.
Proof.
  unfold contains. induction s as [|b t IH].
  - cbn [includes]. rewrite orb_false_r, startsWith_spec. split.
    + intros [post H]. exists "", post. exact H.
    + intros [[|c pre] [post H]]; [exists post; exact H | discriminate H].
  - cbn [includes]. rewrite orb_true_iff, startsWith_spec, IH. split.
    + intros [[post H] | [pre [post H]]].
      * exists "", post. exact H.
      * exists (String b pre), post. rewrite H. reflexivity.
    + intros [[|c pre] [post H]].
      * left. exists post. exact H.
      * right. injection H as -> ->. exists pre, post. reflexivity.
Qed.

End Strings.

(** ** Binary64 arithmetic *)

Section Binary64.

Lemma digits2_pos_bounds (p : positive) :
  2 ^ (Z.pos (digits2_pos p) - 1) <= Z.pos p < 2 ^ Z.pos (digits2_pos p).
Proof.
  induction p as [p IH|p IH|]; cbn [digits2_pos].
  - rewrite Pos2Z.inj_succ.
    replace (Z.succ (Z.pos (digits2_pos p)) - 1)
      with (Z.succ (Z.pos (digits2_pos p) - 1)) by lia.
    rewrite !Z.pow_succ_r by lia. lia.
  - rewrite Pos2Z.inj_succ.
    replace (Z.succ (Z.pos (digits2_pos p)) - 1)
      with (Z.succ (Z.pos (digits2_pos p) - 1)) by lia.
    rewrite !Z.pow_succ_r by lia. lia.
  - simpl. lia.
Qed.

Lemma Zdigits2_le (m k : Z) : 0 <= m -> 0 <= k -> m < 2 ^ k -> Zdigits2 m <= k.
Proof.
  intros Hm Hk Hlt. destruct m as [|p|p]; simpl; try lia.
  destruct (digits2_pos_bounds p) as [Hlo _].
  destruct (Z.le_gt_cases (Z.pos (digits2_pos p)) k) as [H|H]; [exact H|].
  exfalso.
  assert (2 ^ k <= 2 ^ (Z.pos (digits2_pos p) - 1))
    by (apply Z.pow_le_mono_r; lia).
  lia.
Qed.

Lemma shr_1_m (mrs : shr_record) :
  0 <= shr_m mrs ->
  0 <= shr_m (shr_1 mrs) /\ 2 * shr_m (shr_1 mrs) <= shr_m mrs.
Proof.
  destruct mrs as [m r s]. cbn [shr_m]. intros Hm.
  destruct m as [|[p|p|]|p]; simpl; lia.
Qed.

Lemma iter_shr_1_m (n : positive) :
  forall mrs, 0 <= shr_m mrs ->
  0 <= shr_m (SpecFloat.iter_pos shr_1 n mrs) /\
  2 ^ Z.pos n * shr_m (SpecFloat.iter_pos shr_1 n mrs) <= shr_m mrs.
Proof.
  induction n as [n IH|n IH|]; intros mrs Hm; cbn [SpecFloat.iter_pos].
  - destruct (shr_1_m mrs Hm) as [H0 H1].
    destruct (IH _ H0) as [H2 H3].
    destruct (IH _ H2) as [H4 H5].
    split; [exact H4|].
    replace (Z.pos n~1) with (Z.pos n + Z.pos n + 1) by lia.
    rewrite !Z.pow_add_r by lia. change (2 ^ 1) with 2.
    assert (0 < 2 ^ Z.pos n) by (apply Z.pow_pos_nonneg; lia).
    nia.
  - destruct (IH _ Hm) as [H2 H3].
    destruct (IH _ H2) as [H4 H5].
    split; [exact H4|].
    replace (Z.pos n~0) with (Z.pos n + Z.pos n) by lia.
    rewrite !Z.pow_add_r by lia.
    assert (0 < 2 ^ Z.pos n) by (apply Z.pow_pos_nonneg; lia).
    nia.
  - destruct (shr_1_m mrs Hm). split; [lia|]. change (2 ^ 1) with 2. lia.
Qed.

Lemma fexp_le (x : Z) : x <= 1024 -> fexp prec emax x <= emax - prec.
Proof. unfold fexp, emin, prec, emax. lia. Qed.

Lemma shr_fexp_within (m e : Z) (l : location) :
  0 <= m -> e <= emax - prec -> m < 2 ^ (1023 - e) ->
  let '(mrs, e') := shr_fexp prec emax m e l in
  0 <= shr_m mrs /\ e' <= emax - prec /\ shr_m mrs < 2 ^ (1023 - e').
Proof.
  intros Hm He Hlt. unfold shr_fexp, shr.
  assert (Hd : Zdigits2 m <= 1023 - e).
  { apply Zdigits2_le; try lia. unfold emax, prec in He. lia. }
  assert (Hf : fexp prec emax (Zdigits2 m + e) <= emax - prec).
  { apply fexp_le. lia. }
  destruct (fexp prec emax (Zdigits2 m + e) - e) as [|n|n] eqn:En.
  - destruct l as [|[]]; cbn [shr_record_of_loc shr_m]; auto.
  - assert (H0 : 0 <= shr_m (shr_record_of_loc m l)).
    { destruct l as [|[]]; cbn [shr_record_of_loc shr_m]; auto. }
    assert (Hsame : shr_m (shr_record_of_loc m l) = m).
    { destruct l as [|[]]; reflexivity. }
    destruct (iter_shr_1_m n _ H0) as [H1 H2]. rewrite Hsame in H2.
    split; [exact H1|]. split; [lia|].
    assert (Hp : 0 < 2 ^ Z.pos n) by (apply Z.pow_pos_nonneg; lia).
    assert (Hsplit : 2 ^ (1023 - e) = 2 ^ Z.pos n * 2 ^ (1023 - (e + Z.pos n))).
    { rewrite <- Z.pow_add_r; [f_equal; lia | lia |].
      unfold emax, prec in *. lia. }
    rewrite Hsplit in Hlt. nia.
  - destruct l as [|[]]; cbn [shr_record_of_loc shr_m]; auto.
Qed.

Lemma round_nearest_even_bounds (m : Z) (l : location) :
  m <= round_nearest_even m l <= m + 1.
Proof.
  unfold round_nearest_even. destruct l as [|[]]; try lia.
  destruct (Z.even m); lia.
Qed.

Lemma binary_round_aux_finite (sx : bool) (m e : Z) (l : location) :
  0 <= m -> e <= emax - prec -> m < 2 ^ (1023 - e) ->
  isFinite (binary_round_aux prec emax sx m e l) = true.
Proof.
  intros Hm He Hlt. unfold binary_round_aux.
  pose proof (shr_fexp_within m e l Hm He Hlt) as H1.
  destruct (shr_fexp prec emax m e l) as [mrs1 e1].
  destruct H1 as (H1m & H1e & H1lt).
  set (m2 := round_nearest_even (shr_m mrs1) (loc_of_shr_record mrs1)).
  pose proof (round_nearest_even_bounds
                (shr_m mrs1) (loc_of_shr_record mrs1)) as Hr.
  fold m2 in Hr.
  assert (Hm2 : 0 <= m2) by lia.
  assert (Hd2 : Zdigits2 m2 <= 1024 - e1).
  { apply Zdigits2_le; try lia.
    - unfold emax, prec in H1e. lia.
    - assert (2 ^ (1024 - e1) = 2 * 2 ^ (1023 - e1)).
      { replace (1024 - e1) with (Z.succ (1023 - e1)) by lia.
        apply Z.pow_succ_r. unfold emax, prec in H1e. lia. }
      assert (0 < 2 ^ (1023 - e1))
        by (apply Z.pow_pos_nonneg; unfold emax, prec in H1e; lia).
      lia. }
  unfold shr_fexp, shr.
  assert (Hf : fexp prec emax (Zdigits2 m2 + e1) <= emax - prec)
    by (apply fexp_le; lia).
  assert (Hsame : shr_m (shr_record_of_loc m2 loc_Exact) = m2) by reflexivity.
  destruct (fexp prec emax (Zdigits2 m2 + e1) - e1) as [|n|n] eqn:En.
  - rewrite Hsame. destruct m2 as [|p|p]; try lia; try reflexivity.
    destruct (Z.leb_spec e1 (emax - prec)); [reflexivity | lia].
  - destruct (iter_shr_1_m n (shr_record_of_loc m2 loc_Exact)) as [H3 _];
      [rewrite Hsame; lia|].
    destruct (shr_m (SpecFloat.iter_pos shr_1 n
                       (shr_record_of_loc m2 loc_Exact)))
      as [|p|p]; try lia; try reflexivity.
    destruct (Z.leb_spec (e1 + Z.pos n) (emax - prec)); [reflexivity | lia].
  - rewrite Hsame. destruct m2 as [|p|p]; try lia; try reflexivity.
    destruct (Z.leb_spec e1 (emax - prec)); [reflexivity | lia].
Qed.

Lemma div_finite (s s' : bool) (p q : positive) :
  Z.pos p < Z.pos q * 2 ^ 1023 ->
  isFinite (div (S754_finite s p 0) (S754_finite s' q 0)) = true.
Proof.
  intros H. unfold div, SFdiv, SFdiv_core_binary.
  set (e' := Z.min (fexp prec emax (Zdigits2 (Z.pos p) + 0 -
                                    (Zdigits2 (Z.pos q) + 0))) (0 - 0)).
  assert (He' : e' <= 0) by (unfold e'; lia).
  set (m' := match 0 - 0 - e' with
             | 0 => Z.pos p
             | Z.pos _ => Z.shiftl (Z.pos p) (0 - 0 - e')
             | Z.neg _ => 0
             end).
  assert (Hm' : m' = Z.pos p * 2 ^ (- e')).
  { unfold m'. destruct (0 - 0 - e') as [|n|n] eqn:En; try lia.
    - replace (- e') with 0 by lia. lia.
    - rewrite Z.shiftl_mul_pow2 by lia. f_equal. f_equal. lia. }
  pose proof (Z_div_mod m' (Z.pos q) eq_refl) as Hdm.
  destruct (Z.div_eucl m' (Z.pos q)) as [qq r].
  destruct Hdm as [Hq Hr].
  assert (Hpow : 0 < 2 ^ (- e')) by (apply Z.pow_pos_nonneg; lia).
  apply binary_round_aux_finite.
  - nia.
  - unfold emax, prec. lia.
  - replace (1023 - e') with (1023 + - e') by lia.
    rewrite Z.pow_add_r by lia. nia.
Qed.

Lemma shr_1_floor (mrs : shr_record) :
  0 <= shr_m mrs -> shr_m mrs <= 2 * shr_m (shr_1 mrs) + 1.
Proof.
  destruct mrs as [m r s]. cbn [shr_m]. intros Hm.
  destruct m as [|[p|p|]|p]; simpl; lia.
Qed.

Lemma iter_shr_1_floor (n : positive) :
  forall mrs, 0 <= shr_m mrs ->
  shr_m mrs < 2 ^ Z.pos n * (shr_m (SpecFloat.iter_pos shr_1 n mrs) + 1).
Proof.
  induction n as [n IH|n IH|]; intros mrs Hm; cbn [SpecFloat.iter_pos].
  - destruct (shr_1_m mrs Hm) as [H0 _]. pose proof (shr_1_floor mrs Hm) as Hf.
    destruct (iter_shr_1_m n _ H0) as [H2 _].
    pose proof (IH _ H0) as H3. pose proof (IH _ H2) as H4.
    replace (Z.pos n~1) with (Z.pos n + Z.pos n + 1) by lia.
    rewrite !Z.pow_add_r by lia. change (2 ^ 1) with 2.
    assert (0 < 2 ^ Z.pos n) by (apply Z.pow_pos_nonneg; lia).
    nia.
  - destruct (iter_shr_1_m n _ Hm) as [H2 _].
    pose proof (IH _ Hm) as H3. pose proof (IH _ H2) as H4.
    replace (Z.pos n~0) with (Z.pos n + Z.pos n) by lia.
    rewrite !Z.pow_add_r by lia.
    assert (0 < 2 ^ Z.pos n) by (apply Z.pow_pos_nonneg; lia).
    nia.
  - pose proof (shr_1_floor mrs Hm). change (2 ^ 1) with 2. lia.
Qed.

Lemma Zdigits2_pos_bounds (m : Z) :
  0 < m -> 2 ^ (Zdigits2 m - 1) <= m /\ 0 < Zdigits2 m.
Proof.
  destruct m as [|p|p]; try lia. intros _. cbn [Zdigits2].
  split; [apply digits2_pos_bounds | lia].
Qed.

Lemma shr_fexp_positive (m e : Z) (l : location) :
  0 < m -> -1000 <= e ->
  let '(mrs, e') := shr_fexp prec emax m e l in
  0 < shr_m mrs /\ e <= e'.
Proof.
  intros Hm He. unfold shr_fexp, shr.
  destruct (Zdigits2_pos_bounds m Hm) as [Hlo Hd].
  assert (Hsame : shr_m (shr_record_of_loc m l) = m).
  { destruct l as [|[]]; reflexivity. }
  destruct (fexp prec emax (Zdigits2 m + e) - e) as [|n|n] eqn:En.
  - rewrite Hsame. lia.
  - assert (Hn : Z.pos n <= Zdigits2 m - 1).
    { unfold fexp, emin, prec, emax in En. lia. }
    assert (H0 : 0 <= shr_m (shr_record_of_loc m l)) by lia.
    destruct (iter_shr_1_m n _ H0) as [H1 _].
    pose proof (iter_shr_1_floor n _ H0) as H2. rewrite Hsame in H2.
    split; [|lia].
    destruct (Z.eq_dec (shr_m (SpecFloat.iter_pos shr_1 n
                                 (shr_record_of_loc m l))) 0)
      as [E|E]; [|lia].
    rewrite E in H2.
    assert (2 ^ Z.pos n <= 2 ^ (Zdigits2 m - 1))
      by (apply Z.pow_le_mono_r; lia).
    lia.
  - rewrite Hsame. lia.
Qed.

Lemma binary_round_aux_positive (m e : Z) (l : location) :
  0 < m -> -1000 <= e ->
  gt (binary_round_aux prec emax false m e l) zero = true.
Proof.
  intros Hm He. unfold binary_round_aux.
  pose proof (shr_fexp_positive m e l Hm He) as H1.
  destruct (shr_fexp prec emax m e l) as [mrs1 e1]. destruct H1 as [H1m H1e].
  pose proof (round_nearest_even_bounds
                (shr_m mrs1) (loc_of_shr_record mrs1)) as Hr.
  set (m2 := round_nearest_even (shr_m mrs1) (loc_of_shr_record mrs1)) in *.
  pose proof (shr_fexp_positive m2 e1 loc_Exact ltac:(lia) ltac:(lia)) as H2.
  destruct (shr_fexp prec emax m2 e1 loc_Exact) as [mrs2 e2].
  destruct H2 as [H2m _].
  destruct (shr_m mrs2) as [|p|p]; try lia.
  destruct (e2 <=? emax - prec)%Z; reflexivity.
Qed.

Lemma of_Z_positive (p : positive) : gt (of_Z (Z.pos p)) zero = true.
Proof.
  unfold of_Z, binary_normalize, binary_round, shl_align.
  set (ex' := fexp prec emax (Z.pos (digits2_pos p) + 0)).
  assert (Hex : -1000 <= ex').
  { unfold ex', fexp, emin, prec, emax. lia. }
  destruct (ex' - 0) as [|d|d] eqn:Ed; apply binary_round_aux_positive; lia.
Qed.

End Binary64.

(** ** Field coercion *)

Section Coercion.

Lemma parseNumber_not_nan (val : option string) :
  isNaN (parseNumber val) = false.
Proof.
  unfold parseNumber. destruct (negb (truthy val)); [reflexivity|].
  cbv zeta.
  destruct (isNaN (StringToNumber _)) eqn:E; [reflexivity | exact E].
Qed.

Lemma parseNumber_falsy (val : option string) :
  truthy val = false -> parseNumber val = zero.
Proof. intros H. unfold parseNumber. rewrite H. reflexivity. Qed.

Lemma parseNumber_nan_literal (val : option string) :
  isNaN (StringToNumber (replace_non_numeric (or_empty val))) = true ->
  parseNumber val = zero.
Proof.
  intros H. unfold parseNumber. destruct (negb (truthy val)); [reflexivity|].
  cbv zeta. rewrite H. reflexivity.
Qed.

Lemma parseNumber_nothing_left (val : option string) :
  replace_non_numeric (or_empty val) = "" -> parseNumber val = zero.
Proof.
  intros H. unfold parseNumber. destruct (negb (truthy val)); [reflexivity|].
  cbv zeta. rewrite H. reflexivity.
Qed.

Lemma parseNumber_non_numeric (val : option string) :
  non_numeric val -> parseNumber val = zero.
Proof.
  intros [H | [H | H]];
    [apply parseNumber_falsy | apply parseNumber_nothing_left
     | apply parseNumber_nan_literal]; exact H.
Qed.

Lemma parseNumber_converts (val : option string) :
  truthy val = true ->
  isNaN (StringToNumber (replace_non_numeric (or_empty val))) = false ->
  parseNumber val = StringToNumber (replace_non_numeric (or_empty val)).
Proof.
  intros Ht Hn. unfold parseNumber. rewrite Ht. cbn [negb]. cbv zeta.
  rewrite Hn. reflexivity.
Qed.

Lemma parseNumber_cleaned (s : string) :
  parseNumber (Some s) = parseNumber (Some (replace_non_numeric s)).
Proof.
  unfold parseNumber.
  destruct s as [|a t]; [reflexivity|].
  cbn [truthy negb]. rewrite !or_empty_Some.
  destruct (replace_non_numeric (String a t)) as [|b u] eqn:E.
  - reflexivity.
  - cbn [truthy negb]. rewrite <- E, replace_non_numeric_idem. reflexivity.
Qed.

Lemma parseNumber_blank (v : string) :
  white v -> parseNumber (Some v) = zero.
Proof.
  intros H. rewrite parseNumber_cleaned, (replace_non_numeric_blank v H).
  reflexivity.
Qed.

Lemma digit_val_range (c : ascii) :
  is_digit c = true -> 0 <= digit_val c <= 9.
Proof.
  unfold is_digit, digit_val. intros H.
  apply andb_prop in H as [H1 H2]. apply N.leb_le in H1, H2. lia.
Qed.

Lemma span_digits_spec (s : string) :
  all_chars is_digit (fst (span_digits s)) = true /\
  (String.length (fst (span_digits s)) + String.length (snd (span_digits s))
   = String.length s)%nat.
Proof.
  induction s as [|c t [IH1 IH2]]; cbn [span_digits]; [split; reflexivity|].
  destruct (is_digit c) eqn:Ec.
  - destruct (span_digits t) as [d r]. cbn [fst snd] in *.
    split; [cbn [all_chars]; rewrite Ec; exact IH1 | simpl; lia].
  - split; reflexivity.
Qed.

Lemma MV_digits_bound (s : string) :
  forall acc,
    0 <= acc -> all_chars is_digit s = true ->
    0 <= MV_digits acc s < (acc + 1) * 10 ^ Z.of_nat (String.length s).
Proof.
  induction s as [|c t IH]; intros acc Hacc Hs; cbn [MV_digits String.length].
  - change (10 ^ Z.of_nat 0) with 1. lia.
  - cbn [all_chars] in Hs. apply andb_prop in Hs as [Hc Ht].
    pose proof (digit_val_range c Hc) as Hv.
    destruct (IH (10 * acc + digit_val c)) as [H0 H1]; [lia | exact Ht |].
    rewrite Nat2Z.inj_succ, Z.pow_succ_r by lia.
    assert (0 < 10 ^ Z.of_nat (String.length t))
      by (apply Z.pow_pos_nonneg; lia).
    split; [exact H0 | nia].
Qed.

Lemma StrUnsignedDecimalLiteral_bound (s : string) (n k : Z) :
  StrUnsignedDecimalLiteral s = Some (n, k) ->
  0 <= n < 10 ^ Z.of_nat (String.length s).
Proof.
  unfold StrUnsignedDecimalLiteral.
  destruct (span_digits_spec s) as [Hd Hl].
  destruct (span_digits s) as [ip r]. cbn [fst snd] in *.
  destruct r as [|c f].
  - destruct (is_empty ip); [discriminate|]. intros [= <- _].
    pose proof (MV_digits_bound ip 0 ltac:(lia) Hd) as Hb.
    simpl in Hl. replace (String.length s) with (String.length ip) by lia.
    lia.
  - destruct (Ascii.eqb_spec c "."%char) as [->|Hc].
    + destruct (span_digits_spec f) as [Hd' Hl'].
      destruct (span_digits f) as [fp r']. cbn [fst snd] in *.
      destruct r' as [|c' r'']; [|discriminate].
      destruct (is_empty ip && is_empty fp); [discriminate|].
      intros [= <- _].
      pose proof (MV_digits_bound ip 0 ltac:(lia) Hd) as Hb.
      pose proof (MV_digits_bound fp (MV_digits 0 ip) ltac:(lia) Hd') as Hb'.
      simpl in Hl, Hl'.
      assert (Hlen : String.length s =
                     S (String.length ip + String.length fp)) by lia.
      rewrite Hlen, Nat2Z.inj_succ, Nat2Z.inj_add, Z.pow_succ_r,
        Z.pow_add_r by lia.
      assert (0 < 10 ^ Z.of_nat (String.length ip))
        by (apply Z.pow_pos_nonneg; lia).
      assert (0 < 10 ^ Z.of_nat (String.length fp))
        by (apply Z.pow_pos_nonneg; lia).
      split; [lia | nia].
    + destruct c as [[] [] [] [] [] [] [] []]; try discriminate.
      exfalso. apply Hc. reflexivity.
Qed.

Lemma RoundMV_finite (neg : bool) (n k : Z) :
  0 <= n < 2 ^ 1023 -> isFinite (RoundMV neg n k) = true.
Proof.
  intros [H0 H1]. unfold RoundMV. destruct n as [|p|p]; try reflexivity.
  apply div_finite.
  assert (1 <= Z.pos (Z.to_pos (10 ^ k))) by lia.
  assert (0 < 2 ^ 1023) by (apply Z.pow_pos_nonneg; lia).
  nia.
Qed.

Lemma pow10_307 : 10 ^ 307 < 2 ^ 1023.
Proof. reflexivity. Qed.

Lemma literal_finite (neg : bool) (s : string) (n k : Z) :
  (String.length s <= 307)%nat ->
  StrUnsignedDecimalLiteral s = Some (n, k) ->
  isFinite (RoundMV neg n k) = true.
Proof.
  intros Hlen Hs. apply RoundMV_finite.
  pose proof (StrUnsignedDecimalLiteral_bound s n k Hs) as [H0 H1].
  assert (10 ^ Z.of_nat (String.length s) <= 10 ^ 307)
    by (apply Z.pow_le_mono_r; lia).
  pose proof pow10_307. lia.
Qed.

Lemma StringToNumber_finite (s : string) :
  (String.length s <= 307)%nat ->
  isNaN (StringToNumber s) = true \/ isFinite (StringToNumber s) = true.
Proof.
  intros Hlen. unfold StringToNumber.
  destruct s as [|c t]; [right; reflexivity|].
  assert (Hpos :
    isNaN match StrUnsignedDecimalLiteral (String c t) with
          | Some (n, k) => RoundMV false n k
          | None => NaN
          end = true \/
    isFinite match StrUnsignedDecimalLiteral (String c t) with
             | Some (n, k) => RoundMV false n k
             | None => NaN
             end = true).
  { destruct (StrUnsignedDecimalLiteral (String c t)) as [[n k]|] eqn:E;
      [right | left; reflexivity].
    exact (literal_finite false _ n k Hlen E). }
  destruct (Ascii.eqb_spec c "-"%char) as [->|Hc].
  - destruct (StrUnsignedDecimalLiteral t) as [[n k]|] eqn:E;
      [right | left; reflexivity].
    apply (literal_finite true t n k); [simpl in Hlen; lia | exact E].
  - destruct c as [[] [] [] [] [] [] [] []]; try exact Hpos.
    exfalso. apply Hc. reflexivity.
Qed.

Lemma parseNumber_finite (val : option string) :
  (String.length (replace_non_numeric (or_empty val)) <= 307)%nat ->
  isFinite (parseNumber val) = true.
Proof.
  intros Hlen. unfold parseNumber.
  destruct (negb (truthy val)); [reflexivity|]. cbv zeta.
  destruct (StringToNumber_finite _ Hlen) as [H | H].
  - rewrite H. reflexivity.
  - destruct (isNaN (StringToNumber _)); [reflexivity | exact H].
Qed.

Lemma replace_non_numeric_length (s : string) :
  (String.length (replace_non_numeric s) <= String.length s)%nat.
Proof.
  induction s as [|c t IH]; simpl; [lia|].
  destruct (numeric_char c); simpl; lia.
Qed.

Lemma or_zero_finite (x : number) :
  isFinite x = true -> isFinite (or_zero x) = true.
Proof.
  intros H. unfold or_zero.
  destruct (truthy_num x); [exact H | reflexivity].
Qed.

Lemma or_zero_not_nan (x : number) :
  isNaN x = false -> isNaN (or_zero x) = false.
Proof.
  intros H. unfold or_zero.
  destruct (truthy_num x); [exact H | reflexivity].
Qed.

End Coercion.

(** [parseNumber] on the examples of the specification. *)
Example parseNumber_currency :
  parseNumber (Some "$1,234.50") = dyadic 2469 (-1).
Proof. vm_compute. reflexivity. Qed.

Example parseNumber_negative : parseNumber (Some "-85,000") = of_Z (-85000).
Proof. vm_compute. reflexivity. Qed.

Example parseNumber_two_signs : parseNumber (Some "12-34") = zero.
Proof. vm_compute. reflexivity. Qed.

(** C3, as stated, fails: a cell made of the digit 1 followed by 309 zeros
    is cleaned to itself, converts to +Infinity, and passes the [isNaN]
    guard, so [parseNumber] returns a number that is not finite. *)
Lemma C3_counterexample_overflow :
  parseNumber (Some (String "1" (zeros 309))) = S754_infinity false /\
  isFinite (parseNumber (Some (String "1" (zeros 309)))) = false.
Proof. vm_compute. split; reflexivity. Qed.

(** C3, amended: for every input, absent or not, [parseNumber] is defined
    and its result is never NaN, and it is finite whenever at most 307
    characters are left after cleaning. Cleaning removes every character
    that is not a digit, [.] or [-] (the cleaned text holds only such
    characters, and a text of such characters is left as it is). When the
    input is not empty and the cleaned text is a numeric literal, the result
    is the conversion of the cleaned text; it is 0 when the input is absent
    or empty, when nothing is left of it, or when what is left is not a
    numeric literal; and [parseNumber("$1,234.50") = 1234.5],
    [parseNumber("") = 0], [parseNumber(undefined) = 0]. *)
Theorem C3_parseNumber_total_not_nan (val : option string) :
  isNaN (parseNumber val) = false /\
  (short_number val -> isFinite (parseNumber val) = true) /\
  (truthy val = true ->
   isNaN (StringToNumber (replace_non_numeric (or_empty val))) = false ->
   parseNumber val = StringToNumber (replace_non_numeric (or_empty val))) /\
  all_chars numeric_char (replace_non_numeric (or_empty val)) = true /\
  (forall s, all_chars numeric_char s = true -> replace_non_numeric s = s) /\
  (non_numeric val -> parseNumber val = zero) /\
  parseNumber (Some "$1,234.50") = dyadic 2469 (-1) /\
  parseNumber (Some "") = zero /\
  parseNumber None = zero.
Proof.
  split; [apply parseNumber_not_nan|].
  split; [apply parseNumber_finite|].
  split; [apply parseNumber_converts|].
  split; [apply replace_non_numeric_class|].
  split; [exact replace_non_numeric_id|].
  split; [apply parseNumber_non_numeric|].
  split; [exact parseNumber_currency|].
  split; reflexivity.
Qed.

Lemma C3_parseNumber_total_not_nan_witness :
  (non_numeric (Some "n/a") /\ parseNumber (Some "n/a") = zero) /\
  (short_number (Some "-85,000") /\
   isFinite (parseNumber (Some "-85,000")) = true) /\
  parseNumber (Some "-85,000") = StringToNumber "-85000".
Proof.
  assert (H : non_numeric (Some "n/a")) by (right; left; reflexivity).
  assert (H' : short_number (Some "-85,000")).
  { unfold short_number. simpl. lia. }
  split; [split; [assumption|] | split; [split; [assumption|] |]].
  - destruct (C3_parseNumber_total_not_nan (Some "n/a"))
      as (_ & _ & _ & _ & _ & Hz & _).
    exact (Hz H).
  - destruct (C3_parseNumber_total_not_nan (Some "-85,000")) as (_ & Hf & _).
    exact (Hf H').
  - destruct (C3_parseNumber_total_not_nan (Some "-85,000"))
      as (_ & _ & Hc & _).
    exact (Hc eq_refl eq_refl).
Defined.

(** ** Record mapper *)

(** C5, as stated, fails: on a row whose MONTH cell is [" FEBRUARY "] and
    whose value cell is the digit 1 followed by 309 zeros, the mapped record
    keeps the month text with its surrounding blanks and carries +Infinity as
    its [qtnValue]. *)
Lemma C5_counterexample_untrimmed_infinite :
  let row : gmap string string :=
    <["MONTH" := " FEBRUARY "]>
      (<["PDA / QTN VALUE" := String "1" (zeros 309)]> ∅) in
  let r := mapRow (Some "") row in
  month r = " FEBRUARY " /\ ~ trimmed (month r) /\
  isFinite (qtnValue r) = false.
Proof.
  cbv zeta. split; [vm_compute; reflexivity|]. split.
  - intros H.
    assert (E : month (mapRow (Some "")
                  (<["MONTH" := " FEBRUARY "]>
                     (<["PDA / QTN VALUE" := String "1" (zeros 309)]> ∅))) =
                " " +:+ "FEBRUARY ") by (vm_compute; reflexivity).
    destruct (H " " "FEBRUARY " E) as [Hpre _].
    assert (Hw : white " ") by (apply trimStart_empty_white; reflexivity).
    discriminate (Hpre Hw).
  - vm_compute. reflexivity.
Qed.

(** C5, amended: every record the mapper produces has numeric fields that
    are never NaN, that are finite whenever at most 307 characters are left
    of their source cell after cleaning, and that are 0 when the cell is
    absent, empty or not numeric; [vesselName], [qtnStatus], [update] and
    [contactPerson] are the trimmed cell text and have no white space at
    either end; every other string field is the cell text as it is; and
    every string field is the empty string when its cell is absent or
    empty. *)
Theorem C5_mapRow_invariants (fh : option string) (row : gmap string string) :
  let r := mapRow fh row in
  Forall (fun x => isNaN x = false) (numeric_fields r) /\
  Forall2 (fun cell x => short_number cell -> isFinite x = true)
          (numeric_cells fh row) (numeric_fields r) /\
  Forall2 (fun cell x => non_numeric cell -> x = zero)
          (numeric_cells fh row) (numeric_fields r) /\
  Forall trimmed (trimmed_fields r) /\
  Forall2 (fun cell x => x = trim (or_empty cell))
          (trimmed_cells row) (trimmed_fields r) /\
  Forall2 (fun cell x => x = or_empty cell)
          (copied_cells fh row) (copied_fields r) /\
  Forall2 (fun cell x => truthy cell = false -> x = "")
          (trimmed_cells row ++ copied_cells fh row)
          (trimmed_fields r ++ copied_fields r).
Proof.
  cbv zeta.
  unfold numeric_fields, numeric_cells, trimmed_fields, trimmed_cells,
    copied_fields, copied_cells, mapRow;
    cbn -[trim or_empty or_else parseNumber or_zero get].
  repeat split.
  - repeat constructor;
      try apply or_zero_not_nan; apply parseNumber_not_nan.
  - repeat constructor; intros H;
      try apply or_zero_finite; apply parseNumber_finite, H.
  - repeat constructor; intros H;
      rewrite (parseNumber_non_numeric _ H); reflexivity.
  - repeat (apply List.Forall_cons; [apply trim_trimmed|]).
    apply List.Forall_nil.
  - repeat constructor.
  - repeat constructor.
  - repeat constructor; intros H; rewrite (or_empty_falsy _ H); reflexivity.
Qed.

Lemma C5_mapRow_invariants_witness :
  year (mapRow (Some "") (<["YEAR" := "TBC"]> ∅)) = zero.
Proof.
  pose proof (C5_mapRow_invariants (Some "") (<["YEAR" := "TBC"]> ∅)) as H.
  cbv zeta in H. destruct H as (_ & _ & H & _).
  inversion H as [|c1 x1 cs1 xs1 _ H1]; subst.
  inversion H1 as [|c2 x2 cs2 xs2 Hyear _]; subst.
  apply Hyear. right. left. vm_compute. reflexivity.
Defined.

(** ** Row filter *)

Section RowFilter.

Lemma keep_signal (r : Inquiry) :
  keep r = true <->
  vesselName r <> "" \/ gt (qtnValue r) zero = true \/
  gt (rowNum r) zero = true.
Proof.
  unfold keep. rewrite !orb_true_iff, truthy_Some. tauto.
Qed.

Lemma blank_cell (row : gmap string string) (k : string) :
  blank row ->
  parseNumber (row !! k) = zero /\ trim (or_empty (row !! k)) = "".
Proof.
  intros Hb. destruct (row !! k) as [v|] eqn:E.
  - pose proof (Hb k v E) as Hv. split.
    + apply parseNumber_blank, Hv.
    + rewrite or_empty_Some. apply trim_blank, Hv.
  - split; reflexivity.
Qed.

Lemma blank_dropped (fh : option string) (row : gmap string string) :
  blank row -> keep (mapRow fh row) = false.
Proof.
  intros Hb. unfold keep, mapRow; cbn -[trim or_empty parseNumber].
  destruct (blank_cell row "VESSEL NAME" Hb) as [_ ->].
  destruct (blank_cell row "PDA / QTN VALUE" Hb) as [-> _].
  assert (Hid : parseNumber (get row fh) = zero).
  { destruct fh as [h|]; simpl; apply blank_cell, Hb. }
  rewrite Hid. reflexivity.
Qed.

End RowFilter.

(** C7: a mapped record is in the output of the row filter exactly when it
    is the image of a parsed row and has a non-empty [vesselName], or a
    [qtnValue] greater than zero, or a [rowNum] greater than zero. A row
    whose cells are all white space is not in the output, and the fetch still
    fulfils with the filtered list; a row with a positive [qtnValue] and an
    empty name is in the output. *)
Theorem C7_row_filter_signal (results : ParseResult) :
  (forall r,
      In r (validData results) <->
      (exists row, In row (data results) /\
                   r = mapRow (firstHeader results) row) /\
      (vesselName r <> "" \/ gt (qtnValue r) zero = true \/
       gt (rowNum r) zero = true)) /\
  (forall row,
      blank row ->
      ~ In (mapRow (firstHeader results) row) (validData results)) /\
  (forall statusText,
      fetchSheetData (Response true statusText (Complete results)) =
      Fulfilled (validData results)) /\
  (forall row,
      In row (data results) ->
      vesselName (mapRow (firstHeader results) row) = "" ->
      gt (qtnValue (mapRow (firstHeader results) row)) zero = true ->
      In (mapRow (firstHeader results) row) (validData results)).
Proof.
  assert (Hin : forall r,
      In r (validData results) <->
      (exists row, In row (data results) /\
                   r = mapRow (firstHeader results) row) /\
      (vesselName r <> "" \/ gt (qtnValue r) zero = true \/
       gt (rowNum r) zero = true)).
  { intros r. unfold validData, parsedData.
    rewrite filter_In, in_map_iff, keep_signal. split.
    - intros [[row [Hr Hrow]] Hs]. split; [exists row; auto | exact Hs].
    - intros [[row [Hrow Hr]] Hs]. split; [exists row; auto | exact Hs]. }
  split; [exact Hin|]. split; [|split].
  - intros row Hb Hr. unfold validData in Hr. apply filter_In in Hr as [_ Hk].
    rewrite (blank_dropped _ row Hb) in Hk. discriminate Hk.
  - reflexivity.
  - intros row Hrow _ Hv. apply Hin. split; [exists row; auto | auto].
Qed.

Lemma C7_row_filter_signal_witness :
  let blank_row : gmap string string :=
    <["VESSEL NAME" := encode 0xA0 +:+ "  "]>
      (<["PDA / QTN VALUE" := " "]> ∅) in
  let valued_row : gmap string string :=
    <["VESSEL NAME" := "  "]> (<["PDA / QTN VALUE" := "$5"]> ∅) in
  let results :=
    mkParseResult (Some ["VESSEL NAME"; "PDA / QTN VALUE"])
                  [blank_row; valued_row] in
  ~ In (mapRow (firstHeader results) blank_row) (validData results) /\
  In (mapRow (firstHeader results) valued_row) (validData results).
Proof.
  cbv zeta.
  set (b := <["VESSEL NAME" := encode 0xA0 +:+ "  "]>
              (<["PDA / QTN VALUE" := " "]> ∅)
            : gmap string string).
  set (v := <["VESSEL NAME" := "  "]> (<["PDA / QTN VALUE" := "$5"]> ∅)
            : gmap string string).
  set (results :=
         mkParseResult (Some ["VESSEL NAME"; "PDA / QTN VALUE"]) [b; v]).
  destruct (C7_row_filter_signal results) as (_ & Hblank & _ & Hval).
  split.
  - apply Hblank. intros k x Hk. subst b.
    destruct (decide (k = "VESSEL NAME")) as [->|Hn1].
    + rewrite lookup_insert_eq in Hk. injection Hk as <-.
      apply trimStart_empty_white. vm_compute. reflexivity.
    + rewrite lookup_insert_ne in Hk by congruence.
      destruct (decide (k = "PDA / QTN VALUE")) as [->|Hn2].
      * rewrite lookup_insert_eq in Hk. injection Hk as <-.
        apply trimStart_empty_white. reflexivity.
      * rewrite lookup_insert_ne in Hk by congruence.
        rewrite lookup_empty in Hk. discriminate Hk.
  - apply Hval.
    + right. left. reflexivity.
    + vm_compute. reflexivity.
    + vm_compute. reflexivity.
Defined.

(** ** Header resolution *)

(** C2, as stated, fails on the earlier data service, which the claim
    cites: with a row whose header at position 0 is [ID], it reads
    [folderNumber] under the fixed name [FOLDER NUMBER] and [rowNum] under
    the header [''], and the cell under [ID] is not read. *)
Lemma C2_counterexample_fixed_name :
  let row : gmap string string :=
    <["ID" := "7"]> (<["FOLDER NUMBER" := "F-1"]> ∅) in
  head ["ID"; "FOLDER NUMBER"] = Some "ID" /\
  or_empty (row !! "ID") = "7" /\
  folderNumber (LegacyDataService.mapRow row) = "F-1" /\
  rowNum (LegacyDataService.mapRow row) = zero.
Proof. vm_compute. repeat split; reflexivity. Qed.

(** C2, amended: in the data service with the dynamic first column,
    [rowNum] and [folderNumber] are read from the cell under the header at
    position 0 of the header list the parser reports, whatever its text (the
    empty string included), and they depend on no other cell. The earlier
    data service reads [rowNum] under the header [''] and [folderNumber]
    under the fixed name [FOLDER NUMBER], whatever header is at position
    0. *)
Theorem C2_identifier_first_header
    (results : ParseResult) (h : string) (rest : list string)
    (row : gmap string string) :
  meta_fields results = Some (h :: rest) ->
  (rowNum (mapRow (firstHeader results) row) =
     or_zero (parseNumber (row !! h)) /\
   folderNumber (mapRow (firstHeader results) row) = or_empty (row !! h)) /\
  (forall row' : gmap string string,
      row' !! h = row !! h ->
      rowNum (mapRow (firstHeader results) row') =
        rowNum (mapRow (firstHeader results) row) /\
      folderNumber (mapRow (firstHeader results) row') =
        folderNumber (mapRow (firstHeader results) row)) /\
  (rowNum (LegacyDataService.mapRow row) = or_zero (parseNumber (row !! "")) /\
   folderNumber (LegacyDataService.mapRow row) =
     or_empty (row !! "FOLDER NUMBER")).
Proof.
  intros Hf. unfold firstHeader. rewrite Hf. cbn [head].
  split; [split; reflexivity|]. split; [|split; reflexivity].
  intros row' E. unfold mapRow; cbn [rowNum folderNumber get].
  rewrite E. split; reflexivity.
Qed.

Lemma C2_identifier_first_header_witness :
  let row : gmap string string :=
    <["" := "12"]> (<["FOLDER NUMBER" := "F-1"]> ∅) in
  let results := mkParseResult (Some [""; "FOLDER NUMBER"]) [row] in
  rowNum (mapRow (firstHeader results) row) = of_Z 12 /\
  folderNumber (mapRow (firstHeader results) row) = "12".
Proof.
  cbv zeta.
  destruct (C2_identifier_first_header
              (mkParseResult (Some [""; "FOLDER NUMBER"])
                 [<["" := "12"]> (<["FOLDER NUMBER" := "F-1"]> ∅)])
              "" ["FOLDER NUMBER"]
              (<["" := "12"]> (<["FOLDER NUMBER" := "F-1"]> ∅))
              eq_refl) as [[Hn Hf] _].
  split.
  - rewrite Hn. vm_compute. reflexivity.
  - rewrite Hf. vm_compute. reflexivity.
Defined.

(** ** Ingestion pipeline and refresh *)

(** C1: what the code does on a failed cycle. When [fetch] rejects, or the
    response has a non-success status, [fetchSheetData] fulfils with the
    empty list, and [loadData] installs it: whatever records were held, the
    observable state becomes no records and [loading = false]. Only a parser
    failure reaches [loadData] as a rejection; then the held records are
    kept and [loading] becomes [false]. *)
Theorem C1_failed_cycle_on_code
    (s : App.State) (message statusText : string) (papa : PapaOutcome) :
  (fetchSheetData (NetworkError message) = Fulfilled [] /\
   App.observable (App.loadData (NetworkError message) s) = ([], false)) /\
  (fetchSheetData (Response false statusText papa) = Fulfilled [] /\
   App.observable (App.loadData (Response false statusText papa) s) =
     ([], false)) /\
  (fetchSheetData (Response true statusText (ParseError message)) =
     Rejected message /\
   App.observable
     (App.loadData (Response true statusText (ParseError message)) s) =
     (App.inquiries s, false)).
Proof. repeat split. Qed.

(** The scenario of the specification: cycle 1 succeeds with five records,
    cycle 2 gets a non-success status. *)
Example failed_cycle_after_five_records :
  let row (n : string) : gmap string string := <["VESSEL NAME" := n]> ∅ in
  let results :=
    mkParseResult (Some ["VESSEL NAME"])
                  [row "A"; row "B"; row "C"; row "D"; row "E"] in
  let s1 := App.loadData (Response true "OK" (Complete results))
                         (App.initial 0) in
  let s2 := App.loadData (Response false "Service Unavailable"
                                   (ParseError "")) s1 in
  length (App.inquiries s1) = 5%nat /\
  length (App.inquiries s2) = 0%nat /\
  App.loading s2 = false.
Proof. vm_compute. repeat split; reflexivity. Qed.

Section Teardown.
Import App.

Lemma step_after_unmount (e : Event) (s s' : State) :
  e <> Mount -> interval s = false -> clock s = false -> mounted s = false ->
  step e s = Some s' ->
  interval s' = false /\ clock s' = false /\ mounted s' = false /\
  observable s' = observable s /\ currentTime s' = currentTime s /\
  (inflight s' <= inflight s)%nat.
Proof.
  intros He Hi Hc Hm Hs. destruct e as [| |now|c|]; cbn [step] in Hs.
  - congruence.
  - rewrite Hi in Hs. discriminate Hs.
  - rewrite Hc in Hs. discriminate Hs.
  - destruct (inflight s) as [|n] eqn:En; [discriminate Hs|].
    rewrite Hm in Hs. injection Hs as <-.
    cbn [interval clock mounted currentTime inflight observable inquiries
         loading].
    repeat split; auto with lia.
  - injection Hs as <-. cbn. repeat split; auto.
Qed.

Lemma run_after_unmount (es : list Event) (s : State) :
  Forall (fun e => e <> Mount) es ->
  interval s = false -> clock s = false -> mounted s = false ->
  interval (run es s) = false /\ clock (run es s) = false /\
  observable (run es s) = observable s /\
  currentTime (run es s) = currentTime s /\
  (inflight (run es s) <= inflight s)%nat.
Proof.
  intros Hes. revert s.
  induction Hes as [|e es He _ IH]; intros s Hi Hc Hm; cbn [run].
  - repeat split; auto.
  - destruct (step e s) as [s'|] eqn:Es; [|apply IH; assumption].
    destruct (step_after_unmount e s s' He Hi Hc Hm Es)
      as (Hi' & Hc' & Hm' & Ho & Ht & Hn).
    destruct (IH s' Hi' Hc' Hm') as (H1 & H2 & H3 & H4 & H5).
    repeat split; [assumption | assumption | congruence | congruence | lia].
Qed.

End Teardown.

(** A fetch in flight at teardown: the component is mounted (its first
    [loadData] is in flight) and torn down; the fetch then completes with
    one record, and the observable state is still no records and
    [loading = true]. While the component is mounted the same fetch installs
    the record. *)
Example settle_after_unmount :
  let results :=
    mkParseResult (Some ["VESSEL NAME"]) [<["VESSEL NAME" := "MV A"]> ∅] in
  let c := Response true "OK" (Complete results) in
  let stopped := App.run [App.Mount; App.Unmount] (App.initial 0) in
  App.observable stopped = ([], true) /\
  App.observable (App.run [App.Settle c] stopped) = ([], true) /\
  length (App.inquiries (App.run [App.Mount; App.Settle c] (App.initial 0))) =
    1%nat.
Proof. vm_compute. repeat split; reflexivity. Qed.

(** C8: the cleanup of the effect clears both the refresh timer and the
    clock timer and leaves the observable state as it is; after it, whatever
    events follow (as long as the component is not mounted again), neither
    timer is set, no timer callback runs, and the observable state and the
    clock reading never change. In particular a fetch in flight at teardown
    settles without changing the records or [loading]: [loadData] has no
    guard of its own, and React discards the updates of the unmounted
    component. *)
Theorem C8_teardown_clears_timers (s stopped : App.State) :
  App.step App.Unmount s = Some stopped ->
  (App.interval stopped = false /\ App.clock stopped = false) /\
  App.observable stopped = App.observable s /\
  (App.step App.RefreshTick stopped = None /\
   forall now, App.step (App.ClockTick now) stopped = None) /\
  (forall es,
      Forall (fun e => e <> App.Mount) es ->
      App.observable (App.run es stopped) = App.observable s /\
      App.currentTime (App.run es stopped) = App.currentTime s /\
      App.interval (App.run es stopped) = false /\
      App.clock (App.run es stopped) = false /\
      (App.inflight (App.run es stopped) <= App.inflight s)%nat) /\
  (forall c n,
      App.inflight s = S n ->
      exists later,
        App.step (App.Settle c) stopped = Some later /\
        App.observable later = App.observable s /\
        App.inflight later = n).
Proof.
  intros H. injection H as <-.
  split; [split; reflexivity|]. split; [reflexivity|].
  split; [split; [reflexivity | intros now; reflexivity]|]. split.
  - intros es Hes.
    destruct (run_after_unmount es
                (App.mkState (App.inquiries s) (App.loading s)
                             (App.currentTime s) false false (App.inflight s)
                             false)
                Hes eq_refl eq_refl eq_refl) as (H1 & H2 & H3 & H4 & H5).
    repeat split; assumption.
  - intros c n Hn. cbn [App.step App.inflight]. rewrite Hn.
    eexists. split; [reflexivity|]. split; reflexivity.
Qed.

Lemma C8_teardown_clears_timers_witness :
  let results :=
    mkParseResult (Some ["VESSEL NAME"]) [<["VESSEL NAME" := "MV A"]> ∅] in
  let c := Response true "OK" (Complete results) in
  let mounted := App.run [App.Mount] (App.initial 0) in
  let stopped := App.run [App.Mount; App.Unmount] (App.initial 0) in
  App.step App.Unmount mounted = Some stopped /\
  App.step App.RefreshTick stopped = None /\
  App.step (App.ClockTick 1) stopped = None /\
  App.observable (App.run [App.Settle c; App.RefreshTick] stopped) =
    App.observable mounted.
Proof.
  cbv zeta. split; [reflexivity|].
  destruct (C8_teardown_clears_timers
              (App.run [App.Mount] (App.initial 0))
              (App.run [App.Mount; App.Unmount] (App.initial 0))
              eq_refl) as (_ & _ & [Htick Hclock] & Hrun & _).
  split; [exact Htick|]. split; [exact (Hclock 1)|].
  apply Hrun. repeat constructor; discriminate.
Defined.

(** ** Window filter *)

Section Calendar.

Ltac calc_pred :=
  repeat match goal with
         | |- context [Z.sub (Zpos ?p) 1] =>
             let v := eval vm_compute in (Z.sub (Zpos p) 1) in
             change (Z.sub (Zpos p) 1) with v
         end.

Lemma DayFromYear_succ (y : Z) :
  DayFromYear y = DayFromYear (y - 1) + 365 + leapDays (y - 1).
Proof.
  unfold DayFromYear, leapDays, isLeapYear.
  assert (H4 : (y - 1969) / 4 - (y - 1 - 1969) / 4 =
               if ((y - 1) mod 4 =? 0)%Z then 1 else 0).
  { destruct (Z.eqb_spec ((y - 1) mod 4) 0); Z.div_mod_to_equations; lia. }
  assert (H100 : (y - 1901) / 100 - (y - 1 - 1901) / 100 =
                 if ((y - 1) mod 100 =? 0)%Z then 1 else 0).
  { destruct (Z.eqb_spec ((y - 1) mod 100) 0); Z.div_mod_to_equations; lia. }
  assert (H400 : (y - 1601) / 400 - (y - 1 - 1601) / 400 =
                 if ((y - 1) mod 400 =? 0)%Z then 1 else 0).
  { destruct (Z.eqb_spec ((y - 1) mod 400) 0); Z.div_mod_to_equations; lia. }
  assert (Hd1 : (y - 1) mod 400 = 0 -> (y - 1) mod 100 = 0).
  { intros H. Z.div_mod_to_equations. lia. }
  assert (Hd2 : (y - 1) mod 100 = 0 -> (y - 1) mod 4 = 0).
  { intros H. Z.div_mod_to_equations. lia. }
  destruct (Z.eqb_spec ((y - 1) mod 4) 0),
           (Z.eqb_spec ((y - 1) mod 100) 0),
           (Z.eqb_spec ((y - 1) mod 400) 0);
    cbn [negb andb orb]; try lia; tauto.
Qed.

Lemma dayWithinYear_succ (y m : Z) :
  0 < m <= 11 ->
  dayWithinYear y m = dayWithinYear y (m - 1) + daysInMonth y (m - 1).
Proof.
  intros H.
  assert (Hc : m = 1 \/ m = 2 \/ m = 3 \/ m = 4 \/ m = 5 \/ m = 6 \/
               m = 7 \/ m = 8 \/ m = 9 \/ m = 10 \/ m = 11) by lia.
  destruct Hc as [->|[->|[->|[->|[->|[->|[->|[->|[->|[->| ->]]]]]]]]]];
    calc_pred; unfold dayWithinYear, daysInMonth, leapDays;
    destruct (isLeapYear y); lia.
Qed.

Lemma daysInMonth_min (y m : Z) : 28 <= daysInMonth y m.
Proof.
  unfold daysInMonth.
  destruct m as [|p|p]; try lia;
    repeat (destruct p as [p|p|]; try lia); destruct (isLeapYear y); lia.
Qed.

(** [setDate(getDate() - 1)] of a calendar date is the calendar date of the
    day before. *)
Lemma setDate_prev_day_before (d : Date) :
  valid_date d ->
  valid_date (setDate_prev d) /\
  day_number (setDate_prev d) = day_number d - 1.
Proof.
  destruct d as [y m dd].
  unfold valid_date, day_number, setDate_prev, MakeDay;
    cbn [getFullYear getMonth getDate].
  intros [Hm Hd].
  destruct (Z.ltb_spec 1 dd); cbn [getFullYear getMonth getDate].
  - split; [split|]; lia.
  - assert (dd = 1) by lia. subst dd.
    destruct (Z.ltb_spec 0 m); cbn [getFullYear getMonth getDate].
    + rewrite (dayWithinYear_succ y m) by lia.
      pose proof (daysInMonth_min y (m - 1)). split; [split|]; lia.
    + assert (m = 0) by lia. subst m.
      rewrite (DayFromYear_succ y).
      unfold dayWithinYear, daysInMonth, leapDays.
      destruct (isLeapYear (y - 1)); split; try lia; split; lia.
Qed.

End Calendar.

Example yesterday_within_month :
  setDate_prev (mkDate 2026 1 19) = mkDate 2026 1 18.
Proof. reflexivity. Qed.

Example yesterday_across_months :
  setDate_prev (mkDate 2024 2 1) = mkDate 2024 1 29.
Proof. reflexivity. Qed.

Example yesterday_across_years :
  setDate_prev (mkDate 2026 0 1) = mkDate 2025 11 31.
Proof. reflexivity. Qed.

Section Window.

(** On ASCII month texts and month names the window does not depend on
    the engine's upper-casing. *)
Lemma filteredInquiries_ascii (toUpperCase : string -> string)
    (monthLong : Z -> string) (today : Date) (records : list Inquiry) :
  upper_cases_ascii toUpperCase ->
  (forall r, In r records -> all_chars is_ascii (month r) = true) ->
  all_chars is_ascii (monthLong (getMonth today)) = true ->
  all_chars is_ascii (monthLong (getMonth (setDate_prev today))) = true ->
  App.filteredInquiries toUpperCase monthLong today records =
  App.filteredInquiries ascii_toUpperCase monthLong today records.
Proof.
  intros Hup Hr Ht Hy. unfold App.filteredInquiries. cbv zeta.
  rewrite (Hup _ Ht), (Hup _ Hy).
  apply List.filter_ext_in. intros r Hin. rewrite or_empty_Some.
  rewrite (Hup _ (Hr r Hin)). reflexivity.
Qed.

End Window.



(** The month test is one-directional: a short month text does not contain
    the full month name, a longer one does. *)
Example window_month_forms (toUpperCase : string -> string) :
  upper_cases_ascii toUpperCase ->
  List.map month
    (App.filteredInquiries toUpperCase monthLong_en (mkDate 2026 1 19)
       [dated 2026 19 "Feb"; dated 2026 19 "2. February";
        dated 2026 19 "february"]) =
  ["2. February"; "february"].
Proof.
  intros Hup. rewrite (filteredInquiries_ascii toUpperCase _ _ _ Hup).
  - vm_compute. reflexivity.
  - intros r [<- | [<- | [<- | []]]]; reflexivity.
  - reflexivity.
  - reflexivity.
Qed.

(** Letters beyond ASCII: in a French locale, with an engine that
    upper-cases [février] to [FÉVRIER], a record whose month text is
    [FÉVRIER] or [Février 2026] is in the window. *)
Example window_french (toUpperCase : string -> string) :
  toUpperCase "février" = "FÉVRIER" ->
  toUpperCase "FÉVRIER" = "FÉVRIER" ->
  toUpperCase "Février 2026" = "FÉVRIER 2026" ->
  List.map month
    (App.filteredInquiries toUpperCase (fun _ => "février")
       (mkDate 2026 1 19)
       [dated 2026 19 "FÉVRIER"; dated 2026 18 "Février 2026"]) =
  ["FÉVRIER"; "Février 2026"].
Proof.
  intros H1 H2 H3. unfold App.filteredInquiries. cbv zeta.
  rewrite H1. cbn [List.filter dated month year date or_empty or_else truthy].
  rewrite H2, H3. vm_compute. reflexivity.
Qed.

(** ** Aggregates *)

Section Sums.

Lemma reduce_sum_from {A : Type} (f : A -> number) (l : list A)
    (init : number) :
  App.reduce (fun acc s => add acc (f s)) init l =
  sum_from init (List.map f l).
Proof.
  unfold App.reduce. revert init.
  induction l as [|a l IH]; intros init; simpl; [reflexivity | apply IH].
Qed.

Lemma sum_from_app (xs ys : list number) (init : number) :
  sum_from init (xs ++ ys) = sum_from (sum_from init xs) ys.
Proof.
  revert init. induction xs as [|x xs IH]; intros init; simpl;
    [reflexivity | apply IH].
Qed.

Lemma sum_snoc (xs : list number) (x : number) :
  sum (xs ++ [x]) = add (sum xs) x.
Proof. unfold sum. rewrite sum_from_app. reflexivity. Qed.

Lemma add_zero_same_value (a z : number) :
  is_zero z = true -> same_value (add a z) a.
Proof.
  destruct z as [sz| | |]; try discriminate. intros _.
  destruct a as [sa|sa| |sa m e]; simpl.
  - right. destruct sa, sz; split; reflexivity.
  - left. reflexivity.
  - left. reflexivity.
  - left. reflexivity.
Qed.

Lemma or_zero_same_value (x : number) :
  isNaN x = false -> same_value (or_zero x) x.
Proof.
  destruct x as [sx|sx| |sx m e]; simpl; intros H; try discriminate.
  - right. split; reflexivity.
  - left. reflexivity.
  - left. reflexivity.
Qed.

End Sums.

(** C6, as stated, fails on the shipment dashboard: for one shipment with
    revenue 100, cost 60 and profit 10, [totalProfit] is 40 (revenue minus
    cost), while the sum of the profit fields is 10. *)
Lemma C6_counterexample_shipment_profit :
  let shipments :=
    [ShipmentApp.mkShipment "SHP-0001" "2026-02-10" "Blue Horizon" "SGP"
       "NLD" zero (of_Z 100) (of_Z 60) (of_Z 10) zero] in
  ShipmentApp.totalProfit (ShipmentApp.stats shipments) = of_Z 40 /\
  sum (List.map ShipmentApp.profit shipments) = of_Z 10 /\
  ShipmentApp.totalProfit (ShipmentApp.stats shipments) <>
  sum (List.map ShipmentApp.profit shipments).
Proof. vm_compute. repeat split; try reflexivity. intros H. discriminate H. Qed.

(** C6, amended: on the inquiry dashboard, for every record subset,
    [totalQtnValue], [totalCost] and [totalProfit] are the sums, taken in
    list order from 0, of the records' [qtnValue], [qtnCost] (a NaN counted
    as 0) and [qtnProfit]; a record whose field is 0 leaves the sum at the
    same value, and a record mapped from a row without the cell has 0 in the
    field. On the shipment dashboard [totalRevenue] and [totalCost] are such
    sums of [revenue] and [cost], and [totalProfit] is [totalRevenue] minus
    [totalCost]. *)
Theorem C6_stats_sums (subset : list Inquiry)
    (shipments : list ShipmentApp.Shipment) :
  (App.totalQtnValue (App.stats subset) = sum (List.map qtnValue subset) /\
   App.totalCost (App.stats subset) =
     sum (List.map (fun s => or_zero (qtnCost s)) subset) /\
   App.totalProfit (App.stats subset) = sum (List.map qtnProfit subset)) /\
  (sum [] = zero /\
   (forall xs x, sum (xs ++ [x]) = add (sum xs) x) /\
   (forall xs x, is_zero x = true -> same_value (sum (xs ++ [x])) (sum xs)) /\
   (forall x, isNaN x = false -> same_value (or_zero x) x)) /\
  (forall fh row,
      (row !! "PDA / QTN VALUE" = None -> qtnValue (mapRow fh row) = zero) /\
      (row !! "PDA / QTN  COST" = None -> row !! "PDA / QTN COST" = None ->
       qtnCost (mapRow fh row) = zero) /\
      (row !! "PDA / QTN PROFIT" = None -> qtnProfit (mapRow fh row) = zero)) /\
  (ShipmentApp.totalRevenue (ShipmentApp.stats shipments) =
     sum (List.map ShipmentApp.revenue shipments) /\
   ShipmentApp.totalCost (ShipmentApp.stats shipments) =
     sum (List.map ShipmentApp.cost shipments) /\
   ShipmentApp.totalProfit (ShipmentApp.stats shipments) =
     sub (ShipmentApp.totalRevenue (ShipmentApp.stats shipments))
         (ShipmentApp.totalCost (ShipmentApp.stats shipments))).
Proof.
  split; [|split; [|split]].
  - unfold App.stats; cbn [App.totalQtnValue App.totalCost App.totalProfit].
    repeat split; apply reduce_sum_from.
  - split; [reflexivity|]. split; [exact sum_snoc|]. split.
    + intros xs x Hx. rewrite sum_snoc. apply add_zero_same_value, Hx.
    + exact or_zero_same_value.
  - intros fh row. unfold mapRow; cbn [qtnValue qtnCost qtnProfit].
    repeat split.
    + intros ->. reflexivity.
    + intros -> ->. reflexivity.
    + intros ->. reflexivity.
  - unfold ShipmentApp.stats;
      cbn [ShipmentApp.totalRevenue ShipmentApp.totalCost
           ShipmentApp.totalProfit].
    repeat split; apply reduce_sum_from.
Qed.

Lemma C6_stats_sums_witness :
  let subset := [priced "MV A" "PRO" (of_Z 100) (of_Z 60) (of_Z 40)] in
  same_value
    (sum (List.map qtnProfit subset ++ [zero]))
    (App.totalProfit (App.stats subset)).
Proof.
  cbv zeta.
  destruct (C6_stats_sums
              [priced "MV A" "PRO" (of_Z 100) (of_Z 60) (of_Z 40)] [])
    as ((_ & _ & Hp) & (_ & _ & Hz & _) & _).
  rewrite Hp. apply Hz. reflexivity.
Defined.

Example percentage_third : App.percentage (of_Z 1) (of_Z 3) = of_Z 33.
Proof. vm_compute. reflexivity. Qed.

Example percentage_two_thirds : App.percentage (of_Z 2) (of_Z 3) = of_Z 67.
Proof. vm_compute. reflexivity. Qed.

Example percentage_tie_rounds_up : App.percentage (of_Z 1) (of_Z 8) = of_Z 13.
Proof. vm_compute. reflexivity. Qed.

Example percentage_all : App.percentage (of_Z 7) (of_Z 7) = of_Z 100.
Proof. vm_compute. reflexivity. Qed.

(** The quotient and the product are rounded to binary64 before
    [Math.round]: 23 of 40 is 57.49999999999999 and shows as 57. *)
Example percentage_binary64 : App.percentage (of_Z 23) (of_Z 40) = of_Z 57.
Proof. vm_compute. reflexivity. Qed.

(** C9: the percentage of a category card is
    [Math.round(count / total * 100)] when [total > 0], which is the case
    for the length of every non-empty record list, and 0 otherwise, in
    particular when [total] is 0. On every non-empty record list the three
    category cards show that rounded quotient of the number of records of
    the category by the number of records. On the empty record set every
    sum of the statistics is 0, every count is 0, and every category
    percentage is 0 (on the shipment dashboard too, every total of the empty
    set is 0). *)
Theorem C9_percentage_guard_and_empty (count total : number) :
  (App.percentage count zero = zero /\
   (gt total zero = true ->
    App.percentage count total =
    Math_round (mul (div count total) (of_Z 100))) /\
   (gt total zero = false -> App.percentage count total = zero) /\
   (forall records : list Inquiry,
       records <> [] ->
       App.percentage count (App.length_number records) =
       Math_round (mul (div count (App.length_number records)) (of_Z 100)))) /\
  (forall records : list Inquiry,
      records <> [] ->
      App.category_percentages records =
      List.map
        (fun cat =>
           Math_round
             (mul (div (App.length_number
                          (List.filter
                             (fun i => String.eqb (category i) cat) records))
                       (App.length_number records))
                  (of_Z 100)))
        ["PRO"; "DEC"; "ENG"]) /\
  (App.stats [] = App.mkStats zero zero zero zero 0 0 /\
   (forall status, App.count_update status [] = 0%nat) /\
   App.category_percentages [] = [zero; zero; zero]) /\
  ShipmentApp.stats [] =
  ShipmentApp.mkStats zero zero zero ShipmentApp.literal0 zero.
Proof.
  assert (Hpos : forall records : list Inquiry,
             records <> [] -> gt (App.length_number records) zero = true).
  { intros [|r records] Hne; [congruence|].
    unfold App.length_number. cbn [length].
    rewrite Nat2Z.inj_succ, <- Z.add_1_r.
    destruct (Z.of_nat (length records) + 1) as [|p|p] eqn:E; try lia.
    apply of_Z_positive. }
  split; [|split; [|split; [repeat split|reflexivity]]].
  - unfold App.percentage. repeat split.
    + intros ->. reflexivity.
    + intros ->. reflexivity.
    + intros records Hne. rewrite (Hpos records Hne). reflexivity.
  - intros records Hne.
    unfold App.category_percentages, App.stats, App.percentage.
    cbn [App.totalInquiries List.map].
    change (of_Z (Z.of_nat (length records)))
      with (App.length_number records).
    rewrite (Hpos records Hne). reflexivity.
Qed.

Lemma C9_percentage_guard_and_empty_witness :
  (gt (of_Z 3) zero = true /\ App.percentage (of_Z 2) (of_Z 3) = of_Z 67) /\
  App.category_percentages
    [priced "MV A" "PRO" zero zero zero; priced "MV B" "PRO" zero zero zero;
     priced "MV C" "DEC" zero zero zero] =
  [of_Z 67; of_Z 33; zero].
Proof.
  split; [split; [reflexivity|]|].
  - destruct (C9_percentage_guard_and_empty (of_Z 2) (of_Z 3))
      as ((_ & H & _ & _) & _).
    rewrite (H eq_refl). vm_compute. reflexivity.
  - destruct (C9_percentage_guard_and_empty zero zero) as (_ & H & _).
    rewrite H by discriminate. vm_compute. reflexivity.
Defined.

(** ** Login *)

(** C10: submitting the login form calls [onLogin] exactly when the entered
    code equals the configured passcode, which is the environment value when
    one is set (and not empty) and ['1234'] otherwise; [onLogin] admits the
    user. On any other code the error flag is set, the form stops loading,
    [onLogin] is not called and the admission state is unchanged. *)
Theorem C10_login_admits_iff_code_matches
    (env : option string) (s : Login.State) (a : App.Admission) :
  ((Login.submit env s a).2 = true <-> Login.code s = Login.ACCESS_CODE env) /\
  (Login.code s = Login.ACCESS_CODE env ->
   (Login.submit env s a).1.2 = App.handleLogin a /\
   App.isAuthenticated (Login.submit env s a).1.2 = true) /\
  (Login.code s <> Login.ACCESS_CODE env ->
   Login.error (Login.submit env s a).1.1 = true /\
   Login.isLoading (Login.submit env s a).1.1 = false /\
   (Login.submit env s a).2 = false /\
   (Login.submit env s a).1.2 = a) /\
  (Login.ACCESS_CODE None = "1234" /\
   Login.ACCESS_CODE (Some "") = "1234" /\
   forall p, p <> "" -> Login.ACCESS_CODE (Some p) = p).
Proof.
  unfold Login.submit, Login.handleSubmit, Login.on_timeout. cbv zeta.
  destruct (String.eqb_spec (Login.code s) (Login.ACCESS_CODE env)) as [E|E];
    cbn [fst snd].
  - repeat split; auto; try congruence.
    intros p Hp. destruct p; [congruence | reflexivity].
  - repeat split; auto; try congruence.
    intros p Hp. destruct p; [congruence | reflexivity].
Qed.

Lemma C10_login_admits_iff_code_matches_witness :
  let a := App.mkAdmission false ∅ in
  (Login.submit None (Login.mkState "1234" false false) a).2 = true /\
  (Login.submit None (Login.mkState "0000" false false) a).1.2 = a.
Proof.
  cbv zeta. split.
  - apply (C10_login_admits_iff_code_matches None
             (Login.mkState "1234" false false) (App.mkAdmission false ∅)).
    reflexivity.
  - apply (C10_login_admits_iff_code_matches None
             (Login.mkState "0000" false false) (App.mkAdmission false ∅)).
    vm_compute. intros H. discriminate H.
Defined.

(** * Further properties of the code *)

(** ** The session *)

Section SessionProperties.
Import Session.

Lemma ACCESS_CODE_not_empty (env : option string) :
  Login.ACCESS_CODE env <> "".
Proof.
  unfold Login.ACCESS_CODE. destruct env as [[|c t]|]; simpl; discriminate.
Qed.

Lemma step_locked (env : option string) (e : Event) (s s' : State) :
  (forall v, e = Change v -> v <> Login.ACCESS_CODE env) ->
  locked env s -> step env e s = Some s' ->
  locked env s' /\
  App.localStorage (admission s') = App.localStorage (admission s).
Proof.
  intros He (Ha & Hc & Ht) Hs. destruct e as [e'|v| |]; cbn [step] in Hs.
  - destruct (App.step e' (app s)); [|discriminate Hs].
    injection Hs as <-. repeat split; assumption.
  - destruct (render (admission s) (app s)); try discriminate Hs.
    injection Hs as <-. split; [|reflexivity].
    split; [exact Ha|]. split; [|exact Ht].
    unfold handleChange. cbn. destruct (Login.error (form s)); cbn;
      apply He; reflexivity.
  - destruct (render (admission s) (app s)); try discriminate Hs.
    cbn in Hs. injection Hs as <-. split; [|reflexivity].
    split; [exact Ha|]. split; [exact Hc|].
    cbn. apply Forall_app. split; [exact Ht|].
    constructor; [exact Hc | constructor].
  - destruct (timeouts s) as [|c rest] eqn:Et; [discriminate Hs|].
    inversion Ht as [|c' rest' Hhead Hrest]; subst.
    unfold Login.on_timeout in Hs.
    destruct (String.eqb_spec c (Login.ACCESS_CODE env)) as [E|E];
      [contradiction|].
    injection Hs as <-. cbn. repeat split; assumption.
Qed.

Lemma run_locked (env : option string) (es : list Event) (s : State) :
  ~ In (Login.ACCESS_CODE env) (typed es) ->
  locked env s ->
  locked env (run env es s) /\
  App.localStorage (admission (run env es s)) =
  App.localStorage (admission s).
Proof.
  revert s. induction es as [|e es IH]; intros s Hn Hl; cbn [run].
  - split; [exact Hl | reflexivity].
  - assert (Hn' : ~ In (Login.ACCESS_CODE env) (typed es)).
    { intros Hin. apply Hn. destruct e; cbn; auto. }
    destruct (step env e s) as [s'|] eqn:Es; [|apply IH; assumption].
    destruct (step_locked env e s s') as [Hl' Hst]; try assumption.
    { intros v -> E. apply Hn. cbn. left. exact E. }
    destruct (IH s' Hn' Hl') as [Hl'' Hst'].
    split; [exact Hl'' | congruence].
Qed.

Lemma step_loading (e : App.Event) (s s' : App.State) :
  App.step e s = Some s' -> App.loading s = false -> App.loading s' = false.
Proof.
  destruct e as [| |now|c|]; cbn [App.step]; intros Hs Hl.
  - injection Hs as <-. exact Hl.
  - destruct (App.interval s); [|discriminate Hs]. injection Hs as <-.
    exact Hl.
  - destruct (App.clock s); [|discriminate Hs]. injection Hs as <-. exact Hl.
  - destruct (App.inflight s); [discriminate Hs|]. injection Hs as <-.
    destruct (App.mounted s); [|exact Hl].
    unfold App.loadData, App.loadData_settled.
    destruct (fetchSheetData c); reflexivity.
  - injection Hs as <-. exact Hl.
Qed.

Lemma step_screens (env : option string) (e : Event) (s s' : State) :
  step env e s = Some s' ->
  (App.loading (app s) = false -> App.loading (app s') = false) /\
  (App.isAuthenticated (admission s) = true ->
   App.isAuthenticated (admission s') = true).
Proof.
  intros Hs. destruct e as [e'|v| |]; cbn [step] in Hs.
  - destruct (App.step e' (app s)) as [a'|] eqn:Ea; [|discriminate Hs].
    injection Hs as <-. cbn. split; [apply (step_loading e' _ _ Ea) | auto].
  - destruct (render (admission s) (app s)); try discriminate Hs.
    injection Hs as <-. cbn. auto.
  - destruct (render (admission s) (app s)); try discriminate Hs.
    cbn in Hs. injection Hs as <-. cbn. auto.
  - destruct (timeouts s) as [|c rest]; [discriminate Hs|].
    unfold Login.on_timeout in Hs.
    destruct (String.eqb c (Login.ACCESS_CODE env));
      injection Hs as <-; cbn; auto.
Qed.

Lemma run_screens (env : option string) (es : list Event) (s : State) :
  (App.loading (app s) = false ->
   App.loading (app (run env es s)) = false) /\
  (App.isAuthenticated (admission s) = true ->
   App.isAuthenticated (admission (run env es s)) = true).
Proof.
  revert s. induction es as [|e es IH]; intros s; cbn [run]; [auto|].
  destruct (step env e s) as [s'|] eqn:Es; [|apply IH].
  destruct (step_screens env e s s' Es) as [H1 H2].
  destruct (IH s') as [H3 H4]. auto.
Qed.

End SessionProperties.

(** X1: a session that starts without the stored flag and in which the
    access code is never typed stays unauthenticated whatever else happens
    (fetches, timer ticks, submissions, timeouts): the dashboard is never
    rendered and the stored flag is never written. *)
Theorem X1_no_code_no_dashboard
    (env : option string) (storage : gmap string string) (now : Z)
    (es : list Session.Event) :
  Session.initial_isAuthenticated storage = false ->
  ~ In (Login.ACCESS_CODE env) (Session.typed es) ->
  let s := Session.run env es (Session.initial storage now) in
  App.isAuthenticated (Session.admission s) = false /\
  Session.render (Session.admission s) (Session.app s) <>
    Session.DashboardView /\
  App.localStorage (Session.admission s) = storage.
Proof.
  intros Hs Hn. cbv zeta.
  destruct (run_locked env es (Session.initial storage now) Hn)
    as [(Ha & _ & _) Hst].
  { split; [exact Hs|]. split; [|constructor].
    cbn. intros E. apply (ACCESS_CODE_not_empty env). symmetry. exact E. }
  split; [exact Ha|]. split; [|exact Hst].
  unfold Session.render. rewrite Ha. cbn.
  destruct (App.loading _); discriminate.
Qed.

Lemma X1_no_code_no_dashboard_witness :
  let es := [Session.Component App.Mount;
             Session.Component (App.Settle (NetworkError "offline"));
             Session.Change "0000"; Session.Submit; Session.Timeout;
             Session.Change "12345"; Session.Submit; Session.Timeout] in
  Session.render
    (Session.admission (Session.run None es (Session.initial ∅ 0)))
    (Session.app (Session.run None es (Session.initial ∅ 0))) <>
  Session.DashboardView.
Proof.
  cbv zeta.
  apply (X1_no_code_no_dashboard None ∅ 0
           [Session.Component App.Mount;
            Session.Component (App.Settle (NetworkError "offline"));
            Session.Change "0000"; Session.Submit; Session.Timeout;
            Session.Change "12345"; Session.Submit; Session.Timeout]).
  - reflexivity.
  - vm_compute. intros [H|[H|H]]; [discriminate H | discriminate H | exact H].
Defined.

(** X2: from the login form with no timeout pending, typing the access
    code, submitting and letting the timeout fire authenticates the session
    and shows the dashboard; the flag it stores makes every later session
    start authenticated. *)
Theorem X2_login_then_stored
    (env : option string) (s : Session.State) :
  Session.render (Session.admission s) (Session.app s) = Session.LoginForm ->
  Session.timeouts s = [] ->
  let s' := Session.run env [Session.Change (Login.ACCESS_CODE env);
                             Session.Submit; Session.Timeout] s in
  App.isAuthenticated (Session.admission s') = true /\
  Session.render (Session.admission s') (Session.app s') =
    Session.DashboardView /\
  Session.initial_isAuthenticated
    (App.localStorage (Session.admission s')) = true.
Proof.
  intros Hr Ht. cbv zeta. cbn [Session.run Session.step].
  rewrite Hr. cbn [Session.admission Session.app Session.form
                   Session.timeouts].
  rewrite Hr. cbn. rewrite Ht. cbn.
  unfold Login.on_timeout, Session.handleChange.
  assert (Hl : App.loading (Session.app s) = false).
  { unfold Session.render in Hr.
    destruct (App.isAuthenticated (Session.admission s)),
             (App.loading (Session.app s)); cbn in Hr;
      try discriminate Hr; reflexivity. }
  destruct (Login.error (Session.form s)); cbn;
    rewrite String.eqb_refl; cbn; unfold Session.render; cbn;
    rewrite Hl; repeat split;
    unfold Session.initial_isAuthenticated;
    rewrite lookup_insert_eq; reflexivity.
Qed.

Lemma X2_login_then_stored_witness :
  let s := Session.run None
             [Session.Component App.Mount;
              Session.Component (App.Settle (NetworkError "offline"))]
             (Session.initial ∅ 0) in
  App.isAuthenticated
    (Session.admission
       (Session.run None [Session.Change "1234"; Session.Submit;
                          Session.Timeout] s)) = true.
Proof.
  cbv zeta.
  apply (X2_login_then_stored None
           (Session.run None
              [Session.Component App.Mount;
               Session.Component (App.Settle (NetworkError "offline"))]
              (Session.initial ∅ 0))); reflexivity.
Defined.

(** X3: the screens only move forward. Once [loading] is false the
    spinner is never rendered again, whatever refreshes follow, and once
    the dashboard is rendered it stays rendered (nothing signs out). *)
Theorem X3_screens_only_move_forward
    (env : option string) (es : list Session.Event) (s : Session.State) :
  (Session.render (Session.admission s) (Session.app s) <> Session.Spinner ->
   Session.render (Session.admission (Session.run env es s))
                  (Session.app (Session.run env es s)) <> Session.Spinner) /\
  (Session.render (Session.admission s) (Session.app s) =
     Session.DashboardView ->
   Session.render (Session.admission (Session.run env es s))
                  (Session.app (Session.run env es s)) =
     Session.DashboardView).
Proof.
  destruct (run_screens env es s) as [Hl Ha].
  unfold Session.render.
  destruct (App.isAuthenticated (Session.admission s)),
           (App.loading (Session.app s)),
           (App.isAuthenticated (Session.admission (Session.run env es s))),
           (App.loading (Session.app (Session.run env es s)));
    cbn; split; intros H; try congruence;
    try (specialize (Hl eq_refl); congruence);
    try (specialize (Ha eq_refl); congruence).
Qed.

Lemma X3_screens_only_move_forward_witness :
  let s := Session.run None
             [Session.Component App.Mount;
              Session.Component (App.Settle (NetworkError "offline"))]
             (Session.initial ∅ 0) in
  let es := [Session.Component App.RefreshTick;
             Session.Component (App.Settle (NetworkError "offline"))] in
  Session.render (Session.admission (Session.run None es s))
                 (Session.app (Session.run None es s)) <> Session.Spinner.
Proof.
  cbv zeta.
  apply (X3_screens_only_move_forward None
           [Session.Component App.RefreshTick;
            Session.Component (App.Settle (NetworkError "offline"))]).
  vm_compute. intros H. discriminate H.
Defined.

(** ** Refresh cycles *)

Section RefreshProperties.

Lemma cycles_app (cs1 cs2 : list Cycle) (s : App.State) :
  cycles (cs1 ++ cs2) s = cycles cs2 (cycles cs1 s).
Proof. unfold cycles. apply fold_left_app. Qed.

Lemma cycles_rejected (cs : list Cycle) (s : App.State) :
  Forall rejected cs -> App.inquiries (cycles cs s) = App.inquiries s.
Proof.
  intros H. revert s. induction H as [|c cs [reason Hc] _ IH]; intros s.
  - reflexivity.
  - change (cycles (c :: cs) s) with (cycles cs (App.loadData c s)).
    rewrite IH.
    unfold App.loadData. rewrite Hc. reflexivity.
Qed.

Lemma loadData_loading (c : Cycle) (s : App.State) :
  App.loading (App.loadData c s) = false.
Proof.
  unfold App.loadData, App.loadData_settled.
  destruct (fetchSheetData c); reflexivity.
Qed.

Lemma cycles_loading (cs : list Cycle) (s : App.State) :
  cs <> [] -> App.loading (cycles cs s) = false.
Proof.
  intros H. destruct (List.exists_last H) as (pre & c & ->).
  rewrite cycles_app.
  change (cycles [c] (cycles pre s)) with (App.loadData c (cycles pre s)).
  apply loadData_loading.
Qed.

End RefreshProperties.

(** X4: the records are replaced wholesale, never merged. After any
    sequence of fetch cycles the held records are exactly those of the last
    cycle whose promise fulfilled (a network or status failure fulfils with
    the empty list and counts as one); cycles that rejected leave the
    records as they were; and after at least one cycle [loading] is
    false. *)
Theorem X4_last_fulfilled_cycle_wins (cs : list Cycle) (s : App.State) :
  (forall (pre : list Cycle) (c : Cycle) (post : list Cycle) data,
      cs = (pre ++ c :: post)%list ->
      fetchSheetData c = Fulfilled data ->
      Forall rejected post ->
      App.inquiries (cycles cs s) = data) /\
  (Forall rejected cs -> App.inquiries (cycles cs s) = App.inquiries s) /\
  (cs <> [] -> App.loading (cycles cs s) = false).
Proof.
  split; [|split; [apply cycles_rejected | apply cycles_loading]].
  intros pre c post data -> Hc Hpost.
  rewrite cycles_app.
  change (cycles (c :: post) (cycles pre s))
    with (cycles post (App.loadData c (cycles pre s))).
  rewrite (cycles_rejected post _ Hpost).
  unfold App.loadData. rewrite Hc. reflexivity.
Qed.

Lemma X4_last_fulfilled_cycle_wins_witness :
  let good :=
    Response true "OK"
      (Complete (mkParseResult (Some ["VESSEL NAME"])
                               [<["VESSEL NAME" := "MV A"]> ∅])) in
  let cs := [NetworkError "offline"; good;
             Response true "OK" (ParseError "bad quotes")] in
  length (App.inquiries (cycles cs (App.initial 0))) = 1%nat /\
  App.loading (cycles cs (App.initial 0)) = false.
Proof.
  cbv zeta.
  set (good := Response true "OK"
      (Complete (mkParseResult (Some ["VESSEL NAME"])
                               [<["VESSEL NAME" := "MV A"]> ∅]))).
  set (cs := [NetworkError "offline"; good;
              Response true "OK" (ParseError "bad quotes")]).
  destruct (X4_last_fulfilled_cycle_wins cs (App.initial 0))
    as (Hlast & _ & Hload).
  split.
  - rewrite (Hlast [NetworkError "offline"] good
               [Response true "OK" (ParseError "bad quotes")]
               (validData (mkParseResult (Some ["VESSEL NAME"])
                                         [<["VESSEL NAME" := "MV A"]> ∅]))).
    + vm_compute. reflexivity.
    + reflexivity.
    + reflexivity.
    + constructor; [exists "bad quotes"; reflexivity | constructor].
  - apply Hload. discriminate.
Defined.

(** ** Counts *)

Section CountProperties.

Lemma three_way_count {A : Type} (f : A -> string) (a b c : string)
    (l : list A) :
  a <> b -> a <> c -> b <> c ->
  (length (List.filter (fun x => String.eqb (f x) a) l) +
   length (List.filter (fun x => String.eqb (f x) b) l) +
   length (List.filter (fun x => String.eqb (f x) c) l) <= length l)%nat.
Proof.
  intros Hab Hac Hbc. induction l as [|x l IH]; cbn; [lia|].
  destruct (String.eqb_spec (f x) a) as [Ea|Ea],
           (String.eqb_spec (f x) b) as [Eb|Eb],
           (String.eqb_spec (f x) c) as [Ec|Ec]; cbn; try lia; congruence.
Qed.

End CountProperties.

(** X5: the cards never count a record twice. For every record list the
    confirmed, pending and cancelled counts together are at most the total,
    and so are the PRO, DEC and ENG counts together; in particular
    [confirmedOrders <= totalInquiries]. *)
Theorem X5_cards_within_total (records : list Inquiry) :
  (App.count_update "CONFIRMED" records + App.count_update "PENDING" records
   + App.count_update "CANCELLED" records
   <= App.totalInquiries (App.stats records))%nat /\
  (length (List.filter (fun i => String.eqb (category i) "PRO") records) +
   length (List.filter (fun i => String.eqb (category i) "DEC") records) +
   length (List.filter (fun i => String.eqb (category i) "ENG") records)
   <= App.totalInquiries (App.stats records))%nat /\
  (App.confirmedOrders (App.stats records)
   <= App.totalInquiries (App.stats records))%nat.
Proof.
  assert (H1 := three_way_count update "CONFIRMED" "PENDING" "CANCELLED"
                  records ltac:(discriminate) ltac:(discriminate)
                  ltac:(discriminate)).
  assert (H2 := three_way_count category "PRO" "DEC" "ENG"
                  records ltac:(discriminate) ltac:(discriminate)
                  ltac:(discriminate)).
  unfold App.count_update, App.stats in *; cbn [App.totalInquiries
    App.confirmedOrders]. unfold App.count_update. repeat split; lia.
Qed.

(** ** Record mapper *)

(** X6: a column the mapper does not read never changes a record. Adding
    or changing the cell of a header that is neither one of the headers
    read by name nor the first header leaves the mapped record, and whether
    the row is kept, as they were. *)
Theorem X6_other_columns_ignored
    (fh : option string) (row : gmap string string) (k v : string) :
  ~ In k recognized_headers -> k <> first_key fh ->
  mapRow fh (<[k := v]> row) = mapRow fh row /\
  keep (mapRow fh (<[k := v]> row)) = keep (mapRow fh row).
Proof.
  intros Hk Hf.
  assert (Hget : get (<[k := v]> row) fh = get row fh).
  { unfold get. destruct fh as [h|]; cbn in Hf;
      apply lookup_insert_ne; exact Hf. }
  assert (Hmap : mapRow fh (<[k := v]> row) = mapRow fh row).
  { unfold mapRow. rewrite Hget.
    repeat rewrite (lookup_insert_ne row k _ v)
      by (intros ->; apply Hk; cbn; tauto).
    reflexivity. }
  split; [exact Hmap | rewrite Hmap; reflexivity].
Qed.

Lemma X6_other_columns_ignored_witness :
  let row : gmap string string := <["VESSEL NAME" := "MV A"]> ∅ in
  mapRow (Some "") (<["NOTES" := "call back"]> row) = mapRow (Some "") row.
Proof.
  cbv zeta.
  apply (X6_other_columns_ignored (Some "")
           (<["VESSEL NAME" := "MV A"]> ∅) "NOTES" "call back").
  - vm_compute. intuition discriminate.
  - discriminate.
Defined.

(** Rows are processed one by one and in order: the output for a sheet
    made of two blocks of rows is the output for the first block followed
    by the output for the second, under the same header list; the output is
    never longer than the sheet. *)
Lemma validData_app
    (fields : option (list string)) (rows1 rows2 : list (gmap string string)) :
  validData (mkParseResult fields (rows1 ++ rows2)) =
  (validData (mkParseResult fields rows1) ++
   validData (mkParseResult fields rows2))%list /\
  (length (validData (mkParseResult fields (rows1 ++ rows2)))
   <= length rows1 + length rows2)%nat.
Proof.
  unfold validData, parsedData, firstHeader; cbn [meta_fields data].
  rewrite List.map_app, List.filter_app. split; [reflexivity|].
  rewrite List.length_app.
  pose proof (List.filter_length_le keep
                (List.map (mapRow match fields with
                                  | Some fields0 => head fields0
                                  | None => Some "FOLDER NUMBER"
                                  end) rows1)).
  pose proof (List.filter_length_le keep
                (List.map (mapRow match fields with
                                  | Some fields0 => head fields0
                                  | None => Some "FOLDER NUMBER"
                                  end) rows2)).
  rewrite !List.length_map in *. lia.
Qed.

(** X7: characters outside the digits, [.] and [-] never change the value
    of a cell: two texts that hold the same such characters in the same
    order parse to the same number, so a currency sign, a thousands
    separator or a blank may be inserted anywhere. *)
Theorem X7_parseNumber_ignores_noise (s t a b : string) (c : ascii) :
  (replace_non_numeric s = replace_non_numeric t ->
   parseNumber (Some s) = parseNumber (Some t)) /\
  (numeric_char c = false ->
   parseNumber (Some (a +:+ String c b)) = parseNumber (Some (a +:+ b))).
Proof.
  assert (H : forall s t, replace_non_numeric s = replace_non_numeric t ->
                          parseNumber (Some s) = parseNumber (Some t)).
  { intros s' t' E.
    rewrite (parseNumber_cleaned s'), (parseNumber_cleaned t'), E.
    reflexivity. }
  split; [apply H|].
  intros Hc. apply H. rewrite !replace_non_numeric_app. cbn. rewrite Hc.
  reflexivity.
Qed.

Lemma X7_parseNumber_ignores_noise_witness :
  parseNumber (Some "$ 1,234.50") = parseNumber (Some "1234.50") /\
  parseNumber (Some "1,234") = parseNumber (Some "1234").
Proof.
  split.
  - apply (X7_parseNumber_ignores_noise "$ 1,234.50" "1234.50" "" ""
             " "%char). reflexivity.
  - apply (X7_parseNumber_ignores_noise "" "" "1" "234" ","%char).
    reflexivity.
Defined.

(** ** Signs and digits of a cell *)

Section MoreBinary64.

Lemma shr_fexp_nonneg (m e : Z) (l : location) :
  0 <= m -> 0 <= shr_m (fst (shr_fexp prec emax m e l)).
Proof.
  intros Hm. unfold shr_fexp, shr.
  assert (Hsame : shr_m (shr_record_of_loc m l) = m).
  { destruct l as [|[]]; reflexivity. }
  destruct (fexp prec emax (Zdigits2 m + e) - e) as [|n|n]; cbn [fst];
    try (rewrite Hsame; exact Hm).
  apply iter_shr_1_m. rewrite Hsame. exact Hm.
Qed.

Lemma binary_round_aux_not_nan (sx : bool) (m e : Z) (l : location) :
  0 <= m -> isNaN (binary_round_aux prec emax sx m e l) = false.
Proof.
  intros Hm. unfold binary_round_aux.
  pose proof (shr_fexp_nonneg m e l Hm) as H1.
  destruct (shr_fexp prec emax m e l) as [mrs1 e1]. cbn [fst] in H1.
  pose proof (round_nearest_even_bounds
                (shr_m mrs1) (loc_of_shr_record mrs1)) as Hr.
  set (m2 := round_nearest_even (shr_m mrs1) (loc_of_shr_record mrs1)) in *.
  pose proof (shr_fexp_nonneg m2 e1 loc_Exact ltac:(lia)) as H2.
  destruct (shr_fexp prec emax m2 e1 loc_Exact) as [mrs2 e2].
  cbn [fst] in H2.
  destruct (shr_m mrs2) as [|p|p]; try lia; try reflexivity.
  destruct (e2 <=? emax - prec)%Z; reflexivity.
Qed.

Lemma binary_round_aux_opp (m e : Z) (l : location) :
  binary_round_aux prec emax true m e l =
  SFopp (binary_round_aux prec emax false m e l).
Proof.
  unfold binary_round_aux.
  destruct (shr_fexp prec emax m e l) as [mrs1 e1].
  destruct (shr_fexp prec emax _ e1 loc_Exact) as [mrs2 e2].
  destruct (shr_m mrs2); try reflexivity.
  destruct (e2 <=? emax - prec)%Z; reflexivity.
Qed.

Lemma RoundMV_opp (n k : Z) : RoundMV true n k = SFopp (RoundMV false n k).
Proof.
  unfold RoundMV. destruct n as [|p|p]; try reflexivity.
  unfold div, SFdiv.
  destruct (SFdiv_core_binary prec emax (Z.pos p) 0
              (Z.pos (Z.to_pos (10 ^ k))) 0) as [[mz ez] lz].
  apply binary_round_aux_opp.
Qed.

Lemma div_not_nan (s s' : bool) (p q : positive) :
  isNaN (div (S754_finite s p 0) (S754_finite s' q 0)) = false.
Proof.
  unfold div, SFdiv, SFdiv_core_binary.
  set (m' := match 0 - 0 - _ with
             | 0 => Z.pos p
             | Z.pos _ => Z.shiftl (Z.pos p) _
             | Z.neg _ => 0
             end).
  assert (Hm' : 0 <= m').
  { unfold m'. destruct (0 - 0 - _) as [|n|n]; try lia.
    apply Z.shiftl_nonneg. lia. }
  pose proof (Z_div_mod m' (Z.pos q) eq_refl) as Hdm.
  destruct (Z.div_eucl m' (Z.pos q)) as [qq r]. destruct Hdm as [Hq Hr].
  apply binary_round_aux_not_nan. nia.
Qed.

Lemma RoundMV_not_nan (neg : bool) (n k : Z) :
  isNaN (RoundMV neg n k) = false.
Proof.
  unfold RoundMV. destruct n; try reflexivity. apply div_not_nan.
Qed.

End MoreBinary64.

Section Literals.

Lemma span_digits_app (s : string) :
  s = fst (span_digits s) +:+ snd (span_digits s).
Proof.
  induction s as [|c t IH]; cbn [span_digits]; [reflexivity|].
  destruct (is_digit c); [|reflexivity].
  destruct (span_digits t) as [d r]. cbn [fst snd] in *.
  change (String c d +:+ r) with (String c (d +:+ r)). f_equal. exact IH.
Qed.

Lemma span_digits_all (d r : string) :
  all_chars is_digit d = true ->
  match r with String c _ => is_digit c = false | EmptyString => True end ->
  span_digits (d +:+ r) = (d, r).
Proof.
  intros Hd Hr. induction d as [|c d IH].
  - destruct r as [|c r]; [reflexivity|]. simpl in *. rewrite Hr.
    reflexivity.
  - cbn [all_chars] in Hd. apply andb_prop in Hd as [Hc Hd].
    change (String c d +:+ r) with (String c (d +:+ r)).
    cbn [span_digits]. rewrite Hc, (IH Hd). reflexivity.
Qed.

Lemma digit_numeric (c : ascii) : is_digit c = true -> numeric_char c = true.
Proof. intros H. unfold numeric_char. rewrite H. reflexivity. Qed.

Lemma digits_numeric (s : string) :
  all_chars is_digit s = true -> all_chars numeric_char s = true.
Proof.
  induction s as [|c t IH]; cbn [all_chars]; [reflexivity|].
  intros H. apply andb_prop in H as [Hc Ht].
  rewrite (digit_numeric c Hc), (IH Ht). reflexivity.
Qed.

Lemma all_chars_app (p : ascii -> bool) (a b : string) :
  all_chars p (a +:+ b) = all_chars p a && all_chars p b.
Proof.
  induction a as [|c a IH]; [reflexivity|].
  change (String c a +:+ b) with (String c (a +:+ b)).
  cbn [all_chars]. rewrite IH, andb_assoc. reflexivity.
Qed.

(** The texts [digits] and [digits.digits] (one side may be empty). *)
Lemma literal_integer (ip : string) :
  ip <> "" -> all_chars is_digit ip = true ->
  StrUnsignedDecimalLiteral ip = Some (MV_digits 0 ip, 0).
Proof.
  intros Hne Hd. unfold StrUnsignedDecimalLiteral.
  pose proof (span_digits_all ip "" Hd I) as H.
  rewrite append_empty_r in H.
  rewrite H. destruct ip; [congruence | reflexivity].
Qed.

Lemma literal_decimal (ip fp : string) :
  (ip <> "" \/ fp <> "") ->
  all_chars is_digit ip = true -> all_chars is_digit fp = true ->
  StrUnsignedDecimalLiteral (ip +:+ "." +:+ fp) =
  Some (MV_digits (MV_digits 0 ip) fp, Z.of_nat (String.length fp)).
Proof.
  intros Hne Hi Hf. unfold StrUnsignedDecimalLiteral.
  rewrite (span_digits_all ip ("." +:+ fp) Hi) by reflexivity.
  simpl.
  pose proof (span_digits_all fp "" Hf I) as H.
  rewrite append_empty_r in H.
  change ("" +:+ fp) with fp. rewrite H.
  destruct ip, fp; simpl; try reflexivity. destruct Hne; congruence.
Qed.

Lemma first_not_minus (s : string) (n k : Z) :
  StrUnsignedDecimalLiteral s = Some (n, k) ->
  StringToNumber s = RoundMV false n k /\
  StringToNumber (String "-" s) = RoundMV true n k.
Proof.
  intros H. split; [|cbn [StringToNumber]; rewrite H; reflexivity].
  destruct s as [|c t]; [discriminate H|].
  destruct (Ascii.eqb_spec c "-"%char) as [->|Hc]; [discriminate H|].
  unfold StringToNumber. rewrite H.
  destruct c as [[] [] [] [] [] [] [] []]; try reflexivity.
  exfalso. apply Hc. reflexivity.
Qed.

Lemma parseNumber_literal (s : string) (n k : Z) :
  all_chars numeric_char s = true ->
  StrUnsignedDecimalLiteral s = Some (n, k) ->
  parseNumber (Some s) = RoundMV false n k /\
  parseNumber (Some (String "-" s)) = RoundMV true n k.
Proof.
  intros Hs H. destruct (first_not_minus s n k H) as [H1 H2].
  unfold parseNumber. split.
  - destruct s as [|c t]; [discriminate H|]. cbn [truthy negb].
    rewrite or_empty_Some, (replace_non_numeric_id _ Hs), H1.
    cbv zeta. rewrite RoundMV_not_nan. reflexivity.
  - cbn [truthy negb]. rewrite or_empty_Some.
    rewrite (replace_non_numeric_id (String "-" s))
      by (cbn [all_chars]; rewrite Hs; reflexivity).
    rewrite H2. cbv zeta. rewrite RoundMV_not_nan. reflexivity.
Qed.

End Literals.

(** X9 *)
(** X8: a leading minus sign negates the value of a cell. For a text of
    digits, with or without a decimal point, the cell with a minus sign in
    front parses to the opposite of what the cell without it parses to. *)
Theorem X8_minus_negates (ip fp : string) :
  all_chars is_digit ip = true -> all_chars is_digit fp = true ->
  (ip <> "" ->
   parseNumber (Some ("-" +:+ ip)) = SFopp (parseNumber (Some ip))) /\
  (ip <> "" \/ fp <> "" ->
   parseNumber (Some ("-" +:+ ip +:+ "." +:+ fp)) =
   SFopp (parseNumber (Some (ip +:+ "." +:+ fp)))).
Proof.
  intros Hi Hf. split.
  - intros Hne.
    destruct (parseNumber_literal ip _ _ (digits_numeric ip Hi)
                (literal_integer ip Hne Hi)) as [H1 H2].
    change ("-" +:+ ip) with (String "-" ip).
    rewrite H1, H2. apply RoundMV_opp.
  - intros Hne.
    assert (Hnum : all_chars numeric_char (ip +:+ "." +:+ fp) = true).
    { rewrite !all_chars_app, (digits_numeric ip Hi), (digits_numeric fp Hf).
      reflexivity. }
    destruct (parseNumber_literal _ _ _ Hnum
                (literal_decimal ip fp Hne Hi Hf)) as [H1 H2].
    change ("-" +:+ ip +:+ "." +:+ fp) with (String "-" (ip +:+ "." +:+ fp)).
    rewrite H1, H2. apply RoundMV_opp.
Qed.

Lemma X8_minus_negates_witness :
  parseNumber (Some "-85000") = SFopp (parseNumber (Some "85000")) /\
  parseNumber (Some "-12.50") = SFopp (parseNumber (Some "12.50")).
Proof.
  split.
  - apply (proj1 (X8_minus_negates "85000" "" eq_refl eq_refl)).
    discriminate.
  - apply (proj2 (X8_minus_negates "12" "50" eq_refl eq_refl)).
    left. discriminate.
Defined.

(** ** Integers below 2^53 *)

Section Integers.

Lemma digits2_pos_iter_xO (p k : positive) :
  digits2_pos (Pos.iter xO p k) = (digits2_pos p + k)%positive.
Proof.
  induction k as [|k IH] using Pos.peano_ind.
  - cbn. lia.
  - rewrite Pos.iter_succ. cbn [digits2_pos]. rewrite IH. lia.
Qed.

Lemma shiftl_pos (p k : positive) :
  Z.shiftl (Z.pos p) (Z.pos k) = Z.pos (Pos.iter xO p k).
Proof.
  change (Z.shiftl (Z.pos p) (Z.pos k))
    with (Pos.iter (Z.mul 2) (Z.pos p) k).
  induction k as [|k IH] using Pos.peano_ind.
  - reflexivity.
  - rewrite !Pos.iter_succ, IH. reflexivity.
Qed.

(** A 53-bit mantissa with an exponent in range is left as it is. *)
Lemma shr_fexp_canonical (P : positive) (e : Z) :
  digits2_pos P = 53%positive -> -1074 <= e ->
  shr_fexp prec emax (Z.pos P) e loc_Exact =
  (Build_shr_record (Z.pos P) false false, e).
Proof.
  intros Hd He. unfold shr_fexp, shr. cbn [Zdigits2]. rewrite Hd.
  replace (fexp prec emax (53 + e) - e) with 0
    by (unfold fexp, emin, prec, emax; lia).
  reflexivity.
Qed.

Lemma binary_round_aux_canonical (P : positive) (e : Z) :
  digits2_pos P = 53%positive -> -1074 <= e <= 971 ->
  binary_round_aux prec emax false (Z.pos P) e loc_Exact =
  S754_finite false P e.
Proof.
  intros Hd He. unfold binary_round_aux.
  rewrite (shr_fexp_canonical P e Hd) by lia.
  cbn [shr_m loc_of_shr_record round_nearest_even].
  rewrite (shr_fexp_canonical P e Hd) by lia.
  cbn [shr_m].
  destruct (Z.leb_spec e (emax - prec)); [reflexivity|].
  unfold emax, prec in *. lia.
Qed.

Lemma digits_le_53 (p : positive) :
  Z.pos p < 2 ^ 53 -> Z.pos (digits2_pos p) <= 53.
Proof.
  intros H. apply (Zdigits2_le (Z.pos p) 53); lia.
Qed.

Lemma aligned_digits (p : positive) :
  Z.pos p < 2 ^ 53 -> digits2_pos (aligned p) = 53%positive.
Proof.
  intros H. pose proof (digits_le_53 p H) as Hd. unfold aligned.
  destruct (53 - Z.pos (digits2_pos p)) as [|k|k] eqn:E; try lia.
  rewrite digits2_pos_iter_xO. lia.
Qed.

Lemma of_Z_canonical (p : positive) :
  Z.pos p < 2 ^ 53 ->
  of_Z (Z.pos p) =
  S754_finite false (aligned p) (Z.pos (digits2_pos p) - 53).
Proof.
  intros H. pose proof (digits_le_53 p H) as Hd.
  pose proof (aligned_digits p H) as Ha.
  unfold of_Z, binary_normalize, binary_round, shl_align.
  replace (fexp prec emax (Z.pos (digits2_pos p) + 0))
    with (Z.pos (digits2_pos p) - 53)
    by (unfold fexp, emin, prec, emax; lia).
  unfold aligned in *.
  destruct (Z.pos (digits2_pos p) - 53 - 0) as [|k|k] eqn:E; try lia.
  - replace (53 - Z.pos (digits2_pos p)) with 0 in * by lia.
    replace (Z.pos (digits2_pos p) - 53) with 0 by lia.
    apply binary_round_aux_canonical; [exact Ha | lia].
  - replace (53 - Z.pos (digits2_pos p)) with (Z.pos k) in * by lia.
    apply binary_round_aux_canonical; [exact Ha | lia].
Qed.

Lemma div_by_one_canonical (p : positive) :
  Z.pos p < 2 ^ 53 ->
  div (S754_finite false p 0) (S754_finite false 1 0) =
  S754_finite false (aligned p) (Z.pos (digits2_pos p) - 53).
Proof.
  intros H. pose proof (digits_le_53 p H) as Hd.
  pose proof (aligned_digits p H) as Ha.
  unfold div, SFdiv, SFdiv_core_binary. cbn [Zdigits2 digits2_pos xorb].
  replace (Z.min (fexp prec emax (Z.pos (digits2_pos p) + 0 - (1 + 0)))
                 (0 - 0))
    with (Z.pos (digits2_pos p) - 54)
    by (unfold fexp, emin, prec, emax; lia).
  destruct (0 - 0 - (Z.pos (digits2_pos p) - 54)) as [|k|k] eqn:E; try lia.
  rewrite shiftl_pos.
  assert (Hk : Pos.iter xO p k = xO (aligned p)).
  { unfold aligned.
    destruct (53 - Z.pos (digits2_pos p)) as [|j|j] eqn:Ej; try lia.
    - assert (k = 1%positive) by lia. subst k. reflexivity.
    - assert (k = Pos.succ j) by lia. subst k. apply Pos.iter_succ. }
  rewrite Hk.
  assert (Hdiv : Z.div_eucl (Z.pos (aligned p)~0) 1 =
                 (Z.pos (aligned p)~0, 0)).
  { pose proof (Z.div_1_r (Z.pos (aligned p)~0)) as Hq.
    pose proof (Z.mod_1_r (Z.pos (aligned p)~0)) as Hr.
    unfold Z.div, Z.modulo in Hq, Hr.
    destruct (Z.div_eucl (Z.pos (aligned p)~0) 1) as [q r].
    cbn [fst snd] in *. congruence. }
  rewrite Hdiv.
  change (new_location 1 0) with loc_Exact.
  unfold binary_round_aux.
  assert (Hshr : shr_fexp prec emax (Z.pos (aligned p)~0)
                          (Z.pos (digits2_pos p) - 54) loc_Exact =
                 (Build_shr_record (Z.pos (aligned p)) false false,
                  Z.pos (digits2_pos p) - 53)).
  { unfold shr_fexp, shr. cbn [Zdigits2 digits2_pos]. rewrite Ha.
    replace (fexp prec emax (Z.pos (Pos.succ 53) +
                             (Z.pos (digits2_pos p) - 54)) -
             (Z.pos (digits2_pos p) - 54)) with 1
      by (unfold fexp, emin, prec, emax; lia).
    cbn. f_equal. lia. }
  rewrite Hshr. cbn [shr_m loc_of_shr_record round_nearest_even].
  rewrite (shr_fexp_canonical (aligned p) _ Ha) by lia.
  cbn [shr_m].
  destruct (Z.leb_spec (Z.pos (digits2_pos p) - 53) (emax - prec));
    [reflexivity|]. unfold emax, prec in *. lia.
Qed.

End Integers.

Lemma RoundMV_integer (n : Z) :
  0 <= n < 2 ^ 53 -> RoundMV false n 0 = of_Z n.
Proof.
  intros H. destruct n as [|p|p]; [reflexivity| |lia].
  unfold RoundMV. change (Z.to_pos (10 ^ 0)) with 1%positive.
  rewrite div_by_one_canonical, of_Z_canonical by lia. reflexivity.
Qed.

Lemma MV_digits_nonneg (s : string) (acc : Z) :
  all_chars is_digit s = true -> 0 <= acc -> 0 <= MV_digits acc s.
Proof.
  revert acc. induction s as [|c t IH]; intros acc Hd H; [exact H|].
  cbn [all_chars] in Hd. apply andb_prop in Hd as [Hc Ht].
  cbn [MV_digits]. apply IH; [exact Ht|].
  pose proof (digit_val_range c Hc). lia.
Qed.

(** X9: a cell of digits is read exactly. When what cleaning leaves of a
    cell is a non-empty run of digits whose value is below 2^53, the parsed
    number is that integer, with no rounding. *)
Theorem X9_integer_cells_exact (s ip : string) :
  replace_non_numeric s = ip -> ip <> "" ->
  all_chars is_digit ip = true -> MV_digits 0 ip < 2 ^ 53 ->
  parseNumber (Some s) = of_Z (MV_digits 0 ip).
Proof.
  intros Hs Hne Hd Hb.
  rewrite parseNumber_cleaned, Hs.
  destruct (parseNumber_literal ip _ _ (digits_numeric ip Hd)
              (literal_integer ip Hne Hd)) as [H _].
  rewrite H. apply RoundMV_integer.
  split; [apply MV_digits_nonneg; [exact Hd | lia] | exact Hb].
Qed.

Lemma X9_integer_cells_exact_witness :
  parseNumber (Some "$ 1,250") = of_Z 1250.
Proof.
  apply (X9_integer_cells_exact "$ 1,250" "1250");
    [reflexivity | discriminate | reflexivity | reflexivity].
Defined.

(** ** The month cell and the window, from the sheet *)

Section MonthCells.
Import MonthCell.

Lemma slice3_length (s : string) : (length (slice3 s) <= 3)%nat.
Proof. unfold slice3. apply List.firstn_le_length. Qed.

Lemma strip_ordinal_numbered (d rest : string) :
  d <> "" -> all_chars is_digit d = true ->
  strip_ordinal (d +:+ "." +:+ rest) = trimStart rest.
Proof.
  intros Hne Hd. unfold strip_ordinal.
  change ("." +:+ rest) with (String "."%char rest).
  rewrite (span_digits_all d (String "."%char rest) Hd) by reflexivity.
  destruct d; [congruence | reflexivity].
Qed.

Lemma strip_ordinal_plain (c : ascii) (t : string) :
  is_digit c = false -> strip_ordinal (String c t) = String c t.
Proof.
  intros H. unfold strip_ordinal. cbn [span_digits]. rewrite H. reflexivity.
Qed.

End MonthCells.

Import MonthCell.

(** X10: the month cell of the table drops a leading ordinal (digits, a
    dot and the white space after it, of any kind) and shows the first
    three UTF-16 code units of what is left; a month text that does not
    start with a digit is only cut to three code units; the cell never has
    more than three. *)
Theorem X10_month_cell_abbreviation (d ws name : string) (c : ascii) :
  (d <> "" -> all_chars is_digit d = true ->
   white ws -> trimStart name = name ->
   monthCell (d +:+ "." +:+ ws +:+ name) = firstn 3 (utf16 name)) /\
  (is_digit c = false ->
   monthCell (String c name) = firstn 3 (utf16 (String c name))) /\
  (length (monthCell name) <= 3)%nat.
Proof.
  unfold monthCell. repeat split.
  - intros Hne Hd Hw Hn.
    rewrite (strip_ordinal_numbered d _ Hne Hd),
      (trimStart_app_white ws name Hw), Hn. reflexivity.
  - intros Hc. rewrite (strip_ordinal_plain c name Hc). reflexivity.
  - apply slice3_length.
Qed.

Lemma X10_month_cell_abbreviation_witness :
  monthCell "02. February" = utf16 "Feb" /\
  monthCell ("02." +:+ encode 0xA0 +:+ "February") = utf16 "Feb" /\
  monthCell "März" = utf16 "Mär".
Proof.
  split; [|split].
  - apply (X10_month_cell_abbreviation "02" " " "February" "F"%char);
      [discriminate | reflexivity | | reflexivity].
    apply trimStart_empty_white. reflexivity.
  - apply (X10_month_cell_abbreviation "02" (encode 0xA0) "February"
             "F"%char); [discriminate | reflexivity | | reflexivity].
    apply trimStart_empty_white. vm_compute. reflexivity.
  - apply (X10_month_cell_abbreviation "" "" "ärz" "M"%char). reflexivity.
Defined.

Section WindowCells.

Lemma strict_eq_of_Z (n : Z) :
  0 <= n < 2 ^ 53 -> strict_eq (of_Z n) (of_Z n) = true.
Proof.
  intros H. destruct n as [|p|p]; [reflexivity| |lia].
  rewrite of_Z_canonical by lia.
  unfold strict_eq, SFeqb, SFcompare.
  rewrite Z.compare_refl, Pos.compare_cont_refl. reflexivity.
Qed.

Lemma parseNumber_spells (text : string) (n : Z) :
  spells text n ->
  parseNumber (Some text) = of_Z n /\ 0 <= n < 2 ^ 53.
Proof.
  intros (Hne & Hd & Hv & Hb). split.
  - rewrite parseNumber_cleaned.
    destruct (parseNumber_literal _ _ _ (digits_numeric _ Hd)
                (literal_integer _ Hne Hd)) as [H _].
    rewrite H, Hv. apply RoundMV_integer.
    split; [rewrite <- Hv; apply MV_digits_nonneg; [exact Hd | lia] | lia].
  - split; [rewrite <- Hv; apply MV_digits_nonneg; [exact Hd | lia] | lia].
Qed.

End WindowCells.

(** X11: a sheet row with a vessel name whose YEAR and DATE cells spell the
    year and the day of month of today or of yesterday, and whose
    upper-cased MONTH cell contains the upper-cased month name, is in the
    reporting window of the dashboard; the vessel name is one that trimming
    does not empty. *)
Theorem X11_sheet_row_in_window
    (toUpperCase : string -> string) (monthLong : Z -> string)
    (results : ParseResult) (row : gmap string string) (today day : Date)
    (y d m : string) :
  In row (data results) ->
  day = today \/ day = setDate_prev today ->
  row !! "YEAR" = Some y -> spells y (getFullYear day) ->
  row !! "DATE" = Some d -> spells d (getDate day) ->
  row !! "MONTH" = Some m ->
  contains (toUpperCase m) (toUpperCase (monthLong (getMonth day))) ->
  trim (or_empty (row !! "VESSEL NAME")) <> "" ->
  In (mapRow (firstHeader results) row)
     (App.filteredInquiries toUpperCase monthLong today (validData results)).
Proof.
  intros Hin Hday Hy Hys Hd Hds Hm Hc Hv.
  destruct (parseNumber_spells y _ Hys) as [Ey By].
  destruct (parseNumber_spells d _ Hds) as [Ed Bd].
  unfold App.filteredInquiries. cbv zeta. apply filter_In. split.
  - unfold validData. apply filter_In. split.
    + unfold parsedData. apply in_map. exact Hin.
    + apply keep_signal. left. exact Hv.
  - cbn [year date month mapRow]. rewrite Hy, Hd, Hm, Ey, Ed, !or_empty_Some.
    apply includes_spec in Hc.
    destruct Hday as [-> | ->].
    + rewrite (strict_eq_of_Z _ By), (strict_eq_of_Z _ Bd), Hc.
      reflexivity.
    + rewrite (strict_eq_of_Z _ By), (strict_eq_of_Z _ Bd), Hc.
      apply orb_true_r.
Qed.

Lemma X11_sheet_row_in_window_witness :
  let row : gmap string string :=
    <["YEAR" := "2026"]> (<["DATE" := "18"]> (<["MONTH" := "02. February"]>
      (<["VESSEL NAME" := "MV Aurora"]> ∅))) in
  let results := mkParseResult (Some ["FOLDER NUMBER"]) [row] in
  In (mapRow (firstHeader results) row)
     (App.filteredInquiries ascii_toUpperCase monthLong_en (mkDate 2026 1 19)
        (validData results)).
Proof.
  intros row results.
  apply (X11_sheet_row_in_window ascii_toUpperCase monthLong_en results row
           (mkDate 2026 1 19) (mkDate 2026 1 18) "2026" "18" "02. February").
  - left. reflexivity.
  - right. reflexivity.
  - reflexivity.
  - repeat split; discriminate.
  - reflexivity.
  - repeat split; discriminate.
  - reflexivity.
  - exists "02. ", "". reflexivity.
  - vm_compute. discriminate.
Defined.

(** ** Exact totals *)

Section ExactSums.

Lemma iter_xO_Z (p k : positive) :
  Z.pos (Pos.iter xO p k) = Z.pos p * 2 ^ Z.pos k.
Proof.
  rewrite <- shiftl_pos, Z.shiftl_mul_pow2 by lia. reflexivity.
Qed.

Lemma aligned_Z (v : positive) :
  Z.pos v < 2 ^ 53 ->
  Z.pos (aligned v) = Z.pos v * 2 ^ (53 - Z.pos (digits2_pos v)).
Proof.
  intros H. pose proof (digits_le_53 v H) as Hd. unfold aligned.
  destruct (53 - Z.pos (digits2_pos v)) as [|k|k] eqn:E; try lia.
  apply iter_xO_Z.
Qed.

Lemma shl_align_Z (m : positive) (e e' : Z) :
  e' <= e ->
  Z.pos (fst (shl_align m e e')) = Z.pos m * 2 ^ (e - e') /\
  snd (shl_align m e e') = e'.
Proof.
  intros H. unfold shl_align.
  destruct (e' - e) as [|d|d] eqn:E; try lia; cbn [fst snd].
  - replace (e - e') with 0 by lia. split; lia.
  - rewrite iter_xO_Z. replace (e - e') with (Z.pos d) by lia. split; lia.
Qed.

(** Shifting out bits that are all zero loses nothing. *)
Lemma iter_shr_1_exact (k : positive) :
  forall P : positive,
  SpecFloat.iter_pos shr_1 k
    (Build_shr_record (Z.pos (Pos.iter xO P k)) false false) =
  Build_shr_record (Z.pos P) false false.
Proof.
  induction k as [k IH|k IH|]; intros P.
  - cbn [SpecFloat.iter_pos Pos.iter shr_1 orb]. rewrite !IH. reflexivity.
  - cbn [SpecFloat.iter_pos Pos.iter]. rewrite !IH. reflexivity.
  - reflexivity.
Qed.

Lemma digits2_pos_pow2 (v M : positive) (j : Z) :
  0 <= j -> Z.pos M = Z.pos v * 2 ^ j ->
  Z.pos (digits2_pos M) = Z.pos (digits2_pos v) + j.
Proof.
  intros Hj H. destruct j as [|k|k]; [| |lia].
  - assert (M = v) by lia. subst M. lia.
  - rewrite <- iter_xO_Z in H. apply Pos2Z.inj in H. subst M.
    rewrite digits2_pos_iter_xO. lia.
Qed.

(** A mantissa [M] with exponent [e] that stands for the integer [v] below
    2^53 is rounded to the float of [v]. *)
Lemma binary_round_exact (M v : positive) (e : Z) :
  e <= 0 -> Z.pos M = Z.pos v * 2 ^ (- e) -> Z.pos v < 2 ^ 53 ->
  binary_round prec emax false M e = of_Z (Z.pos v).
Proof.
  intros He HM Hv. pose proof (digits_le_53 v Hv) as Hd.
  pose proof (aligned_digits v Hv) as Ha.
  pose proof (aligned_Z v Hv) as Haz.
  pose proof (digits2_pos_pow2 v M (- e) ltac:(lia) HM) as HdM.
  rewrite (of_Z_canonical v Hv).
  set (c := Z.pos (digits2_pos v) - 53) in *.
  unfold binary_round.
  replace (fexp prec emax (Z.pos (digits2_pos M) + e)) with c
    by (unfold fexp, emin, prec, emax, c; lia).
  assert (Hc : c = - (53 - Z.pos (digits2_pos v))) by (unfold c; lia).
  unfold shl_align.
  destruct (c - e) as [|k|d] eqn:E.
  - assert (M = aligned v).
    { apply Pos2Z.inj. rewrite HM, Haz. f_equal. f_equal. lia. }
    subst M. replace e with c by lia.
    apply binary_round_aux_canonical; [exact Ha | unfold c; lia].
  - assert (M = Pos.iter xO (aligned v) k).
    { apply Pos2Z.inj. rewrite HM, iter_xO_Z, Haz, <- Z.mul_assoc.
      rewrite <- Z.pow_add_r by lia. f_equal. f_equal. lia. }
    subst M. unfold binary_round_aux.
    assert (Hshr : shr_fexp prec emax (Z.pos (Pos.iter xO (aligned v) k)) e
                            loc_Exact =
                   (Build_shr_record (Z.pos (aligned v)) false false, c)).
    { unfold shr_fexp, shr. cbn [Zdigits2].
      replace (fexp prec emax (Z.pos (digits2_pos
                 (Pos.iter xO (aligned v) k)) + e) - e) with (Z.pos k)
        by (unfold fexp, emin, prec, emax; lia).
      cbn [shr_record_of_loc]. rewrite iter_shr_1_exact. f_equal. lia. }
    rewrite Hshr. cbn [shr_m loc_of_shr_record round_nearest_even].
    rewrite (shr_fexp_canonical (aligned v) c Ha) by (unfold c; lia).
    cbn [shr_m].
    destruct (Z.leb_spec c (emax - prec)); [reflexivity|].
    unfold emax, prec, c in *. lia.
  - assert (Hal : Pos.iter xO M d = aligned v).
    { apply Pos2Z.inj. rewrite iter_xO_Z, HM, Haz, <- Z.mul_assoc.
      rewrite <- Z.pow_add_r by lia. f_equal. f_equal. lia. }
    rewrite Hal.
    apply binary_round_aux_canonical; [exact Ha | unfold c; lia].
Qed.

Lemma binary_round_opp (M : positive) (e : Z) :
  binary_round prec emax true M e = SFopp (binary_round prec emax false M e).
Proof.
  unfold binary_round. destruct (shl_align M e _) as [mz ez].
  apply binary_round_aux_opp.
Qed.

Lemma of_Z_opp (p : positive) : of_Z (Z.neg p) = SFopp (of_Z (Z.pos p)).
Proof. apply binary_round_opp. Qed.

(** The float of a non-zero integer of magnitude below 2^53, as a signed
    mantissa and an exponent. *)
Lemma of_Z_nonzero (z : Z) :
  z <> 0 -> Z.abs z < 2 ^ 53 ->
  exists s m e, of_Z z = S754_finite s m e /\ e <= 0 /\
                cond_Zopp s (Z.pos m) = z * 2 ^ (- e).
Proof.
  intros Hz Hb. destruct z as [|p|p]; [congruence| |].
  - exists false, (aligned p), (Z.pos (digits2_pos p) - 53).
    pose proof (digits_le_53 p Hb).
    split; [apply of_Z_canonical; exact Hb|]. split; [lia|].
    cbn [cond_Zopp]. rewrite aligned_Z by exact Hb. f_equal. f_equal. lia.
  - exists true, (aligned p), (Z.pos (digits2_pos p) - 53).
    assert (Hp : Z.pos p < 2 ^ 53) by lia.
    pose proof (digits_le_53 p Hp).
    split; [rewrite of_Z_opp, (of_Z_canonical p Hp); reflexivity|].
    split; [lia|].
    cbn [cond_Zopp]. rewrite aligned_Z by exact Hp.
    replace (- (Z.pos (digits2_pos p) - 53))
      with (53 - Z.pos (digits2_pos p)) by lia.
    lia.
Qed.

Lemma cond_Zopp_shl_align (s : bool) (m : positive) (e e' : Z) (z : Z) :
  e' <= e -> e <= 0 -> cond_Zopp s (Z.pos m) = z * 2 ^ (- e) ->
  cond_Zopp s (Z.pos (fst (shl_align m e e'))) = z * 2 ^ (- e').
Proof.
  intros H He Hm. destruct (shl_align_Z m e e' H) as [Hs _].
  replace (- e') with (- e + (e - e')) by lia.
  rewrite Z.pow_add_r, Z.mul_assoc, <- Hm by lia.
  destruct s; cbn [cond_Zopp] in *; rewrite Hs; lia.
Qed.

Lemma binary_normalize_exact (S z e : Z) :
  e <= 0 -> S = z * 2 ^ (- e) -> Z.abs z < 2 ^ 53 ->
  binary_normalize prec emax S e false = of_Z z.
Proof.
  intros He HS Hz.
  assert (Hp : 0 < 2 ^ (- e)) by (apply Z.pow_pos_nonneg; lia).
  destruct S as [|m|m]; cbn [binary_normalize].
  - assert (z = 0) by nia. subst z. reflexivity.
  - destruct z as [|v|v]; try lia.
    apply binary_round_exact; [exact He | exact HS | exact Hz].
  - destruct z as [|v|v]; try lia.
    rewrite binary_round_opp, of_Z_opp. f_equal.
    apply binary_round_exact; [exact He | lia | exact Hz].
Qed.

(** Adding two integers is exact while all values stay below 2^53. *)
Lemma add_of_Z (a b : Z) :
  Z.abs a < 2 ^ 53 -> Z.abs b < 2 ^ 53 -> Z.abs (a + b) < 2 ^ 53 ->
  add (of_Z a) (of_Z b) = of_Z (a + b).
Proof.
  intros Ha Hb Hab.
  destruct (Z.eq_dec a 0) as [->|Hna].
  - change (of_Z 0) with (S754_zero false). rewrite Z.add_0_l.
    destruct (Z.eq_dec b 0) as [->|Hnb]; [reflexivity|].
    destruct (of_Z_nonzero b Hnb Hb) as (s & m & e & -> & _). reflexivity.
  - destruct (of_Z_nonzero a Hna Ha) as (sa & ma & ea & Ea & Hea & Hma).
    destruct (Z.eq_dec b 0) as [->|Hnb].
    + rewrite Z.add_0_r, Ea. reflexivity.
    + destruct (of_Z_nonzero b Hnb Hb) as (sb & mb & eb & Eb & Heb & Hmb).
      rewrite Ea, Eb. unfold add, SFadd. cbv zeta.
      apply binary_normalize_exact; [lia | | exact Hab].
      rewrite (cond_Zopp_shl_align sa ma ea _ a), (cond_Zopp_shl_align sb mb eb _ b)
        by (try exact Hma; try exact Hmb; lia).
      lia.
Qed.

Lemma reduce_of_Z {A : Type} (f : A -> number) (amount : A -> Z)
    (l : list A) :
  forall acc,
  (forall r, In r l -> f r = of_Z (amount r)) ->
  Z.abs acc + fold_right Z.add 0 (List.map (fun r => Z.abs (amount r)) l)
    < 2 ^ 53 ->
  App.reduce (fun acc s => add acc (f s)) (of_Z acc) l =
  of_Z (acc + fold_right Z.add 0 (List.map amount l)).
Proof.
  unfold App.reduce.
  induction l as [|x l IH]; intros acc Hf Hb.
  - cbn. rewrite Z.add_0_r. reflexivity.
  - cbn [fold_left List.map fold_right] in *.
    assert (Hnn : 0 <= fold_right Z.add 0
                         (List.map (fun r => Z.abs (amount r)) l)).
    { clear. induction l as [|y l IH]; cbn [List.map fold_right]; lia. }
    rewrite (Hf x (or_introl eq_refl)), add_of_Z by lia.
    rewrite IH; [f_equal; lia | | lia].
    intros r Hr. apply Hf. right. exact Hr.
Qed.

End ExactSums.

(** X12: totals of whole amounts are exact. When the quotation values and
    the profits of the records are integers, negative ones included, and
    the sums of their magnitudes stay below 2^53, the total value and the
    total profit of the dashboard are the integer sums, with no rounding
    error. *)
Theorem X12_whole_amounts_total_exactly
    (records : list Inquiry) (value profit : Inquiry -> Z) :
  (forall r, In r records ->
             qtnValue r = of_Z (value r) /\ qtnProfit r = of_Z (profit r)) ->
  whole_sum (fun r => Z.abs (value r)) records < 2 ^ 53 ->
  whole_sum (fun r => Z.abs (profit r)) records < 2 ^ 53 ->
  App.totalQtnValue (App.stats records) = of_Z (whole_sum value records) /\
  App.totalProfit (App.stats records) = of_Z (whole_sum profit records).
Proof.
  intros Hf Hv Hp. unfold App.stats, whole_sum in *.
  cbn [App.totalQtnValue App.totalProfit].
  change zero with (of_Z 0). split.
  - rewrite (reduce_of_Z qtnValue value records 0);
      [reflexivity | intros r Hr; apply (Hf r Hr) | exact Hv].
  - rewrite (reduce_of_Z qtnProfit profit records 0);
      [reflexivity | intros r Hr; apply (Hf r Hr) | exact Hp].
Qed.

Lemma X12_whole_amounts_total_exactly_witness :
  let r := priced "MV Aurora" "PRO" (of_Z 1200) (of_Z 1500) (of_Z (-300)) in
  App.totalQtnValue (App.stats [r; r; r]) = of_Z 3600 /\
  App.totalProfit (App.stats [r; r; r]) = of_Z (-900).
Proof.
  intros r.
  apply (X12_whole_amounts_total_exactly [r; r; r] (fun _ => 1200)
           (fun _ => -300)).
  - intros x [<- | [<- | [<- | []]]]; split; reflexivity.
  - reflexivity.
  - reflexivity.
Defined.

(** ** The shipment data service *)

Import ShipmentApp ShipmentDataService.

Section SplitJoin.

Variable separator : string.
Hypothesis separator_not_empty : separator <> "".

Lemma append_assoc_cons (a : string) (c : ascii) (b : string) :
  (a +:+ String c "") +:+ b = a +:+ String c b.
Proof.
  induction a as [|x a IH].
  - reflexivity.
  - change (String x a +:+ String c "") with (String x (a +:+ String c "")).
    change (String x (a +:+ String c "") +:+ b)
      with (String x ((a +:+ String c "") +:+ b)).
    rewrite IH. reflexivity.
Qed.

Lemma split_from_not_nil (k : nat) (cur s : string) :
  split_from separator k cur s <> [].
Proof.
  revert k cur. induction s as [|c t IH]; intros k cur; [discriminate|].
  cbn [split_from]. destruct k as [|k]; [|apply IH].
  destruct (startsWith (String c t) separator); [discriminate | apply IH].
Qed.

Lemma split_from_skip (u rest cur : string) :
  split_from separator (String.length u) cur (u +:+ rest) =
  split_from separator 0 cur rest.
Proof.
  induction u as [|c u IH]; [reflexivity|].
  change (String c u +:+ rest) with (String c (u +:+ rest)).
  cbn [String.length split_from]. exact IH.
Qed.

Lemma startsWith_app (needle rest : string) :
  startsWith (needle +:+ rest) needle = true.
Proof.
  induction needle as [|c n IH]; [destruct rest; reflexivity|].
  change (String c n +:+ rest) with (String c (n +:+ rest)).
  cbn [startsWith]. rewrite Ascii.eqb_refl, IH. reflexivity.
Qed.

Lemma startsWith_inv (needle s : string) :
  startsWith s needle = true -> exists rest, s = needle +:+ rest.
Proof.
  revert s. induction needle as [|c n IH]; intros s H.
  - exists s. reflexivity.
  - destruct s as [|b s]; [discriminate|]. cbn [startsWith] in H.
    apply andb_prop in H as [Hc Hs]. apply Ascii.eqb_eq in Hc. subst b.
    destruct (IH s Hs) as [rest ->]. exists rest. reflexivity.
Qed.

Lemma split_from_found (cur rest : string) :
  split_from separator 0 cur (separator +:+ rest) =
  cur :: split_from separator 0 "" rest.
Proof.
  pose proof split_from_skip as Hskip.
  pose proof (startsWith_app separator rest) as Hs.
  destruct separator as [|c n]; [congruence|].
  change (String c n +:+ rest) with (String c (n +:+ rest)) in *.
  cbn [split_from]. rewrite Hs. f_equal.
  cbn [String.length]. rewrite Nat.sub_1_r. cbn [Nat.pred].
  apply Hskip.
Qed.

Lemma join_cons (p : string) (l : list string) :
  l <> [] -> join separator (p :: l) = p +:+ separator +:+ join separator l.
Proof. destruct l; [congruence | reflexivity]. Qed.

Lemma join_split_from (n : nat) :
  forall s cur, (String.length s <= n)%nat ->
  join separator (split_from separator 0 cur s) = cur +:+ s.
Proof.
  induction n as [|n IH]; intros s cur Hn.
  - destruct s; [|cbn in Hn; lia]. cbn. rewrite append_empty_r. reflexivity.
  - destruct s as [|c t]; [cbn; rewrite append_empty_r; reflexivity|].
    destruct (startsWith (String c t) separator) eqn:Hs.
    + destruct (startsWith_inv _ _ Hs) as [rest E]. rewrite E.
      rewrite split_from_found, join_cons by apply split_from_not_nil.
      rewrite IH; [reflexivity|].
      assert (Hl : String.length (String c t) =
                   (String.length separator + String.length rest)%nat)
        by (rewrite E; apply length_append).
      destruct separator; [congruence|]. cbn [String.length] in *. lia.
    + cbn [split_from]. rewrite Hs.
      rewrite IH by (cbn [String.length] in Hn; lia).
      apply append_assoc_cons.
Qed.

Lemma join_split (s : string) :
  join separator (split separator s) = s.
Proof. apply (join_split_from (String.length s)). lia. Qed.

Lemma split_from_none (s cur : string) :
  includes s separator = false ->
  split_from separator 0 cur s = [cur +:+ s].
Proof.
  revert cur. induction s as [|c t IH]; intros cur H.
  - cbn. rewrite append_empty_r. reflexivity.
  - cbn [includes] in H. apply orb_false_elim in H as [H1 H2].
    cbn [split_from]. rewrite H1, (IH _ H2), append_assoc_cons.
    reflexivity.
Qed.

Lemma split_from_first (a b cur : string) :
  (forall a1 c a2, a = a1 +:+ String c a2 ->
   startsWith (String c a2 +:+ separator +:+ b) separator = false) ->
  split_from separator 0 cur (a +:+ separator +:+ b) =
  (cur +:+ a) :: split_from separator 0 "" b.
Proof.
  revert cur. induction a as [|c a IH]; intros cur H.
  - change ("" +:+ separator +:+ b) with (separator +:+ b).
    rewrite split_from_found, append_empty_r. reflexivity.
  - pose proof (H "" c a eq_refl) as H1.
    change (String c a +:+ separator +:+ b)
      with (String c (a +:+ separator +:+ b)) in *.
    cbn [split_from]. rewrite H1, IH, append_assoc_cons; [reflexivity|].
    intros a1 c' a2 E. apply (H (String c a1) c' a2). rewrite E.
    reflexivity.
Qed.

Lemma includes_suffix (a s : string) :
  includes (a +:+ s) separator = false -> includes s separator = false.
Proof.
  induction a as [|c a IH]; intros H; [exact H|].
  change (String c a +:+ s) with (String c (a +:+ s)) in H.
  cbn [includes] in H. apply orb_false_elim in H as [_ H]. exact (IH H).
Qed.

Lemma includes_app (a b : string) :
  includes (a +:+ separator +:+ b) separator = true.
Proof.
  induction a as [|c a IH].
  - change ("" +:+ separator +:+ b) with (separator +:+ b).
    destruct (separator +:+ b) eqn:E; cbn [includes];
      rewrite <- E, startsWith_app; reflexivity.
  - change (String c a +:+ separator +:+ b)
      with (String c (a +:+ separator +:+ b)).
    cbn [includes]. rewrite IH. apply orb_true_r.
Qed.

Lemma split_two_pieces (s cur : string) :
  includes s separator = true ->
  exists p q r, split_from separator 0 cur s = p :: q :: r.
Proof.
  revert cur. induction s as [|c t IH]; intros cur H.
  - cbn in H. destruct separator; [congruence | discriminate].
  - cbn [split_from].
    destruct (startsWith (String c t) separator) eqn:Hs.
    + destruct (split_from separator (String.length separator - 1) "" t)
        as [|q r] eqn:E; [exfalso; exact (split_from_not_nil _ _ _ E)|].
      exists cur, q, r. reflexivity.
    + cbn [includes] in H. rewrite Hs in H. apply (IH _ H).
Qed.

End SplitJoin.

Section Routes.

Lemma arrow_not_empty : arrow <> "".
Proof. discriminate. Qed.

Lemma dash_not_empty : "-" <> "".
Proof. discriminate. Qed.

(** The arrow has no proper prefix that is also a suffix, so it cannot
    begin inside a text without the arrow that is followed by it. *)
Lemma arrow_first (a b : string) :
  includes a arrow = false ->
  forall a1 c a2, a = a1 +:+ String c a2 ->
  startsWith (String c a2 +:+ arrow +:+ b) arrow = false.
Proof.
  intros H a1 c a2 E. rewrite E in H. apply includes_suffix in H.
  cbn [includes] in H. apply orb_false_elim in H as [H _].
  destruct a2 as [|d [|e a3]].
  - change (startsWith (String c (arrow +:+ b)) arrow = false).
    unfold arrow.
    change (startsWith (String c (String "226" (String "158"
                                    (String "148" b))))
                       (String "226" (String "158" (String "148" ""))) =
            false).
    cbn [startsWith].
    destruct (Ascii.eqb "226" c); reflexivity.
  - change (startsWith (String c (String d (String "226" (String "158"
                                    (String "148" b)))))
                       (String "226" (String "158" (String "148" ""))) =
            false).
    cbn [startsWith].
    destruct (Ascii.eqb "226" c); [|reflexivity].
    destruct (Ascii.eqb "158" d); reflexivity.
  - change (startsWith (String c (String d (String e
                                    (a3 +:+ arrow +:+ b))))
                       (String "226" (String "158" (String "148" ""))) =
            false).
    change (startsWith (String c (String d (String e a3)))
                       (String "226" (String "158" (String "148" ""))) =
            false) in H.
    cbn [startsWith] in H |- *.
    destruct (a3 +:+ arrow +:+ b), a3; exact H.
Qed.

Lemma dash_first (a b : string) :
  includes a "-" = false ->
  forall a1 c a2, a = a1 +:+ String c a2 ->
  startsWith (String c a2 +:+ "-" +:+ b) "-" = false.
Proof.
  intros H a1 c a2 E. rewrite E in H. apply includes_suffix in H.
  cbn [includes] in H. apply orb_false_elim in H as [H _].
  change (startsWith (String c (a2 +:+ "-" +:+ b)) (String "-" "") = false).
  change (startsWith (String c a2) (String "-" "") = false) in H.
  cbn [startsWith] in H |- *.
  destruct (a2 +:+ "-" +:+ b), a2; exact H.
Qed.

(** A route text with the arrow has an origin and a destination. *)
Lemma route_two_pieces (routeStr : string) :
  includes routeStr arrow = true ->
  exists origin destination rest,
    ShipmentDataService.split arrow routeStr = origin :: destination :: rest.
Proof. apply (split_two_pieces arrow arrow_not_empty). Qed.

End Routes.


(** X13: the departure-date cell shows what follows the first dash of the
    date text, and nothing when the text has no dash. *)
Theorem X13_date_cell_after_first_dash (y rest : string) :
  includes y "-" = false ->
  dateCell y = "" /\ dateCell (y +:+ "-" +:+ rest) = rest.
Proof.
  intros H. unfold dateCell, ShipmentDataService.split. split.
  - rewrite (split_from_none "-" y "" H). reflexivity.
  - rewrite (split_from_first "-" dash_not_empty y rest ""
               (dash_first y rest H)).
    cbn [List.tl]. apply (join_split "-" dash_not_empty).
Qed.

Lemma X13_date_cell_after_first_dash_witness :
  dateCell "12/05/2024" = "" /\ dateCell "2024-05-12" = "05-12".
Proof.
  split.
  - apply (X13_date_cell_after_first_dash "12/05/2024" ""). reflexivity.
  - apply (X13_date_cell_after_first_dash "2024" "05-12"). reflexivity.
Defined.

Section RouteCells.

Lemma parseRoute_none (a : string) :
  includes a arrow = false -> parseRoute a = ("Unknown", "Unknown").
Proof. intros H. unfold parseRoute. rewrite H. reflexivity. Qed.

Lemma parseRoute_first (a b : string) :
  includes a arrow = false ->
  parseRoute (a +:+ arrow +:+ b) =
  (trim a, trim (List.hd "" (ShipmentDataService.split arrow b))).
Proof.
  intros H. unfold parseRoute.
  rewrite (includes_app arrow).
  unfold ShipmentDataService.split at 1.
  rewrite (split_from_first arrow arrow_not_empty a b "" (arrow_first a b H)).
  change ("" +:+ a) with a. unfold ShipmentDataService.split.
  destruct (split_from arrow 0 "" b) as [|q r] eqn:E;
    [exfalso; exact (split_from_not_nil arrow _ _ _ E) | reflexivity].
Qed.

Lemma mapRow_route (env : Draw) (row : gmap string string) :
  (origin (mapRow env row), destination (mapRow env row)) =
  parseRoute (or_empty (row !! "Route (Origin-Dest)")).
Proof.
  unfold mapRow.
  destruct (parseRoute (or_empty (row !! "Route (Origin-Dest)"))).
  reflexivity.
Qed.

End RouteCells.

(** X14: a route cell [a ➔ b] gives the trimmed [a] as origin and the
    trimmed [b] as destination, a further leg after a second arrow is
    dropped, and a cell without the arrow, or no cell, gives Unknown for
    both. *)
Theorem X14_route_origin_destination
    (env : Draw) (row : gmap string string) (a b c : string) :
  includes a arrow = false -> includes b arrow = false ->
  (row !! "Route (Origin-Dest)" = Some (a +:+ arrow +:+ b) \/
   row !! "Route (Origin-Dest)" = Some (a +:+ arrow +:+ b +:+ arrow +:+ c) ->
   origin (mapRow env row) = trim a /\
   destination (mapRow env row) = trim b) /\
  (row !! "Route (Origin-Dest)" = None \/
   row !! "Route (Origin-Dest)" = Some a ->
   origin (mapRow env row) = "Unknown" /\
   destination (mapRow env row) = "Unknown").
Proof.
  intros Ha Hb. pose proof (mapRow_route env row) as H. split.
  - intros Hr.
    assert (E : parseRoute (or_empty (row !! "Route (Origin-Dest)")) =
                (trim a, trim b)).
    { destruct Hr as [-> | ->].
      - rewrite or_empty_Some, (parseRoute_first a b Ha).
        unfold ShipmentDataService.split.
        rewrite (split_from_none arrow b "" Hb). reflexivity.
      - rewrite or_empty_Some, (parseRoute_first a _ Ha).
        unfold ShipmentDataService.split.
        rewrite (split_from_first arrow arrow_not_empty b c ""
                   (arrow_first b c Hb)). reflexivity. }
    rewrite E in H. inversion H. split; reflexivity.
  - intros Hr.
    assert (E : parseRoute (or_empty (row !! "Route (Origin-Dest)")) =
                ("Unknown", "Unknown")).
    { destruct Hr as [-> | ->].
      - reflexivity.
      - rewrite or_empty_Some. apply (parseRoute_none a Ha). }
    rewrite E in H. inversion H. split; reflexivity.
Qed.

Lemma X14_route_origin_destination_witness :
  let row : gmap string string :=
    <["Route (Origin-Dest)" := "Singapore ➔ Rotterdam"]> ∅ in
  let spaced : gmap string string :=
    <["Route (Origin-Dest)" :=
        "A" +:+ encode 0xA0 +:+ arrow +:+ encode 0xA0 +:+ "B"]> ∅ in
  (origin (mapRow (mkDraw 7 "2024-05-12") row) = "Singapore" /\
   destination (mapRow (mkDraw 7 "2024-05-12") row) = "Rotterdam") /\
  (origin (mapRow (mkDraw 7 "2024-05-12") spaced) = "A" /\
   destination (mapRow (mkDraw 7 "2024-05-12") spaced) = "B").
Proof.
  intros row spaced. split.
  - apply (X14_route_origin_destination (mkDraw 7 "2024-05-12") row
             "Singapore " " Rotterdam" "");
      [reflexivity | reflexivity | left; reflexivity].
  - apply (X14_route_origin_destination (mkDraw 7 "2024-05-12") spaced
             ("A" +:+ encode 0xA0) (encode 0xA0 +:+ "B") "");
      [reflexivity | reflexivity | left; reflexivity].
Defined.

Section ShipmentTotals.

Lemma add_nan_l (x y : number) : isNaN x = true -> isNaN (add x y) = true.
Proof. destruct x; try discriminate. destruct y; reflexivity. Qed.

Lemma add_nan_r (x y : number) : isNaN y = true -> isNaN (add x y) = true.
Proof. destruct y; try discriminate. destruct x; reflexivity. Qed.

Lemma sub_nan_l (x y : number) : isNaN x = true -> isNaN (sub x y) = true.
Proof. destruct x; try discriminate. destruct y; reflexivity. Qed.

Lemma reduce_nan {A : Type} (f : A -> number) (l : list A) (acc : number) :
  isNaN acc = true ->
  isNaN (App.reduce (fun acc s => add acc (f s)) acc l) = true.
Proof.
  unfold App.reduce. revert acc.
  induction l as [|x l IH]; intros acc H; [exact H|].
  cbn [fold_left]. apply IH, add_nan_l, H.
Qed.

Lemma reduce_nan_in {A : Type} (f : A -> number) (l : list A) (x : A)
    (acc : number) :
  In x l -> isNaN (f x) = true ->
  isNaN (App.reduce (fun acc s => add acc (f s)) acc l) = true.
Proof.
  revert acc. induction l as [|y l IH]; intros acc Hin Hx; [destruct Hin|].
  destruct Hin as [-> | Hin].
  - apply (reduce_nan f l), add_nan_r, Hx.
  - apply (IH (add acc (f y)) Hin Hx).
Qed.

Lemma keep_nan (item : Shipment) :
  isNaN (revenue item) = true -> ShipmentDataService.keep item = true.
Proof.
  intros H. unfold ShipmentDataService.keep.
  destruct (revenue item); try discriminate. apply orb_true_r.
Qed.

End ShipmentTotals.

(** X15: the shipment mapper has no guard against cells that are not
    numbers: one row whose revenue cell converts to NaN is kept by the row
    filter and makes the total revenue and the total profit of the
    dashboard NaN, whatever the other rows hold. *)
Theorem X15_bad_revenue_cell_poisons_totals
    (rows : list (Draw * gmap string string))
    (env : Draw) (row : gmap string string) :
  In (env, row) rows ->
  isNaN (numberOf (row !! "Revenue ($)")) = true ->
  isNaN (totalRevenue (stats (validData rows))) = true /\
  isNaN (totalProfit (stats (validData rows))) = true.
Proof.
  intros Hin Hn.
  assert (Hr : isNaN (totalRevenue (stats (validData rows))) = true).
  { apply (reduce_nan_in revenue _ (mapRow env row)).
    - unfold validData. apply filter_In. split.
      + apply (in_map (fun er => mapRow (fst er) (snd er)) rows (env, row)).
        exact Hin.
      + apply keep_nan.
        unfold mapRow. destruct (parseRoute _). exact Hn.
    - unfold mapRow. destruct (parseRoute _). exact Hn. }
  split; [exact Hr|]. apply sub_nan_l. exact Hr.
Qed.

Lemma X15_bad_revenue_cell_poisons_totals_witness :
  let good : gmap string string :=
    <["Vessel Name" := "Ever Given"]> (<["Revenue ($)" := "$280,000"]> ∅) in
  let bad : gmap string string :=
    <["Vessel Name" := "Maersk Alabama"]> (<["Revenue ($)" := "-"]> ∅) in
  let rows := [(mkDraw 1 "2024-05-12", good); (mkDraw 2 "2024-05-12", bad)] in
  isNaN (totalRevenue (stats (validData rows))) = true /\
  isNaN (totalProfit (stats (validData rows))) = true.
Proof.
  intros good bad rows.
  apply (X15_bad_revenue_cell_poisons_totals rows (mkDraw 2 "2024-05-12")
           bad).
  - right. left. reflexivity.
  - reflexivity.
Defined.

(** X16: the shipment row filter looks at the vessel name and the revenue
    only. A row with a vessel name other than the default text is kept; a
    row without a vessel name and without a revenue cell is dropped, and a
    row that is kept has a non-empty identifier and vessel name. *)
Theorem X16_shipment_row_filter
    (env : Draw) (row : gmap string string) (name : string) :
  (row !! "Vessel Name" = Some name -> name <> "" ->
   name <> "Unknown Vessel" ->
   ShipmentDataService.keep (mapRow env row) = true) /\
  (truthy (row !! "Vessel Name") = false ->
   truthy (row !! "Revenue ($)") = false ->
   ShipmentDataService.keep (mapRow env row) = false) /\
  id (mapRow env row) <> "" /\ vesselName (mapRow env row) <> "".
Proof.
  unfold ShipmentDataService.keep, mapRow. destruct (parseRoute _) as [o d].
  cbn [vesselName revenue id]. repeat split.
  - intros -> Hne Hu. destruct name as [|c t]; [congruence|].
    cbn [or_else truthy or_empty].
    destruct (String.eqb_spec (String c t) "Unknown Vessel"); [congruence|].
    reflexivity.
  - intros Hv Hr. unfold or_else, numberOf. rewrite Hv, Hr. reflexivity.
  - unfold or_else.
    destruct (truthy (row !! "Shipment ID")) eqn:E.
    + destruct (row !! "Shipment ID") as [[|c t]|]; discriminate.
    + discriminate.
  - unfold or_else.
    destruct (truthy (row !! "Vessel Name")) eqn:E.
    + destruct (row !! "Vessel Name") as [[|c t]|]; discriminate.
    + discriminate.
Qed.

Lemma X16_shipment_row_filter_witness :
  let named : gmap string string :=
    <["Vessel Name" := "Ever Given"]> (<["Op. Costs ($)" := "12"]> ∅) in
  let unnamed : gmap string string :=
    <["Op. Costs ($)" := "12"]> (<["Payload (TEUs)" := "400"]> ∅) in
  ShipmentDataService.keep (mapRow (mkDraw 7 "2024-05-12") named) = true /\
  ShipmentDataService.keep (mapRow (mkDraw 7 "2024-05-12") unnamed) = false.
Proof.
  intros named unnamed. split.
  - apply (X16_shipment_row_filter (mkDraw 7 "2024-05-12") named
             "Ever Given"); [reflexivity | discriminate | discriminate].
  - apply (X16_shipment_row_filter (mkDraw 7 "2024-05-12") unnamed "");
      reflexivity.
Defined.
